(** * Task orchestration of the A2A agent servers

    A shallow embedding of the two task managers of the repository,
    [AgentTaskManager] (finala2e/task_manager.py) and
    [MathAgentTaskManager] (notebooks/math_agent_a2a.py), together with
    the parts of the [common] package they are built on.

    Python's [async def] bodies run sequentially between their awaits,
    so every handler is a program in a state-and-exception monad over a
    [World]: the task store, the registered push targets, the SSE queues
    and a log of the calls made so far.  A raised exception keeps the
    state changes made before it, as in Python. *)

From Stdlib Require Import ZArith String List Bool Lia.
From stdpp Require Import gmap strings list fin_maps.

Local Open Scope string_scope.
Local Open Scope list_scope.

(** ** Data model (common.types) *)

Inductive TaskState :=
| SUBMITTED | WORKING | INPUT_REQUIRED | COMPLETED | FAILED | CANCELED.

(** Content parts: a closed tagged variant; only text parts are read. *)
Inductive Part :=
| TextPart (text : string)
| FilePart (file : string)
| DataPart (data : string).

Record Message := { role : string; parts : list Part }.

Record TaskStatus := { state : TaskState; status_message : option Message }.

Record Artifact := {
  artifact_role : option string;
  artifact_parts : list Part;
  artifact_index : option Z;
  artifact_append : option bool }.

Record PushNotificationConfig := { url : string }.

Record TaskSendParams := {
  params_id : string;
  sessionId : string;
  acceptedOutputModes : list string;
  message : Message;
  pushNotification : option PushNotificationConfig;
  historyLength : option nat }.

Record Task := {
  task_id : string;
  task_sessionId : string;
  task_status : TaskStatus;
  task_artifacts : list Artifact;
  task_history : list TaskStatus }.

(** JSON-RPC error objects. *)
Inductive JSONRPCError :=
| InternalError (msg : string)
| InvalidParamsError (msg : string)
| IncompatibleTypesError.

Record JSONRPCResponse := { rpc_id : Z; rpc_error : option JSONRPCError }.

Record SendTaskResponse := {
  response_id : Z;
  result : option Task;
  error : option JSONRPCError }.

(** [SendTaskRequest] and [SendTaskStreamingRequest] carry the same fields. *)
Record SendTaskRequest := { request_id : Z; params : TaskSendParams }.
Abbreviation SendTaskStreamingRequest := SendTaskRequest.

(** What travels through a task's SSE queue: the two update events, and
    the error object the streaming run enqueues when it fails.  The two
    managers build the events with the keywords [taskId=] and [id=];
    both are taken to set the task id of the event. *)
Inductive SSEEvent :=
| TaskStatusUpdateEvent (id : string) (status : TaskStatus) (final : bool)
| TaskArtifactUpdateEvent (id : string) (artifact : Artifact)
| ErrorEvent (e : JSONRPCError).

(** What [on_send_task_subscribe] hands back: the lazy event sequence of
    [dequeue_events_for_sse], or an error response. *)
Inductive SubscribeResult :=
| SSEStream (req_id : Z) (id : string)
| ErrorResponse (r : JSONRPCResponse).

(** ** Exceptions *)

Inductive exn :=
| ValueError (msg : string)
| IndexError (msg : string)
| KeyError (key : string)
| NotFoundError (id : string)
| AlreadySubscribedError (id : string)
| ClosedQueueError (id : string)
| AttributeError (msg : string)
| AgentException (msg : string).

(** [str(e)], as interpolated by the f-strings of the handlers. *)
Definition str (e : exn) : string :=
  match e with
  | ValueError m | IndexError m | AttributeError m | AgentException m => m
  | KeyError k => "'" +:+ k +:+ "'"
  | NotFoundError i => "Task " +:+ i +:+ " not found"
  | AlreadySubscribedError i => "Task " +:+ i +:+ " already has a subscriber"
  | ClosedQueueError i => "Queue of task " +:+ i +:+ " is closed"
  end.

(** ** The agent collaborator

    Agent results are Python dicts; a key may be absent. *)
Record AgentDict := {
  is_task_complete : option bool;
  require_user_input : option bool;
  content : option string }.

Inductive Res (A : Type) :=
| Ok (a : A)
| Raise (e : exn).
Arguments Ok {A} a.
Arguments Raise {A} e.

(** An async generator: the increments it yields, then either a normal
    end or an exception. *)
Record AgentStream := {
  increments : list AgentDict;
  stream_failure : option exn }.

Record Agent := {
  SUPPORTED_CONTENT_TYPES : list string;
  invoke : string -> string -> Res AgentDict;
  stream : string -> string -> AgentStream }.

(** common.utils.push_notification_auth: the URL challenge is an oracle;
    it returns a verdict and never raises. *)
Record PushNotificationSenderAuth := {
  verify_push_notification_url : string -> bool }.

(** ** World and call log *)

Inductive Call :=
| call_upsert_task (id : string)
| call_update_store (id : string) (status : TaskStatus)
    (artifacts : option (list Artifact))
| call_set_push_notification_info (id : string) (c : PushNotificationConfig)
| call_send_task_notification (t : Task)
| call_send_push_notification (target : string) (data : Task)
| call_setup_sse_consumer (id : string) (resubscribe : bool)
| call_enqueue_events_for_sse (id : string) (ev : SSEEvent)
| call_agent_invoke (query sid : string)
| call_agent_stream (query sid : string)
| call_create_task (req : SendTaskRequest).

Record EventQueue := { backlog : list SSEEvent; closed : bool }.

Record World := {
  tasks : gmap string Task;
  push_notification_infos : gmap string PushNotificationConfig;
  task_sse_subscribers : gmap string EventQueue;
  calls : list Call }.

Definition empty_world : World :=
  {| tasks := ∅; push_notification_infos := ∅;
     task_sse_subscribers := ∅; calls := [] |}.

(** ** The monad of handlers *)

Definition M (A : Type) : Type := World -> Res A * World.

Definition ret {A} (a : A) : M A := fun w => (Ok a, w).

Definition raise {A} (e : exn) : M A := fun w => (Raise e, w).

Definition bind {A B} (m : M A) (k : A -> M B) : M B :=
  fun w =>
    match m w with
    | (Ok a, w') => k a w'
    | (Raise e, w') => (Raise e, w')
    end.

(** [try: m except Exception as e: h e] *)
Definition try_except {A} (m : M A) (h : exn -> M A) : M A :=
  fun w =>
    match m w with
    | (Ok a, w') => (Ok a, w')
    | (Raise e, w') => h e w'
    end.

Definition lift {A} (r : Res A) : M A := fun w => (r, w).

(** The four ways a world changes. *)
Definition add_call (c : Call) (w : World) : World :=
  {| tasks := tasks w;
     push_notification_infos := push_notification_infos w;
     task_sse_subscribers := task_sse_subscribers w;
     calls := calls w ++ [c] |}.

Definition put_task (id : string) (t : Task) (w : World) : World :=
  {| tasks := <[id := t]> (tasks w);
     push_notification_infos := push_notification_infos w;
     task_sse_subscribers := task_sse_subscribers w;
     calls := calls w |}.

Definition put_push_info (id : string) (c : PushNotificationConfig)
    (w : World) : World :=
  {| tasks := tasks w;
     push_notification_infos := <[id := c]> (push_notification_infos w);
     task_sse_subscribers := task_sse_subscribers w;
     calls := calls w |}.

Definition put_queue (id : string) (q : EventQueue) (w : World) : World :=
  {| tasks := tasks w;
     push_notification_infos := push_notification_infos w;
     task_sse_subscribers := <[id := q]> (task_sse_subscribers w);
     calls := calls w |}.

Definition log (c : Call) : M unit := fun w => (Ok tt, add_call c w).

Declare Scope m_scope.
Delimit Scope m_scope with m.
Notation "x <- m ;; k" := (bind m (fun x => k))
  (at level 100, m at next level, right associativity) : m_scope.
Notation "m ;; k" := (bind m (fun _ => k))
  (at level 100, right associativity) : m_scope.
Local Open Scope m_scope.

(** [async for item in gen: body item] *)
Fixpoint async_for (body : AgentDict -> M unit) (items : list AgentDict)
    (failure : option exn) : M unit :=
  match items with
  | [] => match failure with
          | None => ret tt
          | Some e => raise e
          end
  | item :: rest => body item ;; async_for body rest failure
  end.

(** [d[key]] and [d.get(key, default)] on an agent dict. *)
Definition getitem {A} (key : string) (field : option A) : M A :=
  match field with
  | Some v => ret v
  | None => raise (KeyError key)
  end.

Definition get_default {A} (field : option A) (default : A) : A :=
  match field with
  | Some v => v
  | None => default
  end.

(** ** The base class (common.server.task_manager, common.server.utils) *)

Module InMemoryTaskManager.

(** Modelled from the spec: [utils.are_modalities_compatible] is not in
    the sources; the accepted output modes must intersect the agent's
    supported content types. *)
Definition are_modalities_compatible
    (accepted supported : list string) : bool :=
  existsb (fun m => bool_decide (m ∈ supported)) accepted.

Definition new_task (p : TaskSendParams) : Task :=
  {| task_id := params_id p;
     task_sessionId := sessionId p;
     task_status := {| state := SUBMITTED; status_message := None |};
     task_artifacts := [];
     task_history := [] |}.

(** Modelled from the spec: [upsert_task] is not in the sources; a task
    unknown to the store is created SUBMITTED with empty history, a known
    one is returned unchanged. *)
Definition upsert_task (p : TaskSendParams) : M Task :=
  log (call_upsert_task (params_id p)) ;;
  fun w =>
    match tasks w !! params_id p with
    | Some t => (Ok t, w)
    | None => (Ok (new_task p), put_task (params_id p) (new_task p) w)
    end.

Definition updated (t : Task) (status : TaskStatus)
    (artifacts : option (list Artifact)) : Task :=
  {| task_id := task_id t;
     task_sessionId := task_sessionId t;
     task_status := status;
     task_artifacts := task_artifacts t ++ get_default artifacts [];
     task_history := task_history t ++ [task_status t] |}.

(** Modelled from the spec: [update_store] is not in the sources; it
    fails on an unknown id, otherwise sets the status, appends the
    artifacts, appends the previous status to the history and returns
    the updated task. *)
Definition update_store (id : string) (status : TaskStatus)
    (artifacts : option (list Artifact)) : M Task :=
  log (call_update_store id status artifacts) ;;
  fun w =>
    match tasks w !! id with
    | None => (Raise (NotFoundError id), w)
    | Some t =>
        (Ok (updated t status artifacts),
         put_task id (updated t status artifacts) w)
    end.

(** Modelled from the spec: [append_task_history] is not in the sources;
    a copy of the task whose history keeps the last [n] entries, all of
    them when [n] is absent. *)
Definition append_task_history (t : Task) (n : option nat) : Task :=
  {| task_id := task_id t;
     task_sessionId := task_sessionId t;
     task_status := task_status t;
     task_artifacts := task_artifacts t;
     task_history :=
       match n with
       | None => task_history t
       | Some k => skipn (length (task_history t) - k) (task_history t)
       end |}.

(** Modelled from the spec: the push-target association of the store. *)
Definition set_push_notification_info (id : string)
    (c : PushNotificationConfig) : M unit :=
  log (call_set_push_notification_info id c) ;;
  fun w => (Ok tt, put_push_info id c w).

Definition has_push_notification_info (id : string) : M bool :=
  fun w => (Ok (bool_decide (is_Some (push_notification_infos w !! id))), w).

Definition get_push_notification_info (id : string)
    : M (option PushNotificationConfig) :=
  fun w => (Ok (push_notification_infos w !! id), w).

(** Modelled from the spec: [setup_sse_consumer] is not in the sources;
    a first subscription creates the queue, a second one without
    [resubscribe] is refused, a resubscription needs an existing queue. *)
Definition setup_sse_consumer (id : string) (resubscribe : bool) : M unit :=
  log (call_setup_sse_consumer id resubscribe) ;;
  fun w =>
    match task_sse_subscribers w !! id, resubscribe with
    | Some _, false => (Raise (AlreadySubscribedError id), w)
    | Some _, true => (Ok tt, w)
    | None, true => (Raise (NotFoundError id), w)
    | None, false =>
        (Ok tt, put_queue id {| backlog := []; closed := false |} w)
    end.

Definition is_final (ev : SSEEvent) : bool :=
  match ev with
  | TaskStatusUpdateEvent _ _ final => final
  | _ => false
  end.

(** Modelled from the spec: [enqueue_events_for_sse] is not in the
    sources; without a queue the call does nothing, a closed queue
    refuses the event with [ClosedQueueError], an open one appends it
    and closes after a final status event. *)
Definition enqueue_events_for_sse (id : string) (ev : SSEEvent) : M unit :=
  log (call_enqueue_events_for_sse id ev) ;;
  fun w =>
    match task_sse_subscribers w !! id with
    | None => (Ok tt, w)
    | Some q =>
        if closed q then (Raise (ClosedQueueError id), w)
        else (Ok tt, put_queue id {| backlog := backlog q ++ [ev];
                                     closed := is_final ev |} w)
    end.

(** Modelled from the spec: [send_push_notification] signs and posts the
    task; delivery failures are logged only, so the call never raises
    and never touches the store. *)
Definition send_push_notification (target : string) (data : Task) : M unit :=
  log (call_send_push_notification target data).

(** [asyncio.create_task]: the run is scheduled, not executed by the
    caller. *)
Definition create_task (req : SendTaskRequest) : M unit :=
  log (call_create_task req).

End InMemoryTaskManager.

(** ** finala2e/task_manager.py *)

Module AgentTaskManager.
Import InMemoryTaskManager.

Section self.
Variable agent : Agent.
Variable notification_sender_auth : option PushNotificationSenderAuth.

Definition _get_user_query (task_send_params : TaskSendParams) : M string :=
  match parts (message task_send_params) with
  | [] => raise (IndexError "list index out of range")
  | TextPart text :: _ => ret text
  | _ :: _ => raise (ValueError "Only text parts are supported")
  end.

Definition _validate_request (request : SendTaskRequest)
    : option JSONRPCResponse :=
  let task_send_params := params request in
  if negb (are_modalities_compatible
             (acceptedOutputModes task_send_params)
             (SUPPORTED_CONTENT_TYPES agent))
  then Some {| rpc_id := request_id request;
               rpc_error := Some IncompatibleTypesError |}
  else
    match pushNotification task_send_params with
    | Some c =>
        if String.eqb (url c) ""
        then Some {| rpc_id := request_id request;
                     rpc_error :=
                       Some (InvalidParamsError "Push notification URL is missing") |}
        else None
    | None => None
    end.

Definition send_task_notification (task : Task) : M unit :=
  log (call_send_task_notification task) ;;
  has <- has_push_notification_info (task_id task) ;;
  if negb has then ret tt
  else
    push_info <- get_push_notification_info (task_id task) ;;
    match push_info, notification_sender_auth with
    | Some info, Some _ => send_push_notification (url info) task
    | _, _ => ret tt
    end.

Definition set_push_notification_info (id : string)
    (push_notification_config : PushNotificationConfig) : M bool :=
  let register :=
    InMemoryTaskManager.set_push_notification_info id push_notification_config ;;
    ret true in
  match notification_sender_auth with
  | Some auth =>
      if negb (verify_push_notification_url auth (url push_notification_config))
      then ret false
      else register
  | None => register
  end.

Definition _process_agent_response (request : SendTaskRequest)
    (agent_response : AgentDict) : M SendTaskResponse :=
  let task_send_params := params request in
  let id := params_id task_send_params in
  let history_length := historyLength task_send_params in
  text <- getitem "content" (content agent_response) ;;
  let parts := [TextPart text] in
  let '(task_status, artifact) :=
    if get_default (require_user_input agent_response) false
    then ({| state := INPUT_REQUIRED;
             status_message := Some {| role := "agent"; parts := parts |} |},
          None)
    else ({| state := COMPLETED; status_message := None |},
          Some {| artifact_role := Some "assistant"; artifact_parts := parts;
                  artifact_index := None; artifact_append := None |}) in
  task <- update_store id task_status
            (match artifact with None => None | Some a => Some [a] end) ;;
  let task_result := append_task_history task history_length in
  send_task_notification task ;;
  ret {| response_id := request_id request;
         result := Some task_result; error := None |}.

Definition agent_invoke (query sid : string) : M AgentDict :=
  log (call_agent_invoke query sid) ;;
  lift (invoke agent query sid).

Definition on_send_task (request : SendTaskRequest) : M SendTaskResponse :=
  match _validate_request request with
  | Some validation_error =>
      ret {| response_id := request_id request; result := None;
             error := rpc_error validation_error |}
  | None =>
      let proceed : M SendTaskResponse :=
        upsert_task (params request) ;;
        task <- update_store (params_id (params request))
                  {| state := WORKING; status_message := None |} None ;;
        send_task_notification task ;;
        let task_send_params := params request in
        query <- _get_user_query task_send_params ;;
        try_except
          (agent_response <- agent_invoke query (sessionId task_send_params) ;;
           _process_agent_response request agent_response)
          (fun e =>
             ret {| response_id := request_id request; result := None;
                    error := Some (InternalError
                                     ("Error invoking agent: " +:+ str e)) |}) in
      match pushNotification (params request) with
      | Some c =>
          registered <- set_push_notification_info (params_id (params request)) c ;;
          if negb registered
          then ret {| response_id := request_id request; result := None;
                      error := Some (InvalidParamsError
                                       "Push notification URL is invalid") |}
          else proceed
      | None => proceed
      end
  end.

Definition on_send_task_subscribe (request : SendTaskStreamingRequest)
    : M SubscribeResult :=
  try_except
    (match _validate_request request with
     | Some error => ret (ErrorResponse error)
     | None =>
         upsert_task (params request) ;;
         let proceed : M SubscribeResult :=
           let task_send_params := params request in
           setup_sse_consumer (params_id task_send_params) false ;;
           create_task request ;;
           ret (SSEStream (request_id request) (params_id task_send_params)) in
         match pushNotification (params request) with
         | Some c =>
             registered <-
               set_push_notification_info (params_id (params request)) c ;;
             if negb registered
             then ret (ErrorResponse
                         {| rpc_id := request_id request;
                            rpc_error := Some (InvalidParamsError
                                                 "Push notification URL is invalid") |})
             else proceed
         | None => proceed
         end
     end)
    (fun e =>
       ret (ErrorResponse
              {| rpc_id := request_id request;
                 rpc_error :=
                   Some (InternalError
                           ("An error occurred while streaming the response: "
                            +:+ str e)) |})).

(** Lines 136-155 of the loop body: what one increment turns into. *)
Definition derive_update (item : AgentDict)
    : M (TaskStatus * option Artifact * bool) :=
  is_task_complete <- getitem "is_task_complete" (is_task_complete item) ;;
  let require_user_input := get_default (require_user_input item) false in
  text <- getitem "content" (content item) ;;
  let parts := [TextPart text] in
  let '(task_state, message, artifact, end_stream) :=
    if negb is_task_complete && negb require_user_input
    then (WORKING, Some {| role := "agent"; parts := parts |}, None, false)
    else if require_user_input
    then (INPUT_REQUIRED, Some {| role := "agent"; parts := parts |}, None, true)
    else (COMPLETED, None,
          Some {| artifact_role := Some "assistant"; artifact_parts := parts;
                  artifact_index := None; artifact_append := None |}, true) in
  ret ({| state := task_state; status_message := message |},
       artifact, end_stream).

(** The body of the [async for] loop, for one increment. *)
Definition process_increment (id : string) (item : AgentDict) : M unit :=
  update <- derive_update item ;;
  let '(task_status, artifact, end_stream) := update in
  latest_task <- update_store id task_status
                   (match artifact with None => None | Some a => Some [a] end) ;;
  send_task_notification latest_task ;;
  match artifact with
  | Some a => enqueue_events_for_sse id (TaskArtifactUpdateEvent id a)
  | None => ret tt
  end ;;
  enqueue_events_for_sse id (TaskStatusUpdateEvent id task_status end_stream).

Definition agent_stream (query sid : string) : M AgentStream :=
  log (call_agent_stream query sid) ;;
  ret (stream agent query sid).

Definition _run_streaming_agent (request : SendTaskStreamingRequest) : M unit :=
  let task_send_params := params request in
  query <- _get_user_query task_send_params ;;
  try_except
    (s <- agent_stream query (sessionId task_send_params) ;;
     async_for (process_increment (params_id task_send_params))
       (increments s) (stream_failure s))
    (fun e =>
       enqueue_events_for_sse (params_id task_send_params)
         (ErrorEvent (InternalError
                        ("An error occurred while streaming the response: "
                         +:+ str e)))).

End self.
End AgentTaskManager.

(** ** The agents (finala2e/agent.py, notebooks/math_agent_a2a.py)

    Both agents wrap a compiled LangGraph graph, an external
    collaborator: its answers are oracles of the query and the session. *)

Inductive BaseMessage :=
| AIMessage (content : string) (tool_calls : list string)
| ToolMessage (content : string)
| HumanMessage (content : string).

Definition message_content (m : BaseMessage) : string :=
  match m with
  | AIMessage c _ | ToolMessage c | HumanMessage c => c
  end.

Inductive ResponseStatus := input_required | completed | error_status.

Record ResponseFormat := {
  response_status : ResponseStatus;
  response_message : string }.

Record CompiledGraph := {
  (* result["messages"] of graph.invoke, or the exception it raises *)
  graph_invoke : string -> string -> Res (list BaseMessage);
  (* item["messages"] of each state graph.stream yields, then how it ends *)
  graph_stream : string -> string -> list (list BaseMessage) * option exn;
  (* get_state(config).values["messages"] *)
  get_state_messages : string -> string -> list BaseMessage;
  (* get_state(config).values.get('structured_response') *)
  get_state_structured_response : string -> string -> option ResponseFormat }.

Definition agent_dict (complete input : bool) (text : string) : AgentDict :=
  {| is_task_complete := Some complete;
     require_user_input := Some input;
     content := Some text |}.

(** The loop over [graph.stream] shared by both agents: one progress
    increment per tool call and per tool result; [messages[-1]] of a
    state without messages raises. *)
Fixpoint progress_increments (on_tool_call on_tool_result : string)
    (states : list (list BaseMessage)) : list AgentDict * option exn :=
  match states with
  | [] => ([], None)
  | st :: rest =>
      match last st with
      | None => ([], Some (IndexError "list index out of range"))
      | Some msg =>
          let '(items, failure) :=
            progress_increments on_tool_call on_tool_result rest in
          match msg with
          | AIMessage _ (_ :: _) =>
              (agent_dict false false on_tool_call :: items, failure)
          | ToolMessage _ =>
              (agent_dict false false on_tool_result :: items, failure)
          | _ => (items, failure)
          end
      end
  end.

Module A2EMathCurrencyAgent.

Definition SUPPORTED_CONTENT_TYPES : list string := ["text"; "text/plain"].

Section self.
Variable graph : option CompiledGraph.

Definition invoke (query sid : string) : Res AgentDict :=
  match graph with
  | None =>
      Ok (agent_dict false true
            "Agent initialization failed. Please try again later.")
  | Some g =>
      match graph_invoke g query sid with
      | Raise e => Raise e
      | Ok messages =>
          match last messages with
          | None => Raise (IndexError "list index out of range")
          | Some m => Ok (agent_dict true false (message_content m))
          end
      end
  end.

Definition stream (query sid : string) : AgentStream :=
  match graph with
  | None =>
      {| increments :=
           [agent_dict false true
              "Agent initialization failed. Please try again later."];
         stream_failure := None |}
  | Some g =>
      let '(states, graph_failure) := graph_stream g query sid in
      let '(items, failure) :=
        progress_increments "Processing your request..."
          "Computing results..." states in
      match failure, graph_failure with
      | Some e, _ | None, Some e =>
          {| increments := items; stream_failure := Some e |}
      | None, None =>
          match last (get_state_messages g query sid) with
          | None =>
              {| increments := items;
                 stream_failure :=
                   Some (IndexError "list index out of range") |}
          | Some final_message =>
              {| increments :=
                   items ++ [agent_dict true false
                               (message_content final_message)];
                 stream_failure := None |}
          end
      end
  end.

Definition agent : Agent :=
  Build_Agent SUPPORTED_CONTENT_TYPES invoke stream.

End self.
End A2EMathCurrencyAgent.

Module MathAgent.

Definition SUPPORTED_CONTENT_TYPES : list string := ["text"; "text/plain"].

Section self.
Variable graph : CompiledGraph.

Definition get_agent_response (query sid : string) : AgentDict :=
  match get_state_structured_response graph query sid with
  | Some structured_response =>
      match response_status structured_response with
      | input_required =>
          agent_dict false true (response_message structured_response)
      | error_status =>
          agent_dict false true (response_message structured_response)
      | completed =>
          agent_dict true false (response_message structured_response)
      end
  | None =>
      agent_dict false true
        "We are unable to process your request at the moment. Please try again."
  end.

Definition invoke (query sid : string) : Res AgentDict :=
  match graph_invoke graph query sid with
  | Raise e => Raise e
  | Ok _ => Ok (get_agent_response query sid)
  end.

Definition stream (query sid : string) : AgentStream :=
  let '(states, graph_failure) := graph_stream graph query sid in
  let '(items, failure) :=
    progress_increments "Calculating..." "Processing the result..." states in
  match failure, graph_failure with
  | Some e, _ | None, Some e =>
      {| increments := items; stream_failure := Some e |}
  | None, None =>
      {| increments := items ++ [get_agent_response query sid];
         stream_failure := None |}
  end.

Definition agent : Agent :=
  Build_Agent SUPPORTED_CONTENT_TYPES invoke stream.

End self.
End MathAgent.

(** ** notebooks/math_agent_a2a.py: the task manager *)

(** [TaskIdParams] and the request of [tasks/resubscribe]. *)
Record TaskIdParams := { id_of_task : string }.

Record TaskResubscriptionRequest := {
  resubscription_id : Z;
  resubscription_params : TaskIdParams }.

Module MathAgentTaskManager.
Import InMemoryTaskManager.

Section self.
Variable agent : Agent.
Variable notification_sender_auth : PushNotificationSenderAuth.

(** Lines 189-208 of the loop body: what one increment turns into. *)
Definition derive_update (item : AgentDict)
    : M (TaskStatus * option Artifact * bool) :=
  is_task_complete <- getitem "is_task_complete" (is_task_complete item) ;;
  require_user_input <- getitem "require_user_input" (require_user_input item) ;;
  text <- getitem "content" (content item) ;;
  let parts := [TextPart text] in
  let '(task_state, message, artifact, end_stream) :=
    if negb is_task_complete && negb require_user_input
    then (WORKING, Some {| role := "agent"; parts := parts |}, None, false)
    else if require_user_input
    then (INPUT_REQUIRED, Some {| role := "agent"; parts := parts |}, None, true)
    else (COMPLETED, None,
          Some {| artifact_role := None; artifact_parts := parts;
                  artifact_index := Some 0%Z; artifact_append := Some false |},
          true) in
  ret ({| state := task_state; status_message := message |},
       artifact, end_stream).

Definition _get_user_query (task_send_params : TaskSendParams) : M string :=
  match parts (message task_send_params) with
  | [] => raise (IndexError "list index out of range")
  | TextPart text :: _ => ret text
  | _ :: _ => raise (ValueError "Only text parts are supported")
  end.

Definition send_task_notification (task : Task) : M unit :=
  log (call_send_task_notification task) ;;
  has <- has_push_notification_info (task_id task) ;;
  if negb has then ret tt
  else
    push_info <- get_push_notification_info (task_id task) ;;
    match push_info with
    | Some info => send_push_notification (url info) task
    | None => raise (AttributeError "'NoneType' object has no attribute 'url'")
    end.

(** The body of the [async for] loop, for one increment. *)
Definition process_increment (id : string) (item : AgentDict) : M unit :=
  update <- derive_update item ;;
  let '(task_status, artifact, end_stream) := update in
  latest_task <- update_store id task_status
                   (match artifact with None => None | Some a => Some [a] end) ;;
  send_task_notification latest_task ;;
  match artifact with
  | Some a => enqueue_events_for_sse id (TaskArtifactUpdateEvent id a)
  | None => ret tt
  end ;;
  enqueue_events_for_sse id (TaskStatusUpdateEvent id task_status end_stream).

Definition agent_stream (query sid : string) : M AgentStream :=
  log (call_agent_stream query sid) ;;
  ret (stream agent query sid).

Definition _run_streaming_agent (request : SendTaskStreamingRequest) : M unit :=
  let task_send_params := params request in
  query <- _get_user_query task_send_params ;;
  try_except
    (s <- agent_stream query (sessionId task_send_params) ;;
     async_for (process_increment (params_id task_send_params))
       (increments s) (stream_failure s))
    (fun e =>
       enqueue_events_for_sse (params_id task_send_params)
         (ErrorEvent (InternalError
                        ("An error occurred while streaming the response: "
                         +:+ str e)))).

Definition _validate_request (request : SendTaskRequest)
    : option JSONRPCResponse :=
  let task_send_params := params request in
  if negb (are_modalities_compatible
             (acceptedOutputModes task_send_params)
             MathAgent.SUPPORTED_CONTENT_TYPES)
  then Some {| rpc_id := request_id request;
               rpc_error := Some IncompatibleTypesError |}
  else
    match pushNotification task_send_params with
    | Some c =>
        if String.eqb (url c) ""
        then Some {| rpc_id := request_id request;
                     rpc_error :=
                       Some (InvalidParamsError "Push notification URL is missing") |}
        else None
    | None => None
    end.

Definition set_push_notification_info (id : string)
    (push_notification_config : PushNotificationConfig) : M bool :=
  if negb (verify_push_notification_url notification_sender_auth
             (url push_notification_config))
  then ret false
  else
    InMemoryTaskManager.set_push_notification_info id push_notification_config ;;
    ret true.

Definition _process_agent_response (request : SendTaskRequest)
    (agent_response : AgentDict) : M SendTaskResponse :=
  let task_send_params := params request in
  let id := params_id task_send_params in
  let history_length := historyLength task_send_params in
  text <- getitem "content" (content agent_response) ;;
  let parts := [TextPart text] in
  require_user_input <-
    getitem "require_user_input" (require_user_input agent_response) ;;
  let '(task_status, artifact) :=
    if (require_user_input : bool)
    then ({| state := INPUT_REQUIRED;
             status_message := Some {| role := "agent"; parts := parts |} |},
          None)
    else ({| state := COMPLETED; status_message := None |},
          Some {| artifact_role := None; artifact_parts := parts;
                  artifact_index := None; artifact_append := None |}) in
  task <- update_store id task_status
            (match artifact with None => None | Some a => Some [a] end) ;;
  let task_result := append_task_history task history_length in
  send_task_notification task ;;
  ret {| response_id := request_id request;
         result := Some task_result; error := None |}.

Definition agent_invoke (query sid : string) : M AgentDict :=
  log (call_agent_invoke query sid) ;;
  lift (invoke agent query sid).

Definition on_send_task (request : SendTaskRequest) : M SendTaskResponse :=
  match _validate_request request with
  | Some validation_error =>
      ret {| response_id := request_id request; result := None;
             error := rpc_error validation_error |}
  | None =>
      let proceed : M SendTaskResponse :=
        upsert_task (params request) ;;
        task <- update_store (params_id (params request))
                  {| state := WORKING; status_message := None |} None ;;
        send_task_notification task ;;
        let task_send_params := params request in
        query <- _get_user_query task_send_params ;;
        agent_response <-
          try_except (agent_invoke query (sessionId task_send_params))
            (fun e => raise (ValueError ("Error invoking agent: " +:+ str e))) ;;
        _process_agent_response request agent_response in
      match pushNotification (params request) with
      | Some c =>
          registered <- set_push_notification_info (params_id (params request)) c ;;
          if negb registered
          then ret {| response_id := request_id request; result := None;
                      error := Some (InvalidParamsError
                                       "Push notification URL is invalid") |}
          else proceed
      | None => proceed
      end
  end.

Definition on_send_task_subscribe (request : SendTaskStreamingRequest)
    : M SubscribeResult :=
  try_except
    (match _validate_request request with
     | Some error => ret (ErrorResponse error)
     | None =>
         upsert_task (params request) ;;
         let proceed : M SubscribeResult :=
           let task_send_params := params request in
           setup_sse_consumer (params_id task_send_params) false ;;
           create_task request ;;
           ret (SSEStream (request_id request) (params_id task_send_params)) in
         match pushNotification (params request) with
         | Some c =>
             registered <-
               set_push_notification_info (params_id (params request)) c ;;
             if negb registered
             then ret (ErrorResponse
                         {| rpc_id := request_id request;
                            rpc_error := Some (InvalidParamsError
                                                 "Push notification URL is invalid") |})
             else proceed
         | None => proceed
         end
     end)
    (fun e =>
       ret (ErrorResponse
              {| rpc_id := request_id request;
                 rpc_error :=
                   Some (InternalError
                           "An error occurred while streaming the response") |})).

Definition on_resubscribe_to_task (request : TaskResubscriptionRequest)
    : M SubscribeResult :=
  let task_id_params := resubscription_params request in
  try_except
    (setup_sse_consumer (id_of_task task_id_params) true ;;
     ret (SSEStream (resubscription_id request) (id_of_task task_id_params)))
    (fun e =>
       ret (ErrorResponse
              {| rpc_id := resubscription_id request;
                 rpc_error :=
                   Some (InternalError
                           ("An error occurred while reconnecting to stream: "
                            +:+ str e)) |})).

End self.
End MathAgentTaskManager.

(** ** test_mcp/server/math_server.py, currency_server.py: the MCP tools

    The tools post a [tasks/send] request to an A2A server and read the
    answer out of the JSON body of the reply. *)

Local Unset Elimination Schemes.

(** A JSON number enters the tools only through its type and through
    being zero or not. *)
Inductive JSON :=
| JNull
| JBool (b : bool)
| JNumber (n : Z)
| JString (s : string)
| JList (l : list JSON)
| JDict (d : list (string * JSON)).

Local Set Elimination Schemes.

(** What the reading of a body can raise. *)
Inductive PyError :=
| PyKeyError (key : JSON)
| PyIndexError
| PyTypeError (operation : string) (operand : JSON)
| PyAttributeError (attribute : string) (operand : JSON).

Inductive Outcome (A : Type) :=
| Value (a : A)
| Fails (e : PyError).
Arguments Value {A} a.
Arguments Fails {A} e.

Definition and_then {A B} (o : Outcome A) (k : A -> Outcome B) : Outcome B :=
  match o with
  | Value a => k a
  | Fails e => Fails e
  end.

(** How the HTTP exchange of [httpx.post], [raise_for_status] and
    [response.json()] ends. *)
Inductive HttpExchange :=
| HTTPError (description : string)
| InvalidBody (description : string)
| Body (j : JSON).

Module A2AClient.

(** The value of a key in a parsed object, which binds a key once. *)
Fixpoint dict_lookup (key : string) (d : list (string * JSON)) : option JSON :=
  match d with
  | [] => None
  | (k, v) :: rest => if String.eqb k key then Some v else dict_lookup key rest
  end.

Fixpoint substring_of (needle hay : string) : bool :=
  String.prefix needle hay
  || match hay with
     | EmptyString => false
     | String _ rest => substring_of needle rest
     end.

Definition is_string (s : string) (j : JSON) : bool :=
  match j with
  | JString s' => String.eqb s' s
  | _ => false
  end.

(** [bool(x)] *)
Definition truthy (x : JSON) : bool :=
  match x with
  | JNull => false
  | JBool b => b
  | JNumber n => negb (Z.eqb n 0)
  | JString s => negb (String.eqb s "")
  | JList l => match l with [] => false | _ => true end
  | JDict d => match d with [] => false | _ => true end
  end.

(** [key in x] for a string [key] *)
Definition contains (key : string) (x : JSON) : Outcome bool :=
  match x with
  | JDict d => Value (match dict_lookup key d with Some _ => true | None => false end)
  | JList l => Value (existsb (is_string key) l)
  | JString s => Value (substring_of key s)
  | _ => Fails (PyTypeError "in" x)
  end.

(** [x[key]] for a string [key] *)
Definition item (key : string) (x : JSON) : Outcome JSON :=
  match x with
  | JDict d =>
      match dict_lookup key d with
      | Some v => Value v
      | None => Fails (PyKeyError (JString key))
      end
  | _ => Fails (PyTypeError "[str]" x)
  end.

(** [x[0]] *)
Definition first (x : JSON) : Outcome JSON :=
  match x with
  | JList [] => Fails PyIndexError
  | JList (v :: _) => Value v
  | JString EmptyString => Fails PyIndexError
  | JString (String c _) => Value (JString (String c EmptyString))
  | JDict _ => Fails (PyKeyError (JNumber 0))
  | _ => Fails (PyTypeError "[int]" x)
  end.

(** [x.get(key)] *)
Definition get (key : string) (x : JSON) : Outcome JSON :=
  match x with
  | JDict d =>
      match dict_lookup key d with
      | Some v => Value v
      | None => Value JNull
      end
  | _ => Fails (PyAttributeError "get" x)
  end.

Definition unexpected_format : JSON := JString "Unexpected response format".

(** Lines 108-116 of math_server.py (118-126 of currency_server.py):
    the content of the response. *)
Definition extract_content (result : JSON) : Outcome JSON :=
  and_then (contains "result" result) (fun has_result =>
  if (has_result : bool) then
    and_then (item "result" result) (fun r =>
    and_then (contains "artifacts" r) (fun has_artifacts =>
    and_then (if (has_artifacts : bool)
              then and_then (item "artifacts" r) (fun a => Value (truthy a))
              else Value false) (fun with_artifacts =>
    if (with_artifacts : bool) then
      and_then (item "artifacts" r) (fun artifacts =>
      and_then (first artifacts) (fun artifact =>
      and_then (item "parts" artifact) (fun ps =>
      and_then (first ps) (fun part =>
      item "text" part))))
    else
      and_then (contains "status" r) (fun has_status =>
      and_then (if (has_status : bool)
                then and_then (item "status" r) (fun st =>
                     and_then (get "message" st) (fun m => Value (truthy m)))
                else Value false) (fun with_message =>
      if (with_message : bool) then
        and_then (item "status" r) (fun st =>
        and_then (item "message" st) (fun m =>
        and_then (item "parts" m) (fun ps =>
        and_then (first ps) (fun part =>
        item "text" part))))
      else Value unexpected_format)))))
  else Value unexpected_format).

Section call.
(* "Math" in math_server.py, "Currency" in currency_server.py *)
Variable agent_name : string.
(* str(e) of an exception raised while the body is read *)
Variable describe : PyError -> string.
(* uuid.uuid4().hex, drawn twice *)
Variable session_id task_id : string.
(* httpx.post(url, json=payload, ...) and the reading of its reply *)
Variable post : SendTaskRequest -> HttpExchange.

(** The [tasks/send] request of the posted dict: one text part, no push
    target, no history length. *)
Definition payload (prompt : string) : SendTaskRequest :=
  {| request_id := 1;
     params := {| params_id := task_id;
                  sessionId := session_id;
                  acceptedOutputModes := ["text"];
                  message := {| role := "user"; parts := [TextPart prompt] |};
                  pushNotification := None;
                  historyLength := None |} |}.

Definition _call_a2a_agent (prompt : string) : JSON :=
  match post (payload prompt) with
  | HTTPError description =>
      JString ("Error calling " +:+ agent_name +:+ " Agent: " +:+ description)
  | InvalidBody description =>
      JString ("Unexpected error: " +:+ description)
  | Body result =>
      match extract_content result with
      | Value v => v
      | Fails e => JString ("Unexpected error: " +:+ describe e)
      end
  end.

(** currency_server.py *)
Definition get_exchange_rate (from_currency to_currency : string) : JSON :=
  _call_a2a_agent
    ("What is the exchange rate from " +:+ from_currency +:+ " to "
     +:+ to_currency +:+ "?").

End call.
End A2AClient.

(** ** Sample inputs *)

Definition text_request (id : string) (q : string) : SendTaskRequest :=
  {| request_id := 1;
     params := {| params_id := id; sessionId := "s1";
                  acceptedOutputModes := ["text"];
                  message := {| role := "user"; parts := [TextPart q] |};
                  pushNotification := None;
                  historyLength := None |} |}.

(** A request that only accepts an image. *)
Definition png_request (id : string) : SendTaskRequest :=
  {| request_id := 7;
     params := {| params_id := id; sessionId := "s1";
                  acceptedOutputModes := ["image/png"];
                  message := {| role := "user"; parts := [TextPart "2+2"] |};
                  pushNotification := None;
                  historyLength := None |} |}.

(** An agent whose answers miss their content. *)
Definition keyless : AgentDict :=
  {| is_task_complete := Some false; require_user_input := None;
     content := None |}.

Definition keyless_agent : Agent :=
  {| SUPPORTED_CONTENT_TYPES := ["text"];
     invoke := fun _ _ => Ok keyless;
     stream := fun _ _ =>
       {| increments := [agent_dict false false "Working"; keyless;
                         agent_dict true false "4"];
          stream_failure := None |} |}.


(** A graph that calls one tool and answers. *)
Definition answering_graph (answer : string) : CompiledGraph :=
  {| graph_invoke := fun q _ => Ok [HumanMessage q; AIMessage answer []];
     graph_stream := fun q _ =>
       ([ [HumanMessage q];
          [HumanMessage q; AIMessage "" ["add_numbers"]];
          [HumanMessage q; AIMessage "" ["add_numbers"]; ToolMessage answer];
          [HumanMessage q; AIMessage "" ["add_numbers"]; ToolMessage answer;
           AIMessage answer []] ], None);
     get_state_messages := fun q _ => [HumanMessage q; AIMessage answer []];
     get_state_structured_response := fun _ _ =>
       Some {| response_status := completed; response_message := answer |} |}.

(** A graph that asks the user for more. *)
Definition asking_graph (question : string) : CompiledGraph :=
  {| graph_invoke := fun q _ => Ok [HumanMessage q; AIMessage question []];
     graph_stream := fun q _ =>
       ([ [HumanMessage q]; [HumanMessage q; AIMessage question []] ], None);
     get_state_messages := fun q _ => [HumanMessage q; AIMessage question []];
     get_state_structured_response := fun _ _ =>
       Some {| response_status := input_required;
               response_message := question |} |}.

(** A graph whose model call fails, after one tool call when streamed. *)
Definition failing_graph (msg : string) : CompiledGraph :=
  {| graph_invoke := fun _ _ => Raise (AgentException msg);
     graph_stream := fun q _ =>
       ([ [HumanMessage q; AIMessage "" ["add_numbers"]] ],
        Some (AgentException msg));
     get_state_messages := fun q _ => [HumanMessage q];
     get_state_structured_response := fun _ _ => None |}.

Definition trusting : PushNotificationSenderAuth :=
  {| verify_push_notification_url := fun _ => true |}.

Definition distrusting : PushNotificationSenderAuth :=
  {| verify_push_notification_url := fun _ => false |}.

(** * Reasoning about handlers *)

(** [wp m w Q]: running [m] from [w] ends in a result and a world that
    satisfy [Q]. *)
Definition wp {A} (m : M A) (w : World) (Q : Res A -> World -> Prop) : Prop :=
  Q (fst (m w)) (snd (m w)).

Definition working : TaskStatus := {| state := WORKING; status_message := None |}.

Definition agent_message (answer : string) : Message :=
  {| role := "agent"; parts := [TextPart answer] |}.

Definition text_artifact (r : option string) (answer : string) : Artifact :=
  {| artifact_role := r; artifact_parts := [TextPart answer];
     artifact_index := None; artifact_append := None |}.

(** The artifact [MathAgentTaskManager._run_streaming_agent] builds. *)
Definition math_stream_artifact (answer : string) : Artifact :=
  {| artifact_role := None; artifact_parts := [TextPart answer];
     artifact_index := Some 0%Z; artifact_append := Some false |}.

(** The artifacts a task id carries before a request is served. *)
Definition prior_artifacts (w : World) (id : string) : list Artifact :=
  match tasks w !! id with
  | Some t => task_artifacts t
  | None => []
  end.

(** The pushes [AgentTaskManager.send_task_notification] sends. *)
Definition agent_pushes (auth : option PushNotificationSenderAuth)
    (infos : gmap string PushNotificationConfig) (t : Task) : list Call :=
  match infos !! task_id t, auth with
  | Some info, Some _ => [call_send_push_notification (url info) t]
  | _, _ => []
  end.

(** The pushes [MathAgentTaskManager.send_task_notification] sends. *)
Definition math_pushes (infos : gmap string PushNotificationConfig)
    (t : Task) : list Call :=
  match infos !! task_id t with
  | Some info => [call_send_push_notification (url info) t]
  | None => []
  end.

(** Whether the push target of a request passes
    [AgentTaskManager.set_push_notification_info]. *)
Definition agent_verifies (auth : option PushNotificationSenderAuth)
    (c : PushNotificationConfig) : bool :=
  match auth with
  | Some a => verify_push_notification_url a (url c)
  | None => true
  end.

(** The part of [AgentTaskManager.on_send_task] that follows the
    WORKING notification: lines 85-95. *)
Definition agent_serve (agent : Agent)
    (auth : option PushNotificationSenderAuth) (request : SendTaskRequest)
    : M SendTaskResponse :=
  query <- AgentTaskManager._get_user_query (params request) ;;
  try_except
    (agent_response <-
       AgentTaskManager.agent_invoke agent query (sessionId (params request)) ;;
     AgentTaskManager._process_agent_response auth request agent_response)
    (fun e =>
       ret {| response_id := request_id request; result := None;
              error := Some (InternalError
                               ("Error invoking agent: " +:+ str e)) |}).

(** The part of [MathAgentTaskManager.on_send_task] that follows the
    WORKING notification: lines 274-283. *)
Definition math_serve (agent : Agent) (request : SendTaskRequest)
    : M SendTaskResponse :=
  query <- MathAgentTaskManager._get_user_query (params request) ;;
  agent_response <-
    try_except
      (MathAgentTaskManager.agent_invoke agent query (sessionId (params request)))
      (fun e => raise (ValueError ("Error invoking agent: " +:+ str e))) ;;
  MathAgentTaskManager._process_agent_response request agent_response.

(** The [try] block of [AgentTaskManager._run_streaming_agent]:
    lines 135-176. *)
Definition agent_streaming_loop (agent : Agent)
    (auth : option PushNotificationSenderAuth) (request : SendTaskRequest)
    (query : string) : M unit :=
  s <- AgentTaskManager.agent_stream agent query (sessionId (params request)) ;;
  async_for (AgentTaskManager.process_increment auth (params_id (params request)))
    (increments s) (stream_failure s).

(** The [try] block of [MathAgentTaskManager._run_streaming_agent]:
    lines 188-229. *)
Definition math_streaming_loop (agent : Agent) (request : SendTaskRequest)
    (query : string) : M unit :=
  s <- MathAgentTaskManager.agent_stream agent query (sessionId (params request)) ;;
  async_for (MathAgentTaskManager.process_increment (params_id (params request)))
    (increments s) (stream_failure s).

Definition stream_error_event (e : exn) : SSEEvent :=
  ErrorEvent (InternalError
                ("An error occurred while streaming the response: " +:+ str e)).

Definition invoke_failure_response (request : SendTaskRequest) (e : exn)
    : SendTaskResponse :=
  {| response_id := request_id request; result := None;
     error := Some (InternalError ("Error invoking agent: " +:+ str e)) |}.

Definition error_response (request : SendTaskRequest) (e : JSONRPCError)
    : SendTaskResponse :=
  {| response_id := request_id request; result := None; error := Some e |}.

(** The queue of a task accepts events: there is none, or it is open. *)
Definition queue_open (w : World) (id : string) : Prop :=
  match task_sse_subscribers w !! id with
  | Some q => closed q = false
  | None => True
  end.

(** The mark one increment leaves: the stored task has the status and
    the new artifacts, and the last call enqueues the status event. *)
Definition updated_as (w' : World) (id : string) (t : Task)
    (status : TaskStatus) (new_artifacts : list Artifact) (final : bool)
    : Prop :=
  (exists t', tasks w' !! id = Some t' /\
              task_status t' = status /\
              task_artifacts t' = task_artifacts t ++ new_artifacts) /\
  exists pre,
    calls w' = pre ++ [call_enqueue_events_for_sse id
                         (TaskStatusUpdateEvent id status final)].

(** The three cases of an increment: progress, a request for input, the
    final answer, the last one producing [artifact]. *)
Definition follows_increment (item : AgentDict) (text : string)
    (artifact : Artifact) (w' : World) (id : string) (t : Task) : Prop :=
  (is_task_complete item = Some false /\
   require_user_input item = Some false ->
   updated_as w' id t
     {| state := WORKING; status_message := Some (agent_message text) |}
     [] false) /\
  (require_user_input item = Some true ->
   updated_as w' id t
     {| state := INPUT_REQUIRED; status_message := Some (agent_message text) |}
     [] true) /\
  (is_task_complete item = Some true ->
   updated_as w' id t
     {| state := COMPLETED; status_message := None |} [artifact] true).

(** [None if artifact is None else [artifact]] *)
Definition artifact_list (artifact : option Artifact)
    : option (list Artifact) :=
  match artifact with
  | None => None
  | Some a => Some [a]
  end.

(** The calls one increment makes, in order. *)
Definition increment_calls (id : string) (status : TaskStatus)
    (artifact : option Artifact) (final : bool) (latest_task : Task)
    (pushes : list Call) : list Call :=
  [call_update_store id status (artifact_list artifact);
   call_send_task_notification latest_task]
  ++ pushes
  ++ match artifact with
     | Some a => [call_enqueue_events_for_sse id (TaskArtifactUpdateEvent id a)]
     | None => []
     end
  ++ [call_enqueue_events_for_sse id (TaskStatusUpdateEvent id status final)].

(** The states the handlers pass to [update_store], and the states a
    stored task can be in. *)
Definition written_state (s : TaskState) : bool :=
  match s with
  | WORKING | INPUT_REQUIRED | COMPLETED => true
  | _ => false
  end.

Definition stored_state (s : TaskState) : bool :=
  match s with
  | SUBMITTED | WORKING | INPUT_REQUIRED | COMPLETED => true
  | _ => false
  end.

Definition call_ok (c : Call) : Prop :=
  match c with
  | call_update_store _ status _ => written_state (state status) = true
  | _ => True
  end.

Definition world_ok (w : World) : Prop :=
  (forall id t, tasks w !! id = Some t ->
                stored_state (state (task_status t)) = true) /\
  Forall call_ok (calls w).

Definition preserves {A} (m : M A) : Prop :=
  forall w, world_ok w -> world_ok (snd (m w)).

(** The operations of the two task managers, and the worlds they reach
    from the empty one. *)
Inductive Operation :=
| agent_on_send_task (agent : Agent)
    (auth : option PushNotificationSenderAuth) (request : SendTaskRequest)
| agent_on_send_task_subscribe (agent : Agent)
    (auth : option PushNotificationSenderAuth) (request : SendTaskRequest)
| agent_run_streaming_agent (agent : Agent)
    (auth : option PushNotificationSenderAuth) (request : SendTaskRequest)
| math_on_send_task (agent : Agent)
    (auth : PushNotificationSenderAuth) (request : SendTaskRequest)
| math_on_send_task_subscribe
    (auth : PushNotificationSenderAuth) (request : SendTaskRequest)
| math_run_streaming_agent (agent : Agent) (request : SendTaskRequest).

Definition run (op : Operation) (w : World) : World :=
  match op with
  | agent_on_send_task a auth r =>
      snd (AgentTaskManager.on_send_task a auth r w)
  | agent_on_send_task_subscribe a auth r =>
      snd (AgentTaskManager.on_send_task_subscribe a auth r w)
  | agent_run_streaming_agent a auth r =>
      snd (AgentTaskManager._run_streaming_agent a auth r w)
  | math_on_send_task a auth r =>
      snd (MathAgentTaskManager.on_send_task a auth r w)
  | math_on_send_task_subscribe auth r =>
      snd (MathAgentTaskManager.on_send_task_subscribe auth r w)
  | math_run_streaming_agent a r =>
      snd (MathAgentTaskManager._run_streaming_agent a r w)
  end.

Inductive reachable : World -> Prop :=
| reachable_start : reachable empty_world
| reachable_step w op : reachable w -> reachable (run op w).

(** The three reasons for which [on_send_task] turns a request down, in
    the order the handler checks them, with the error each one gives. *)
Definition rejection (agent : Agent)
    (auth : option PushNotificationSenderAuth) (request : SendTaskRequest)
    : option JSONRPCError :=
  if negb (InMemoryTaskManager.are_modalities_compatible
             (acceptedOutputModes (params request))
             (SUPPORTED_CONTENT_TYPES agent))
  then Some IncompatibleTypesError
  else
    match pushNotification (params request) with
    | None => None
    | Some c =>
        if String.eqb (url c) ""
        then Some (InvalidParamsError "Push notification URL is missing")
        else if agent_verifies auth c then None
        else Some (InvalidParamsError "Push notification URL is invalid")
    end.

(** What [_get_user_query] raises on a message without a leading text
    part. *)
Definition content_error (ps : list Part) : exn :=
  match ps with
  | [] => IndexError "list index out of range"
  | _ => ValueError "Only text parts are supported"
  end.

Definition leading_text (ps : list Part) : bool :=
  match ps with
  | TextPart _ :: _ => true
  | _ => false
  end.

(** The errors with which a request is turned down. *)
Definition is_rejection (e : option JSONRPCError) : Prop :=
  match e with
  | Some IncompatibleTypesError | Some (InvalidParamsError _) => True
  | _ => False
  end.

(** The request with the parts of its message replaced. *)
Definition with_parts (request : SendTaskRequest) (ps : list Part)
    : SendTaskRequest :=
  {| request_id := request_id request;
     params :=
       {| params_id := params_id (params request);
          sessionId := sessionId (params request);
          acceptedOutputModes := acceptedOutputModes (params request);
          message := {| role := role (message (params request)); parts := ps |};
          pushNotification := pushNotification (params request);
          historyLength := historyLength (params request) |} |}.

(** The request with a push target. *)
Definition with_push (request : SendTaskRequest) (target : string)
    : SendTaskRequest :=
  {| request_id := request_id request;
     params :=
       {| params_id := params_id (params request);
          sessionId := sessionId (params request);
          acceptedOutputModes := acceptedOutputModes (params request);
          message := message (params request);
          pushNotification := Some {| url := target |};
          historyLength := historyLength (params request) |} |}.

(** A stored task in state WORKING, as [on_send_task_subscribe] and the
    first increments leave it. *)
Definition working_world : World :=
  put_task "t1"
    {| task_id := "t1"; task_sessionId := "s1"; task_status := working;
       task_artifacts := []; task_history := [] |} empty_world.

(** The same task with a registered push target. *)
Definition notified_world : World :=
  put_push_info "t1" {| url := "https://client.example/hook" |} working_world.

Definition file_request (id : string) : SendTaskRequest :=
  with_parts (text_request id "") [FilePart "scan.png"; TextPart "2+2"].

Definition empty_request (id : string) : SendTaskRequest :=
  with_parts (text_request id "") [].

(** ** Vocabulary of the further properties *)

Definition is_update_store (c : Call) : bool :=
  match c with
  | call_update_store _ _ _ => true
  | _ => false
  end.

(** From [w] to [w'] no status was written: the tasks of [w] are stored
    unchanged, and no call added to the log is an [update_store]. *)
Definition store_untouched (w w' : World) : Prop :=
  (forall id t, tasks w !! id = Some t -> tasks w' !! id = Some t) /\
  exists added,
    calls w' = calls w ++ added /\
    forallb (fun c => negb (is_update_store c)) added = true.

Definition never_updates {A} (m : M A) : Prop :=
  forall w, store_untouched w (snd (m w)).

(** Every value [m] returns satisfies [P]. *)
Definition returns_only {A} (m : M A) (P : A -> Prop) : Prop :=
  forall w a w', m w = (Ok a, w') -> P a.

(** The id a subscription result carries. *)
Definition subscribe_result_id (r : SubscribeResult) : Z :=
  match r with
  | SSEStream req_id _ => req_id
  | ErrorResponse resp => rpc_id resp
  end.

Definition is_progress (item : AgentDict) : Prop :=
  exists text, item = agent_dict false false text.

Definition initialization_failed : AgentDict :=
  agent_dict false true "Agent initialization failed. Please try again later.".


Section wp_rules.
Context {A B : Type}.

Lemma wp_result (m : M A) w r (P : World -> Prop) :
  wp m w (fun r' w' => r' = r /\ P w') -> exists w', m w = (r, w') /\ P w'.
Proof.
  unfold wp. destruct (m w) as [r' w']. cbn. intros [-> H]. eauto.
Qed.

Lemma wp_ret (a : A) w Q : Q (Ok a) w -> wp (ret a) w Q.
Proof. intros H0; exact H0. Qed.

Lemma wp_raise e w (Q : Res A -> World -> Prop) :
  Q (Raise e) w -> wp (raise e) w Q.
Proof. intros H0; exact H0. Qed.

Lemma wp_lift (r : Res A) w Q : Q r w -> wp (lift r) w Q.
Proof. intros H0; exact H0. Qed.

Lemma wp_bind (m : M A) (k : A -> M B) w Q :
  wp m w (fun r w' =>
            match r with
            | Ok a => wp (k a) w' Q
            | Raise e => Q (Raise e) w'
            end) ->
  wp (bind m k) w Q.
Proof. unfold wp, bind. destruct (m w) as [[a|e] w']; intros H0; exact H0. Qed.

Lemma wp_try_except (m : M A) (h : exn -> M A) w Q :
  wp m w (fun r w' =>
            match r with
            | Ok a => Q (Ok a) w'
            | Raise e => wp (h e) w' Q
            end) ->
  wp (try_except m h) w Q.
Proof. unfold wp, try_except. destruct (m w) as [[a|e] w']; intros H0; exact H0. Qed.

Lemma wp_mono (m : M A) w (Q Q' : Res A -> World -> Prop) :
  wp m w Q -> (forall r w', Q r w' -> Q' r w') -> wp m w Q'.
Proof. unfold wp. auto. Qed.

End wp_rules.

Lemma wp_log c w Q : Q (Ok tt) (add_call c w) -> wp (log c) w Q.
Proof. intros H0; exact H0. Qed.

Lemma wp_getitem {A} key (field : option A) w Q :
  match field with
  | Some v => Q (Ok v) w
  | None => Q (Raise (KeyError key)) w
  end -> wp (getitem key field) w Q.
Proof. destruct field; intros H0; exact H0. Qed.

Section base_rules.
Import InMemoryTaskManager.

Lemma wp_upsert_task p w Q :
  (forall t w',
      tasks w' !! params_id p = Some t ->
      (tasks w !! params_id p = Some t \/
       tasks w !! params_id p = None /\ t = new_task p) ->
      (forall j, j <> params_id p -> tasks w' !! j = tasks w !! j) ->
      push_notification_infos w' = push_notification_infos w ->
      task_sse_subscribers w' = task_sse_subscribers w ->
      calls w' = calls w ++ [call_upsert_task (params_id p)] ->
      Q (Ok t) w') ->
  wp (upsert_task p) w Q.
Proof.
  intros H. unfold wp, upsert_task, bind, log. cbn.
  destruct (tasks w !! params_id p) as [t|] eqn:E; cbn.
  - apply H; cbn; auto.
  - apply H; cbn; auto.
    + apply lookup_insert_eq.
    + intros j Hj. by rewrite lookup_insert_ne.
Qed.

Lemma wp_update_store id status artifacts w Q :
  match tasks w !! id with
  | Some t =>
      Q (Ok (updated t status artifacts))
        (put_task id (updated t status artifacts)
           (add_call (call_update_store id status artifacts) w))
  | None =>
      Q (Raise (NotFoundError id))
        (add_call (call_update_store id status artifacts) w)
  end ->
  wp (update_store id status artifacts) w Q.
Proof.
  unfold wp, update_store, bind, log. cbn.
  destruct (tasks w !! id); intros H0; exact H0.
Qed.

End base_rules.

Ltac world_simpl :=
  cbn [tasks calls push_notification_infos task_sse_subscribers
       add_call put_task put_push_info put_queue
       InMemoryTaskManager.updated InMemoryTaskManager.new_task
       task_id task_status task_artifacts task_history task_sessionId
       state status_message working] in *.

Section agent_rules.
Import InMemoryTaskManager.
Variable agent : Agent.
Variable auth : option PushNotificationSenderAuth.

Lemma wp_agent_send_task_notification t w Q :
  (forall w',
      tasks w' = tasks w ->
      push_notification_infos w' = push_notification_infos w ->
      task_sse_subscribers w' = task_sse_subscribers w ->
      calls w' = calls w ++ call_send_task_notification t
                   :: agent_pushes auth (push_notification_infos w) t ->
      Q (Ok tt) w') ->
  wp (AgentTaskManager.send_task_notification auth t) w Q.
Proof.
  intros H.
  unfold wp, AgentTaskManager.send_task_notification, bind, log,
    has_push_notification_info, get_push_notification_info,
    send_push_notification, ret.
  unfold agent_pushes in H. world_simpl.
  destruct (push_notification_infos w !! task_id t) as [info|] eqn:E.
  - rewrite bool_decide_eq_true_2 by eauto. cbn [negb fst snd].
    world_simpl. rewrite E.
    destruct auth; cbn [fst snd]; apply H; unfold log; cbn [fst snd];
      world_simpl; rewrite <- ?app_assoc; reflexivity.
  - rewrite bool_decide_eq_false_2 by (intros [? ?]; discriminate).
    cbn [negb fst snd]. apply H; reflexivity.
Qed.

Lemma wp_agent_set_push_notification_info id c w Q :
  (if agent_verifies auth c
   then Q (Ok true)
          (put_push_info id c (add_call (call_set_push_notification_info id c) w))
   else Q (Ok false) w) ->
  wp (AgentTaskManager.set_push_notification_info auth id c) w Q.
Proof.
  unfold wp, AgentTaskManager.set_push_notification_info, agent_verifies.
  destruct auth as [a|]; [destruct (verify_push_notification_url a (url c))|];
    cbn; intros H; exact H.
Qed.

(** Once a request is accepted the task is stored in state WORKING,
    with the artifacts it had, before the query is looked at. *)
Lemma wp_agent_on_send_task_accepted request w Q :
  AgentTaskManager._validate_request agent request = None ->
  (forall c, pushNotification (params request) = Some c ->
             agent_verifies auth c = true) ->
  (forall t w1,
      tasks w1 !! params_id (params request) = Some t ->
      task_status t = working ->
      task_artifacts t = prior_artifacts w (params_id (params request)) ->
      wp (agent_serve agent auth request) w1 Q) ->
  wp (AgentTaskManager.on_send_task agent auth request) w Q.
Proof.
  intros Hv Hp H.
  unfold AgentTaskManager.on_send_task. rewrite Hv.
  assert (Hgo : forall w0,
             tasks w0 = tasks w ->
             wp (upsert_task (params request);;
                 task <- update_store (params_id (params request))
                           {| state := WORKING; status_message := None |} None;;
                 AgentTaskManager.send_task_notification auth task;;
                 agent_serve agent auth request) w0 Q).
  { intros w0 Hw0. apply wp_bind, wp_upsert_task.
    intros t w1 Ht Hprior _ _ _ _.
    apply wp_bind, wp_update_store. rewrite Ht.
    apply wp_bind, wp_agent_send_task_notification.
    intros w2 Htasks _ _ _. eapply H.
    - rewrite Htasks. world_simpl. apply lookup_insert_eq.
    - reflexivity.
    - world_simpl. unfold prior_artifacts. rewrite app_nil_r, <- Hw0.
      destruct Hprior as [-> | [-> ->]]; reflexivity. }
  destruct (pushNotification (params request)) as [c|] eqn:Ec.
  - apply wp_bind, wp_agent_set_push_notification_info.
    rewrite (Hp c eq_refl). cbn [negb]. apply Hgo. reflexivity.
  - apply Hgo. reflexivity.
Qed.

End agent_rules.

Section math_rules.
Import InMemoryTaskManager.
Variable agent : Agent.
Variable auth : PushNotificationSenderAuth.

Lemma wp_math_send_task_notification t w Q :
  (forall w',
      tasks w' = tasks w ->
      push_notification_infos w' = push_notification_infos w ->
      task_sse_subscribers w' = task_sse_subscribers w ->
      calls w' = calls w ++ call_send_task_notification t
                   :: math_pushes (push_notification_infos w) t ->
      Q (Ok tt) w') ->
  wp (MathAgentTaskManager.send_task_notification t) w Q.
Proof.
  intros H.
  unfold wp, MathAgentTaskManager.send_task_notification, bind, log,
    has_push_notification_info, get_push_notification_info,
    send_push_notification, ret.
  unfold math_pushes in H. world_simpl.
  destruct (push_notification_infos w !! task_id t) as [info|] eqn:E.
  - rewrite bool_decide_eq_true_2 by eauto. cbn [negb fst snd].
    world_simpl. rewrite E.
    cbn [fst snd]; apply H; unfold log; cbn [fst snd];
      world_simpl; rewrite <- ?app_assoc; reflexivity.
  - rewrite bool_decide_eq_false_2 by (intros [? ?]; discriminate).
    cbn [negb fst snd]. apply H; reflexivity.
Qed.

Lemma wp_math_set_push_notification_info id c w Q :
  (if verify_push_notification_url auth (url c)
   then Q (Ok true)
          (put_push_info id c (add_call (call_set_push_notification_info id c) w))
   else Q (Ok false) w) ->
  wp (MathAgentTaskManager.set_push_notification_info auth id c) w Q.
Proof.
  unfold wp, MathAgentTaskManager.set_push_notification_info.
  destruct (verify_push_notification_url auth (url c));
    cbn; intros H; exact H.
Qed.

Lemma wp_math_on_send_task_accepted request w Q :
  MathAgentTaskManager._validate_request request = None ->
  (forall c, pushNotification (params request) = Some c ->
             verify_push_notification_url auth (url c) = true) ->
  (forall t w1,
      tasks w1 !! params_id (params request) = Some t ->
      task_status t = working ->
      task_artifacts t = prior_artifacts w (params_id (params request)) ->
      wp (math_serve agent request) w1 Q) ->
  wp (MathAgentTaskManager.on_send_task agent auth request) w Q.
Proof.
  intros Hv Hp H.
  unfold MathAgentTaskManager.on_send_task. rewrite Hv.
  assert (Hgo : forall w0,
             tasks w0 = tasks w ->
             wp (upsert_task (params request);;
                 task <- update_store (params_id (params request))
                           {| state := WORKING; status_message := None |} None;;
                 MathAgentTaskManager.send_task_notification task;;
                 math_serve agent request) w0 Q).
  { intros w0 Hw0. apply wp_bind, wp_upsert_task.
    intros t w1 Ht Hprior _ _ _ _.
    apply wp_bind, wp_update_store. rewrite Ht.
    apply wp_bind, wp_math_send_task_notification.
    intros w2 Htasks _ _ _. eapply H.
    - rewrite Htasks. world_simpl. apply lookup_insert_eq.
    - reflexivity.
    - world_simpl. unfold prior_artifacts. rewrite app_nil_r, <- Hw0.
      destruct Hprior as [-> | [-> ->]]; reflexivity. }
  destruct (pushNotification (params request)) as [c|] eqn:Ec.
  - apply wp_bind, wp_math_set_push_notification_info.
    rewrite (Hp c eq_refl). cbn [negb]. apply Hgo. reflexivity.
  - apply Hgo. reflexivity.
Qed.

End math_rules.

(** * The synchronous path *)

Section sync_path.
Variable agent : Agent.
Variable auth : option PushNotificationSenderAuth.
Variable math_auth : PushNotificationSenderAuth.

Lemma agent_invoke_raises request w q rest e :
  AgentTaskManager._validate_request agent request = None ->
  (forall c, pushNotification (params request) = Some c ->
             agent_verifies auth c = true) ->
  parts (message (params request)) = TextPart q :: rest ->
  invoke agent q (sessionId (params request)) = Raise e ->
  exists w',
    AgentTaskManager.on_send_task agent auth request w
      = (Ok (invoke_failure_response request e), w') /\
    exists t pre,
    tasks w' !! params_id (params request) = Some t /\
    task_status t = working /\
    calls w' = pre ++ [call_agent_invoke q (sessionId (params request))].
Proof.
  intros Hv Hp Hq Hi.
  apply wp_result.
  apply wp_agent_on_send_task_accepted; [assumption..|].
  intros t w1 Ht Hst _.
  unfold agent_serve, AgentTaskManager._get_user_query. rewrite Hq.
  apply wp_bind, wp_ret, wp_try_except, wp_bind.
  unfold AgentTaskManager.agent_invoke.
  apply wp_bind, wp_log, wp_lift. rewrite Hi.
  apply wp_ret. split; [reflexivity|]. exists t, (calls w1). auto.
Qed.

Lemma math_invoke_raises request w q rest e :
  MathAgentTaskManager._validate_request request = None ->
  (forall c, pushNotification (params request) = Some c ->
             verify_push_notification_url math_auth (url c) = true) ->
  parts (message (params request)) = TextPart q :: rest ->
  invoke agent q (sessionId (params request)) = Raise e ->
  exists w',
    MathAgentTaskManager.on_send_task agent math_auth request w
      = (Raise (ValueError ("Error invoking agent: " +:+ str e)), w') /\
    exists t pre,
    tasks w' !! params_id (params request) = Some t /\
    task_status t = working /\
    calls w' = pre ++ [call_agent_invoke q (sessionId (params request))].
Proof.
  intros Hv Hp Hq Hi.
  apply wp_result.
  apply wp_math_on_send_task_accepted; [assumption..|].
  intros t w1 Ht Hst _.
  unfold math_serve, MathAgentTaskManager._get_user_query. rewrite Hq.
  apply wp_bind, wp_ret, wp_bind, wp_try_except.
  unfold MathAgentTaskManager.agent_invoke.
  apply wp_bind, wp_log, wp_lift. rewrite Hi.
  apply wp_raise. split; [reflexivity|]. exists t, (calls w1). auto.
Qed.

End sync_path.

Section history.
Import InMemoryTaskManager.

Lemma append_task_history_bound t n :
  length (task_history (append_task_history t (Some n))) <= n.
Proof. cbn. rewrite length_skipn. lia. Qed.

Lemma append_task_history_suffix t n :
  exists older,
    task_history t = older ++ task_history (append_task_history t n).
Proof.
  destruct n as [n|]; cbn.
  - exists (firstn (length (task_history t) - n) (task_history t)).
    symmetry. apply firstn_skipn.
  - exists []. reflexivity.
Qed.

End history.

Section sync_answers.
Import InMemoryTaskManager.
Variable agent : Agent.
Variable auth : option PushNotificationSenderAuth.

Lemma agent_answer_stored request w q rest r answer :
  AgentTaskManager._validate_request agent request = None ->
  (forall c, pushNotification (params request) = Some c ->
             agent_verifies auth c = true) ->
  parts (message (params request)) = TextPart q :: rest ->
  invoke agent q (sessionId (params request)) = Ok r ->
  content r = Some answer ->
  exists w',
    (exists t,
        AgentTaskManager.on_send_task agent auth request w
        = (Ok {| response_id := request_id request;
                 result := Some (append_task_history t
                                   (historyLength (params request)));
                 error := None |}, w') /\
        tasks w' !! params_id (params request) = Some t /\
        if get_default (require_user_input r) false
        then task_status t = {| state := INPUT_REQUIRED;
                                status_message := Some (agent_message answer) |}
             /\ task_artifacts t
                = prior_artifacts w (params_id (params request))
        else task_status t = {| state := COMPLETED; status_message := None |}
             /\ task_artifacts t
                = prior_artifacts w (params_id (params request))
                  ++ [text_artifact (Some "assistant") answer]).
Proof.
  intros Hv Hp Hq Hi Hc.
  cut (wp (AgentTaskManager.on_send_task agent auth request) w
         (fun r' w' =>
            exists t,
              r' = Ok {| response_id := request_id request;
                         result := Some (append_task_history t
                                           (historyLength (params request)));
                         error := None |} /\
              tasks w' !! params_id (params request) = Some t /\
              if get_default (require_user_input r) false
              then task_status t = {| state := INPUT_REQUIRED;
                                      status_message := Some (agent_message answer) |}
                   /\ task_artifacts t
                      = prior_artifacts w (params_id (params request))
              else task_status t = {| state := COMPLETED; status_message := None |}
                   /\ task_artifacts t
                      = prior_artifacts w (params_id (params request))
                        ++ [text_artifact (Some "assistant") answer])).
  { unfold wp.
    destruct (AgentTaskManager.on_send_task agent auth request w) as [r' w'].
    cbn. intros (t & -> & H). exists w', t. auto. }
  apply wp_agent_on_send_task_accepted; [assumption..|].
  intros t w1 Ht Hst Hart.
  unfold agent_serve, AgentTaskManager._get_user_query. rewrite Hq.
  apply wp_bind, wp_ret, wp_try_except, wp_bind.
  unfold AgentTaskManager.agent_invoke.
  apply wp_bind, wp_log, wp_lift. rewrite Hi.
  unfold AgentTaskManager._process_agent_response.
  apply wp_bind, wp_getitem. rewrite Hc.
  destruct (get_default (require_user_input r) false).
  - apply wp_bind, wp_update_store. world_simpl. rewrite Ht.
    apply wp_bind, wp_agent_send_task_notification.
    intros w2 Htasks _ _ _. apply wp_ret.
    eexists. split; [reflexivity|]. rewrite Htasks. world_simpl.
    split; [apply lookup_insert_eq|]. split; [reflexivity|].
    cbn. rewrite app_nil_r. exact Hart.
  - apply wp_bind, wp_update_store. world_simpl. rewrite Ht.
    apply wp_bind, wp_agent_send_task_notification.
    intros w2 Htasks _ _ _. apply wp_ret.
    eexists. split; [reflexivity|]. rewrite Htasks. world_simpl.
    split; [apply lookup_insert_eq|]. split; [reflexivity|].
    cbn. rewrite Hart. reflexivity.
Qed.

End sync_answers.

Section content_errors.
Variable agent : Agent.
Variable auth : option PushNotificationSenderAuth.
Variable math_auth : PushNotificationSenderAuth.

Lemma agent_content_error_escapes request w :
  AgentTaskManager._validate_request agent request = None ->
  (forall c, pushNotification (params request) = Some c ->
             agent_verifies auth c = true) ->
  leading_text (parts (message (params request))) = false ->
  exists w',
    AgentTaskManager.on_send_task agent auth request w
      = (Raise (content_error (parts (message (params request)))), w') /\
    exists t,
      tasks w' !! params_id (params request) = Some t /\
      task_status t = working.
Proof.
  intros Hv Hp Hq.
  apply wp_result.
  apply wp_agent_on_send_task_accepted; [assumption..|].
  intros t w1 Ht Hst _.
  unfold agent_serve, AgentTaskManager._get_user_query.
  apply wp_bind.
  destruct (parts (message (params request))) as [|[text|file|data] rest];
    try discriminate Hq; apply wp_raise; eauto.
Qed.

Lemma math_content_error_escapes request w :
  MathAgentTaskManager._validate_request request = None ->
  (forall c, pushNotification (params request) = Some c ->
             verify_push_notification_url math_auth (url c) = true) ->
  leading_text (parts (message (params request))) = false ->
  exists w',
    MathAgentTaskManager.on_send_task agent math_auth request w
      = (Raise (content_error (parts (message (params request)))), w') /\
    exists t,
      tasks w' !! params_id (params request) = Some t /\
      task_status t = working.
Proof.
  intros Hv Hp Hq.
  apply wp_result.
  apply wp_math_on_send_task_accepted; [assumption..|].
  intros t w1 Ht Hst _.
  unfold math_serve, MathAgentTaskManager._get_user_query.
  apply wp_bind.
  destruct (parts (message (params request))) as [|[text|file|data] rest];
    try discriminate Hq; apply wp_raise; eauto.
Qed.

End content_errors.

(** * The streaming run *)

Section queue_rules.
Import InMemoryTaskManager.

Lemma queue_open_ext w w' id :
  task_sse_subscribers w' = task_sse_subscribers w ->
  queue_open w id -> queue_open w' id.
Proof. unfold queue_open. intros ->. auto. Qed.

Lemma enqueue_events_for_sse_spec id ev w :
  exists r w',
    enqueue_events_for_sse id ev w = (r, w') /\
    tasks w' = tasks w /\
    push_notification_infos w' = push_notification_infos w /\
    calls w' = calls w ++ [call_enqueue_events_for_sse id ev] /\
    (queue_open w id ->
     r = Ok tt /\ (is_final ev = false -> queue_open w' id)).
Proof.
  unfold enqueue_events_for_sse, bind, log, queue_open. world_simpl.
  destruct (task_sse_subscribers w !! id) as [q|] eqn:E.
  - destruct (closed q) eqn:Ec.
    + do 2 eexists. split; [reflexivity|]. repeat split; discriminate.
    + do 2 eexists. split; [reflexivity|]. world_simpl.
      repeat split. intros Hev. rewrite lookup_insert_eq. exact Hev.
  - do 2 eexists. split; [reflexivity|]. world_simpl.
    repeat split. intros _. rewrite E. exact I.
Qed.

Lemma wp_enqueue_open id ev w Q :
  queue_open w id ->
  (forall w',
      tasks w' = tasks w ->
      push_notification_infos w' = push_notification_infos w ->
      calls w' = calls w ++ [call_enqueue_events_for_sse id ev] ->
      (is_final ev = false -> queue_open w' id) ->
      Q (Ok tt) w') ->
  wp (enqueue_events_for_sse id ev) w Q.
Proof.
  intros Hopen H. unfold wp.
  destruct (enqueue_events_for_sse_spec id ev w)
    as (r & w' & -> & Ht & Hp & Hc & Hr).
  destruct (Hr Hopen) as [-> Hq]. cbn. auto.
Qed.

End queue_rules.

Section agent_stream.
Import InMemoryTaskManager.
Variable auth : option PushNotificationSenderAuth.

Lemma agent_derive_update item c text w :
  is_task_complete item = Some c ->
  content item = Some text ->
  AgentTaskManager.derive_update item w
  = (Ok (if negb c && negb (get_default (require_user_input item) false)
         then ({| state := WORKING;
                  status_message := Some (agent_message text) |}, None, false)
         else if get_default (require_user_input item) false
         then ({| state := INPUT_REQUIRED;
                  status_message := Some (agent_message text) |}, None, true)
         else ({| state := COMPLETED; status_message := None |},
               Some (text_artifact (Some "assistant") text), true)), w).
Proof.
  intros Hc Ht. unfold AgentTaskManager.derive_update. rewrite Hc, Ht.
  destruct c, (get_default (require_user_input item) false); reflexivity.
Qed.

Lemma agent_process_increment_ok id item w t status artifact final :
  AgentTaskManager.derive_update item w = (Ok (status, artifact, final), w) ->
  tasks w !! id = Some t ->
  queue_open w id ->
  exists w',
    AgentTaskManager.process_increment auth id item w = (Ok tt, w') /\
    tasks w' = <[id := updated t status (artifact_list artifact)]> (tasks w) /\
    push_notification_infos w' = push_notification_infos w /\
    calls w'
    = calls w
      ++ increment_calls id status artifact final
           (updated t status (artifact_list artifact))
           (agent_pushes auth (push_notification_infos w)
              (updated t status (artifact_list artifact))) /\
    (final = false -> queue_open w' id).
Proof.
  intros Hd Ht Hopen. apply wp_result.
  unfold AgentTaskManager.process_increment.
  apply wp_bind. unfold wp at 1. rewrite Hd. cbn [fst snd].
  apply wp_bind, wp_update_store. rewrite Ht.
  fold (artifact_list artifact).
  apply wp_bind, wp_agent_send_task_notification.
  intros w2 Htasks Hpush Hsubs Hcalls.
  assert (Hopen2 : queue_open w2 id).
  { eapply queue_open_ext; [|exact Hopen]. rewrite Hsubs. reflexivity. }
  unfold increment_calls.
  destruct artifact as [a|].
  - apply wp_bind, wp_enqueue_open; [exact Hopen2|].
    intros w3 Ht3 Hp3 Hc3 Hq3.
    apply wp_enqueue_open; [apply Hq3; reflexivity|].
    intros w4 Ht4 Hp4 Hc4 Hq4.
    split; [reflexivity|].
    rewrite Ht4, Ht3, Htasks, Hp4, Hp3, Hpush, Hc4, Hc3, Hcalls.
    world_simpl. repeat split; [|exact Hq4].
    rewrite <- !app_assoc. reflexivity.
  - apply wp_bind, wp_ret.
    apply wp_enqueue_open; [exact Hopen2|].
    intros w4 Ht4 Hp4 Hc4 Hq4.
    split; [reflexivity|].
    rewrite Ht4, Htasks, Hp4, Hpush, Hc4, Hcalls.
    world_simpl. repeat split; [|exact Hq4].
    rewrite <- !app_assoc. reflexivity.
Qed.

End agent_stream.

Section math_stream.
Import InMemoryTaskManager.

Lemma math_derive_update item c r text w :
  is_task_complete item = Some c ->
  require_user_input item = Some r ->
  content item = Some text ->
  MathAgentTaskManager.derive_update item w
  = (Ok (if negb c && negb r
         then ({| state := WORKING;
                  status_message := Some (agent_message text) |}, None, false)
         else if r
         then ({| state := INPUT_REQUIRED;
                  status_message := Some (agent_message text) |}, None, true)
         else ({| state := COMPLETED; status_message := None |},
               Some (math_stream_artifact text), true)), w).
Proof.
  intros Hc Hr Ht. unfold MathAgentTaskManager.derive_update.
  rewrite Hc, Hr, Ht. destruct c, r; reflexivity.
Qed.

Lemma math_process_increment_ok id item w t status artifact final :
  MathAgentTaskManager.derive_update item w
    = (Ok (status, artifact, final), w) ->
  tasks w !! id = Some t ->
  queue_open w id ->
  exists w',
    MathAgentTaskManager.process_increment id item w = (Ok tt, w') /\
    tasks w' = <[id := updated t status (artifact_list artifact)]> (tasks w) /\
    push_notification_infos w' = push_notification_infos w /\
    calls w'
    = calls w
      ++ increment_calls id status artifact final
           (updated t status (artifact_list artifact))
           (math_pushes (push_notification_infos w)
              (updated t status (artifact_list artifact))) /\
    (final = false -> queue_open w' id).
Proof.
  intros Hd Ht Hopen. apply wp_result.
  unfold MathAgentTaskManager.process_increment.
  apply wp_bind. unfold wp at 1. rewrite Hd. cbn [fst snd].
  apply wp_bind, wp_update_store. rewrite Ht.
  fold (artifact_list artifact).
  apply wp_bind, wp_math_send_task_notification.
  intros w2 Htasks Hpush Hsubs Hcalls.
  assert (Hopen2 : queue_open w2 id).
  { eapply queue_open_ext; [|exact Hopen]. rewrite Hsubs. reflexivity. }
  unfold increment_calls.
  destruct artifact as [a|].
  - apply wp_bind, wp_enqueue_open; [exact Hopen2|].
    intros w3 Ht3 Hp3 Hc3 Hq3.
    apply wp_enqueue_open; [apply Hq3; reflexivity|].
    intros w4 Ht4 Hp4 Hc4 Hq4.
    split; [reflexivity|].
    rewrite Ht4, Ht3, Htasks, Hp4, Hp3, Hpush, Hc4, Hc3, Hcalls.
    world_simpl. repeat split; [|exact Hq4].
    rewrite <- !app_assoc. reflexivity.
  - apply wp_bind, wp_ret.
    apply wp_enqueue_open; [exact Hopen2|].
    intros w4 Ht4 Hp4 Hc4 Hq4.
    split; [reflexivity|].
    rewrite Ht4, Htasks, Hp4, Hpush, Hc4, Hcalls.
    world_simpl. repeat split; [|exact Hq4].
    rewrite <- !app_assoc. reflexivity.
Qed.

End math_stream.

(** ** What the agents yield *)

Section increments_of_agents.

Lemma progress_increments_shape a b states item :
  In item (fst (progress_increments a b states)) ->
  exists text, item = agent_dict false false text.
Proof.
  induction states as [|st rest IH]; cbn; [intros []|].
  destruct (last st) as [msg|]; [|intros []].
  destruct (progress_increments a b rest) as [items failure]. cbn in IH.
  destruct msg as [c [|tc tcs]|c|c]; cbn; intros H; auto;
    destruct H as [<-|H]; eauto.
Qed.

Lemma currency_agent_increment_shape graph q sid item :
  In item (increments (A2EMathCurrencyAgent.stream graph q sid)) ->
  exists c r text, item = agent_dict c r text /\ c && r = false.
Proof.
  unfold A2EMathCurrencyAgent.stream.
  destruct graph as [g|]; cbn.
  - destruct (graph_stream g q sid) as [states gf].
    pose proof (progress_increments_shape "Processing your request..."
                  "Computing results..." states item) as Hp.
    destruct (progress_increments "Processing your request..."
                "Computing results..." states) as [items failure].
    cbn in Hp.
    assert (Hitems : In item items ->
              exists c r text, item = agent_dict c r text /\ c && r = false).
    { intros H. destruct (Hp H) as [text ->]. exists false, false, text. auto. }
    destruct failure as [e|]; [exact Hitems|].
    destruct gf as [e|]; [exact Hitems|].
    destruct (last (get_state_messages g q sid)) as [m|]; cbn;
      [|exact Hitems].
    rewrite in_app_iff. intros [H|[<-|[]]]; [auto|].
    exists true, false, (message_content m). auto.
  - intros [<-|[]]. do 3 eexists. split; reflexivity.
Qed.

Lemma math_agent_response_shape graph q sid :
  exists c r text,
    MathAgent.get_agent_response graph q sid = agent_dict c r text /\
    c && r = false.
Proof.
  unfold MathAgent.get_agent_response.
  destruct (get_state_structured_response graph q sid) as [sr|].
  - destruct (response_status sr); do 3 eexists; split; reflexivity.
  - do 3 eexists; split; reflexivity.
Qed.

Lemma math_agent_increment_shape graph q sid item :
  In item (increments (MathAgent.stream graph q sid)) ->
  exists c r text, item = agent_dict c r text /\ c && r = false.
Proof.
  unfold MathAgent.stream.
  destruct (graph_stream graph q sid) as [states gf].
  pose proof (progress_increments_shape "Calculating..."
                "Processing the result..." states item) as Hp.
  destruct (progress_increments "Calculating..."
              "Processing the result..." states) as [items failure].
  cbn in Hp.
  assert (Hitems : In item items ->
            exists c r text, item = agent_dict c r text /\ c && r = false).
  { intros H. destruct (Hp H) as [text ->]. exists false, false, text. auto. }
  destruct failure as [e|]; [exact Hitems|].
  destruct gf as [e|]; [exact Hitems|].
  cbn. rewrite in_app_iff. intros [H|[<-|[]]]; [auto|].
  apply math_agent_response_shape.
Qed.

End increments_of_agents.

Section increment_marks.
Import InMemoryTaskManager.

Lemma updated_as_intro w' id t status artifact final pushes pre latest :
  tasks w' !! id = Some (updated t status (artifact_list artifact)) ->
  calls w' = pre ++ increment_calls id status artifact final latest pushes ->
  updated_as w' id t status (get_default (artifact_list artifact) []) final.
Proof.
  intros Ht Hc. split.
  - eexists. split; [exact Ht|]. split; reflexivity.
  - unfold increment_calls in Hc. rewrite Hc.
    rewrite !app_assoc. eexists. reflexivity.
Qed.

Lemma agent_increment_marks auth id t w c r text :
  c && r = false ->
  tasks w !! id = Some t ->
  queue_open w id ->
  exists w',
    AgentTaskManager.process_increment auth id (agent_dict c r text) w
      = (Ok tt, w') /\
    follows_increment (agent_dict c r text) text
      (text_artifact (Some "assistant") text) w' id t.
Proof.
  intros Hcr Ht Hopen.
  pose proof (agent_derive_update (agent_dict c r text) c text w
                eq_refl eq_refl) as Hd.
  cbn [get_default require_user_input agent_dict] in Hd.
  destruct c, r; try discriminate Hcr; cbn [negb andb] in Hd;
    destruct (agent_process_increment_ok auth id _ w t _ _ _ Hd Ht Hopen)
      as (w' & Hrun & Htasks & _ & Hcalls & _);
    exists w'; (split; [exact Hrun|]);
    apply (f_equal (fun m => m !! id)) in Htasks;
    rewrite lookup_insert_eq in Htasks;
    pose proof (updated_as_intro w' id t _ _ _ _ _ _ Htasks Hcalls) as Hmark;
    unfold follows_increment;
    cbn [is_task_complete require_user_input agent_dict];
    (split; [|split]); intros H;
    first [ exact Hmark
          | discriminate H
          | destruct H as [H1 H2]; first [discriminate H1 | discriminate H2] ].
Qed.

Lemma math_increment_marks id t w c r text :
  c && r = false ->
  tasks w !! id = Some t ->
  queue_open w id ->
  exists w',
    MathAgentTaskManager.process_increment id (agent_dict c r text) w
      = (Ok tt, w') /\
    follows_increment (agent_dict c r text) text
      (math_stream_artifact text) w' id t.
Proof.
  intros Hcr Ht Hopen.
  pose proof (math_derive_update (agent_dict c r text) c r text w
                eq_refl eq_refl eq_refl) as Hd.
  destruct c, r; try discriminate Hcr; cbn [negb andb] in Hd;
    destruct (math_process_increment_ok id _ w t _ _ _ Hd Ht Hopen)
      as (w' & Hrun & Htasks & _ & Hcalls & _);
    exists w'; (split; [exact Hrun|]);
    apply (f_equal (fun m => m !! id)) in Htasks;
    rewrite lookup_insert_eq in Htasks;
    pose proof (updated_as_intro w' id t _ _ _ _ _ _ Htasks Hcalls) as Hmark;
    unfold follows_increment;
    cbn [is_task_complete require_user_input agent_dict];
    (split; [|split]); intros H;
    first [ exact Hmark
          | discriminate H
          | destruct H as [H1 H2]; first [discriminate H1 | discriminate H2] ].
Qed.

End increment_marks.

Section run_failures.
Import InMemoryTaskManager.
Variable agent : Agent.
Variable auth : option PushNotificationSenderAuth.

Lemma agent_run_streaming_agent_unfold request q rest :
  parts (message (params request)) = TextPart q :: rest ->
  AgentTaskManager._run_streaming_agent agent auth request
  = try_except (agent_streaming_loop agent auth request q)
      (fun e => enqueue_events_for_sse (params_id (params request))
                  (stream_error_event e)).
Proof.
  intros Hq. unfold AgentTaskManager._run_streaming_agent,
    AgentTaskManager._get_user_query. rewrite Hq. reflexivity.
Qed.

Lemma math_run_streaming_agent_unfold request q rest :
  parts (message (params request)) = TextPart q :: rest ->
  MathAgentTaskManager._run_streaming_agent agent request
  = try_except (math_streaming_loop agent request q)
      (fun e => enqueue_events_for_sse (params_id (params request))
                  (stream_error_event e)).
Proof.
  intros Hq. unfold MathAgentTaskManager._run_streaming_agent,
    MathAgentTaskManager._get_user_query. rewrite Hq. reflexivity.
Qed.

(** What a [try] around a failing body leaves once the handler has
    enqueued the error. *)
Lemma try_except_enqueues (body : M unit) id w e w1 :
  body w = (Raise e, w1) ->
  exists r w2,
    try_except body
      (fun e => enqueue_events_for_sse id (stream_error_event e)) w
      = (r, w2) /\
    tasks w2 = tasks w1 /\
    push_notification_infos w2 = push_notification_infos w1 /\
    calls w2 = calls w1
               ++ [call_enqueue_events_for_sse id (stream_error_event e)] /\
    (queue_open w1 id -> r = Ok tt).
Proof.
  intros Hbody. unfold try_except. rewrite Hbody.
  destruct (enqueue_events_for_sse_spec id (stream_error_event e) w1)
    as (r & w2 & Hrun & Ht & Hp & Hc & Hr).
  exists r, w2. repeat split; auto. intros Hopen. apply (Hr Hopen).
Qed.

End run_failures.

(** Scenario B of the specification: a subscription followed by its
    run leaves two progress events, the artifact and the final status
    event in the queue, which is then closed. *)
Example subscribe_then_run_streams_events :
  let agent := A2EMathCurrencyAgent.agent (Some (answering_graph "4")) in
  let request := text_request "t1" "2+2" in
  let subscribed :=
    snd (AgentTaskManager.on_send_task_subscribe agent None request
           empty_world) in
  let done := AgentTaskManager._run_streaming_agent agent None request
                subscribed in
  fst done = Ok tt /\
  task_sse_subscribers (snd done) !! "t1"
  = Some {| backlog :=
              [TaskStatusUpdateEvent "t1"
                 {| state := WORKING;
                    status_message :=
                      Some (agent_message "Processing your request...") |}
                 false;
               TaskStatusUpdateEvent "t1"
                 {| state := WORKING;
                    status_message :=
                      Some (agent_message "Computing results...") |}
                 false;
               TaskArtifactUpdateEvent "t1"
                 (text_artifact (Some "assistant") "4");
               TaskStatusUpdateEvent "t1"
                 {| state := COMPLETED; status_message := None |} true];
            closed := true |}.
Proof. split; vm_compute; reflexivity. Qed.

(** A failure of [update_store] is caught like one of the agent: run
    for a task the store does not know, the first increment fails and
    the error is enqueued. *)
Example unknown_task_failure_is_enqueued :
  let agent := A2EMathCurrencyAgent.agent (Some (answering_graph "4")) in
  let done := AgentTaskManager._run_streaming_agent agent None
                (text_request "t1" "2+2") empty_world in
  fst done = Ok tt /\
  calls (snd done)
  = [call_agent_stream "2+2" "s1";
     call_update_store "t1"
       {| state := WORKING;
          status_message :=
            Some (agent_message "Processing your request...") |} None;
     call_enqueue_events_for_sse "t1"
       (stream_error_event (NotFoundError "t1"))].
Proof. split; vm_compute; reflexivity. Qed.

(** * The states that reach the store *)

Section preservation.
Import InMemoryTaskManager.

Lemma world_ok_add_call c w : call_ok c -> world_ok w -> world_ok (add_call c w).
Proof.
  intros Hc [Hs Hl]. split; [exact Hs|].
  cbn. apply Forall_app. split; [exact Hl|]. constructor; [exact Hc|constructor].
Qed.

Lemma world_ok_put_task id t w :
  stored_state (state (task_status t)) = true ->
  world_ok w -> world_ok (put_task id t w).
Proof.
  intros Ht [Hs Hl]. split; [|exact Hl].
  intros id' t'. cbn. rewrite lookup_insert.
  case_decide as Hid; [intros [= <-]; exact Ht|apply Hs].
Qed.

Lemma world_ok_put_push_info id c w : world_ok w -> world_ok (put_push_info id c w).
Proof. intros [Hs Hl]. split; assumption. Qed.

Lemma world_ok_put_queue id q w : world_ok w -> world_ok (put_queue id q w).
Proof. intros [Hs Hl]. split; assumption. Qed.

Lemma written_state_is_stored s : written_state s = true -> stored_state s = true.
Proof. destruct s; auto. Qed.

Lemma preserves_ret {A} (a : A) : preserves (ret a).
Proof. intros w H. exact H. Qed.

Lemma preserves_raise {A} e : preserves (@raise A e).
Proof. intros w H. exact H. Qed.

Lemma preserves_lift {A} (r : Res A) : preserves (lift r).
Proof. intros w H. exact H. Qed.

Lemma preserves_bind {A B} (m : M A) (k : A -> M B) :
  preserves m -> (forall a, preserves (k a)) -> preserves (bind m k).
Proof.
  intros Hm Hk w H. unfold bind. specialize (Hm w H).
  destruct (m w) as [[a|e] w1]; cbn in *; [apply Hk; exact Hm|exact Hm].
Qed.

(** A step whose result is known to satisfy [P] when it returns. *)
Lemma preserves_bind_with {A B} (P : A -> Prop) (m : M A) (k : A -> M B) :
  preserves m ->
  (forall w a, fst (m w) = Ok a -> P a) ->
  (forall a, P a -> preserves (k a)) ->
  preserves (bind m k).
Proof.
  intros Hm HP Hk w H. unfold bind. specialize (Hm w H). specialize (HP w).
  destruct (m w) as [[a|e] w1]; cbn in *; [|exact Hm].
  apply Hk; [apply HP; reflexivity|exact Hm].
Qed.

Lemma preserves_try_except {A} (m : M A) (h : exn -> M A) :
  preserves m -> (forall e, preserves (h e)) -> preserves (try_except m h).
Proof.
  intros Hm Hh w H. unfold try_except. specialize (Hm w H).
  destruct (m w) as [[a|e] w1]; cbn in *; [exact Hm|apply Hh; exact Hm].
Qed.

Lemma preserves_log c : call_ok c -> preserves (log c).
Proof. intros Hc w H. apply world_ok_add_call; assumption. Qed.

Lemma preserves_getitem {A} key (field : option A) : preserves (getitem key field).
Proof. destruct field; [apply preserves_ret|apply preserves_raise]. Qed.

Lemma preserves_upsert_task p : preserves (upsert_task p).
Proof.
  apply preserves_bind; [apply preserves_log; exact I|]. intros _ w H.
  destruct (tasks w !! params_id p); cbn; [exact H|].
  apply world_ok_put_task; [reflexivity|exact H].
Qed.

Lemma preserves_update_store id status artifacts :
  written_state (state status) = true ->
  preserves (update_store id status artifacts).
Proof.
  intros Hst.
  apply preserves_bind; [apply preserves_log; exact Hst|]. intros _ w H.
  destruct (tasks w !! id); cbn; [|exact H].
  apply world_ok_put_task; [|exact H].
  apply written_state_is_stored. exact Hst.
Qed.

Lemma preserves_base_set_push_notification_info id c :
  preserves (InMemoryTaskManager.set_push_notification_info id c).
Proof.
  apply preserves_bind; [apply preserves_log; exact I|]. intros _ w H.
  apply world_ok_put_push_info. exact H.
Qed.

Lemma preserves_has_push_notification_info id :
  preserves (has_push_notification_info id).
Proof. intros w H. exact H. Qed.

Lemma preserves_get_push_notification_info id :
  preserves (get_push_notification_info id).
Proof. intros w H. exact H. Qed.

Lemma preserves_send_push_notification target data :
  preserves (send_push_notification target data).
Proof. apply preserves_log. exact I. Qed.

Lemma preserves_create_task request : preserves (create_task request).
Proof. apply preserves_log. exact I. Qed.

Lemma preserves_setup_sse_consumer id resubscribe :
  preserves (setup_sse_consumer id resubscribe).
Proof.
  apply preserves_bind; [apply preserves_log; exact I|]. intros _ w H.
  destruct (task_sse_subscribers w !! id), resubscribe; exact H.
Qed.

Lemma preserves_enqueue_events_for_sse id ev :
  preserves (enqueue_events_for_sse id ev).
Proof.
  apply preserves_bind; [apply preserves_log; exact I|]. intros _ w H.
  destruct (task_sse_subscribers w !! id) as [q|]; [|exact H].
  destruct (closed q); exact H.
Qed.

Lemma preserves_async_for body items failure :
  (forall item, preserves (body item)) ->
  preserves (async_for body items failure).
Proof.
  intros Hbody. induction items as [|item rest IH]; cbn.
  - destruct failure; [apply preserves_raise|apply preserves_ret].
  - apply preserves_bind; [apply Hbody|]. intros _. exact IH.
Qed.

End preservation.

Create HintDb preserves discriminated.

#[local] Hint Resolve preserves_ret preserves_raise preserves_lift
  preserves_getitem preserves_upsert_task
  preserves_base_set_push_notification_info
  preserves_has_push_notification_info preserves_get_push_notification_info
  preserves_send_push_notification preserves_create_task
  preserves_setup_sse_consumer preserves_enqueue_events_for_sse : preserves.

Ltac preserves_step :=
  match goal with
  | |- preserves (bind _ _) => apply preserves_bind; [|intros ?]
  | |- preserves (try_except _ _) => apply preserves_try_except; [|intros ?]
  | |- preserves (log _) => apply preserves_log; exact I
  | |- preserves (InMemoryTaskManager.update_store _ _ _) =>
      apply preserves_update_store; reflexivity
  | |- preserves (async_for _ _ _) => apply preserves_async_for; intros ?
  | |- preserves (match (if ?c then _ else _) with _ => _ end) => destruct c
  | |- preserves (match ?x with _ => _ end) => destruct x
  | |- preserves (let '(_, _) := ?x in _) => destruct x
  | |- preserves _ => solve [auto with preserves]
  end.

Section handlers_preserve.
Import InMemoryTaskManager.
Variable agent : Agent.
Variable auth : option PushNotificationSenderAuth.
Variable math_auth : PushNotificationSenderAuth.

Lemma preserves_agent_send_task_notification t :
  preserves (AgentTaskManager.send_task_notification auth t).
Proof. unfold AgentTaskManager.send_task_notification. repeat preserves_step. Qed.

Lemma preserves_math_send_task_notification t :
  preserves (MathAgentTaskManager.send_task_notification t).
Proof. unfold MathAgentTaskManager.send_task_notification. repeat preserves_step. Qed.

Lemma preserves_agent_set_push_notification_info id c :
  preserves (AgentTaskManager.set_push_notification_info auth id c).
Proof.
  unfold AgentTaskManager.set_push_notification_info. repeat preserves_step.
Qed.

Lemma preserves_math_set_push_notification_info id c :
  preserves (MathAgentTaskManager.set_push_notification_info math_auth id c).
Proof.
  unfold MathAgentTaskManager.set_push_notification_info. repeat preserves_step.
Qed.

Hint Resolve preserves_agent_send_task_notification
  preserves_math_send_task_notification
  preserves_agent_set_push_notification_info
  preserves_math_set_push_notification_info : preserves.

Lemma preserves_agent_get_user_query p :
  preserves (AgentTaskManager._get_user_query p).
Proof. unfold AgentTaskManager._get_user_query. repeat preserves_step. Qed.

Lemma preserves_math_get_user_query p :
  preserves (MathAgentTaskManager._get_user_query p).
Proof. unfold MathAgentTaskManager._get_user_query. repeat preserves_step. Qed.

Hint Resolve preserves_agent_get_user_query preserves_math_get_user_query
  : preserves.

Lemma preserves_agent_process_agent_response request r :
  preserves (AgentTaskManager._process_agent_response auth request r).
Proof.
  unfold AgentTaskManager._process_agent_response. repeat preserves_step.
Qed.

Lemma preserves_math_process_agent_response request r :
  preserves (MathAgentTaskManager._process_agent_response request r).
Proof.
  unfold MathAgentTaskManager._process_agent_response. repeat preserves_step.
Qed.

Lemma preserves_agent_on_send_task request :
  preserves (AgentTaskManager.on_send_task agent auth request).
Proof.
  unfold AgentTaskManager.on_send_task, AgentTaskManager.agent_invoke.
  pose proof preserves_agent_process_agent_response.
  repeat preserves_step.
Qed.

Lemma preserves_math_on_send_task request :
  preserves (MathAgentTaskManager.on_send_task agent math_auth request).
Proof.
  unfold MathAgentTaskManager.on_send_task, MathAgentTaskManager.agent_invoke.
  pose proof preserves_math_process_agent_response.
  repeat preserves_step.
Qed.

Lemma preserves_agent_on_send_task_subscribe request :
  preserves (AgentTaskManager.on_send_task_subscribe agent auth request).
Proof.
  unfold AgentTaskManager.on_send_task_subscribe. repeat preserves_step.
Qed.

Lemma preserves_math_on_send_task_subscribe request :
  preserves (MathAgentTaskManager.on_send_task_subscribe math_auth request).
Proof.
  unfold MathAgentTaskManager.on_send_task_subscribe. repeat preserves_step.
Qed.

Lemma agent_derive_update_written item w status artifact final :
  fst (AgentTaskManager.derive_update item w) = Ok (status, artifact, final) ->
  written_state (state status) = true.
Proof.
  unfold AgentTaskManager.derive_update, bind, getitem, ret, raise.
  destruct (is_task_complete item) as [c|]; [|discriminate].
  destruct (content item) as [text|]; [|discriminate].
  destruct c, (get_default (require_user_input item) false);
    cbn; intros [= <- _ _]; reflexivity.
Qed.

Lemma math_derive_update_written item w status artifact final :
  fst (MathAgentTaskManager.derive_update item w)
    = Ok (status, artifact, final) ->
  written_state (state status) = true.
Proof.
  unfold MathAgentTaskManager.derive_update, bind, getitem, ret, raise.
  destruct (is_task_complete item) as [c|]; [|discriminate].
  destruct (require_user_input item) as [r|]; [|discriminate].
  destruct (content item) as [text|]; [|discriminate].
  destruct c, r; cbn; intros [= <- _ _]; reflexivity.
Qed.

Lemma preserves_agent_derive_update item :
  preserves (AgentTaskManager.derive_update item).
Proof.
  unfold AgentTaskManager.derive_update. repeat preserves_step.
Qed.

Lemma preserves_math_derive_update item :
  preserves (MathAgentTaskManager.derive_update item).
Proof.
  unfold MathAgentTaskManager.derive_update. repeat preserves_step.
Qed.

Lemma preserves_agent_process_increment id item :
  preserves (AgentTaskManager.process_increment auth id item).
Proof.
  unfold AgentTaskManager.process_increment.
  apply (preserves_bind_with
           (fun u => written_state (state (fst (fst u))) = true)).
  - apply preserves_agent_derive_update.
  - intros w [[status artifact] final] H.
    exact (agent_derive_update_written item w status artifact final H).
  - intros [[status artifact] final] Hst. cbn in Hst.
    apply preserves_bind; [apply preserves_update_store; exact Hst|].
    intros latest. repeat preserves_step.
Qed.

Lemma preserves_math_process_increment id item :
  preserves (MathAgentTaskManager.process_increment id item).
Proof.
  unfold MathAgentTaskManager.process_increment.
  apply (preserves_bind_with
           (fun u => written_state (state (fst (fst u))) = true)).
  - apply preserves_math_derive_update.
  - intros w [[status artifact] final] H.
    exact (math_derive_update_written item w status artifact final H).
  - intros [[status artifact] final] Hst. cbn in Hst.
    apply preserves_bind; [apply preserves_update_store; exact Hst|].
    intros latest. repeat preserves_step.
Qed.

Lemma preserves_agent_run_streaming_agent request :
  preserves (AgentTaskManager._run_streaming_agent agent auth request).
Proof.
  unfold AgentTaskManager._run_streaming_agent, AgentTaskManager.agent_stream.
  pose proof preserves_agent_process_increment.
  repeat preserves_step.
Qed.

Lemma preserves_math_run_streaming_agent request :
  preserves (MathAgentTaskManager._run_streaming_agent agent request).
Proof.
  unfold MathAgentTaskManager._run_streaming_agent,
    MathAgentTaskManager.agent_stream.
  pose proof preserves_math_process_increment.
  repeat preserves_step.
Qed.

End handlers_preserve.

Lemma world_ok_empty : world_ok empty_world.
Proof.
  split; [|constructor]. intros id t H. cbn in H.
  rewrite lookup_empty in H. discriminate H.
Qed.

Lemma preserves_run op : forall w, world_ok w -> world_ok (run op w).
Proof.
  destruct op; cbn.
  - apply preserves_agent_on_send_task.
  - apply preserves_agent_on_send_task_subscribe.
  - apply preserves_agent_run_streaming_agent.
  - apply preserves_math_on_send_task.
  - apply preserves_math_on_send_task_subscribe.
  - apply preserves_math_run_streaming_agent.
Qed.

Lemma reachable_world_ok w : reachable w -> world_ok w.
Proof.
  induction 1 as [|w op _ IH]; [apply world_ok_empty|].
  apply preserves_run. exact IH.
Qed.

(** * Requests that are turned down *)

Section rejections.
Import InMemoryTaskManager.
Variable agent : Agent.
Variable auth : option PushNotificationSenderAuth.

Lemma rejection_rejects request w e :
  rejection agent auth request = Some e ->
  AgentTaskManager.on_send_task agent auth request w
  = (Ok (error_response request e), w).
Proof.
  unfold rejection, AgentTaskManager.on_send_task,
    AgentTaskManager._validate_request.
  destruct (are_modalities_compatible _ _); cbn [negb].
  - destruct (pushNotification (params request)) as [c|]; [|discriminate].
    destruct (String.eqb (url c) ""); [intros [= <-]; reflexivity|].
    unfold AgentTaskManager.set_push_notification_info, agent_verifies.
    destruct auth as [a|]; [|discriminate].
    destruct (verify_push_notification_url a (url c)); [discriminate|].
    intros [= <-]. reflexivity.
  - intros [= <-]. reflexivity.
Qed.

Lemma no_rejection_accepts request :
  rejection agent auth request = None ->
  AgentTaskManager._validate_request agent request = None /\
  forall c, pushNotification (params request) = Some c ->
            agent_verifies auth c = true.
Proof.
  unfold rejection, AgentTaskManager._validate_request.
  destruct (are_modalities_compatible _ _); cbn [negb]; [|discriminate].
  destruct (pushNotification (params request)) as [c|].
  - destruct (String.eqb (url c) ""); [discriminate|].
    destruct (agent_verifies auth c) eqn:E; [|discriminate].
    intros _. split; [reflexivity|]. intros c' [= <-]. exact E.
  - intros _. split; [reflexivity|]. intros c' [=].
Qed.

Lemma agent_process_agent_response_no_error request r w :
  wp (AgentTaskManager._process_agent_response auth request r) w
    (fun res _ => forall resp, res = Ok resp -> error resp = None).
Proof.
  unfold AgentTaskManager._process_agent_response.
  apply wp_bind, wp_getitem.
  destruct (content r) as [text|]; [|intros resp [=]].
  destruct (get_default (require_user_input r) false);
    apply wp_bind, wp_update_store;
    (destruct (tasks w !! params_id (params request)); [|intros resp [=]]);
    apply wp_bind, wp_agent_send_task_notification; intros w2 _ _ _ _;
    apply wp_ret; intros resp [= <-]; reflexivity.
Qed.

Lemma agent_serve_no_rejection request w :
  wp (agent_serve agent auth request) w
    (fun res _ => forall resp, res = Ok resp -> ~ is_rejection (error resp)).
Proof.
  unfold agent_serve, AgentTaskManager._get_user_query.
  apply wp_bind.
  destruct (parts (message (params request))) as [|[text|file|data] rest];
    try (apply wp_raise; intros resp [=]).
  apply wp_ret, wp_try_except, wp_bind.
  unfold AgentTaskManager.agent_invoke. apply wp_bind, wp_log, wp_lift.
  destruct (invoke agent text (sessionId (params request))) as [r|e].
  - eapply wp_mono; [apply agent_process_agent_response_no_error|].
    intros [resp|e] w' H; cbn.
    + intros resp' [= <-]. rewrite (H resp eq_refl). exact (fun x => x).
    + apply wp_ret. intros resp [= <-]. exact (fun x => x).
  - apply wp_ret. intros resp [= <-]. exact (fun x => x).
Qed.

Lemma only_rejections_reject request w resp w' :
  AgentTaskManager.on_send_task agent auth request w = (Ok resp, w') ->
  is_rejection (error resp) ->
  w' = w /\ rejection agent auth request = error resp.
Proof.
  intros Hrun Hrej.
  destruct (rejection agent auth request) as [e|] eqn:E.
  - rewrite (rejection_rejects request w e E) in Hrun.
    injection Hrun as <- <-. auto.
  - exfalso. destruct (no_rejection_accepts request E) as [Hv Hp].
    assert (H : wp (AgentTaskManager.on_send_task agent auth request) w
                  (fun res _ => forall resp, res = Ok resp ->
                                             ~ is_rejection (error resp))).
    { apply wp_agent_on_send_task_accepted; [assumption..|].
      intros t w1 _ _ _. apply agent_serve_no_rejection. }
    unfold wp in H. rewrite Hrun in H. exact (H resp eq_refl Hrej).
Qed.

End rejections.

(** * The claims *)

(** C1 (amended).  When the agent's [invoke] raises on the synchronous
    path, [AgentTaskManager.on_send_task] returns a response carrying an
    [InternalError], whereas [MathAgentTaskManager.on_send_task] raises
    a [ValueError] to its caller; in both managers the stored task is
    left in state WORKING and the call to [invoke] is the last call
    made, so no [update_store] follows the failure. *)
Theorem invoke_failure_keeps_task_working
    (agent : Agent) (auth : option PushNotificationSenderAuth)
    (math_auth : PushNotificationSenderAuth)
    (request : SendTaskRequest) (w : World)
    (q : string) (rest : list Part) (e : exn) :
  parts (message (params request)) = TextPart q :: rest ->
  invoke agent q (sessionId (params request)) = Raise e ->
  (AgentTaskManager._validate_request agent request = None ->
   (forall c, pushNotification (params request) = Some c ->
              agent_verifies auth c = true) ->
   exists w',
     AgentTaskManager.on_send_task agent auth request w
       = (Ok (invoke_failure_response request e), w') /\
     exists t pre,
       tasks w' !! params_id (params request) = Some t /\
       task_status t = working /\
       calls w' = pre ++ [call_agent_invoke q (sessionId (params request))])
  /\
  (MathAgentTaskManager._validate_request request = None ->
   (forall c, pushNotification (params request) = Some c ->
              verify_push_notification_url math_auth (url c) = true) ->
   exists w',
     MathAgentTaskManager.on_send_task agent math_auth request w
       = (Raise (ValueError ("Error invoking agent: " +:+ str e)), w') /\
     exists t pre,
       tasks w' !! params_id (params request) = Some t /\
       task_status t = working /\
       calls w' = pre ++ [call_agent_invoke q (sessionId (params request))]).
Proof.
  intros Hq Hi. split; intros Hv Hp.
  - eapply agent_invoke_raises; eassumption.
  - eapply math_invoke_raises; eassumption.
Qed.

Lemma invoke_failure_keeps_task_working_witness :
  (exists w',
     AgentTaskManager.on_send_task
       (A2EMathCurrencyAgent.agent (Some (failing_graph "quota exceeded")))
       (Some trusting) (text_request "t1" "2+2") empty_world
       = (Ok (invoke_failure_response (text_request "t1" "2+2")
                (AgentException "quota exceeded")), w') /\
     exists t pre,
       tasks w' !! "t1" = Some t /\
       task_status t = working /\
       calls w' = pre ++ [call_agent_invoke "2+2" "s1"])
  /\
  (exists w',
     MathAgentTaskManager.on_send_task
       (A2EMathCurrencyAgent.agent (Some (failing_graph "quota exceeded")))
       trusting (text_request "t1" "2+2") empty_world
       = (Raise (ValueError "Error invoking agent: quota exceeded"), w') /\
     exists t pre,
       tasks w' !! "t1" = Some t /\
       task_status t = working /\
       calls w' = pre ++ [call_agent_invoke "2+2" "s1"]).
Proof.
  destruct (invoke_failure_keeps_task_working
              (A2EMathCurrencyAgent.agent (Some (failing_graph "quota exceeded")))
              (Some trusting) trusting (text_request "t1" "2+2") empty_world
              "2+2" [] (AgentException "quota exceeded")
              eq_refl eq_refl) as [Ha Hm].
  split.
  - apply Ha; [reflexivity|]. intros c Hc. discriminate Hc.
  - apply Hm; [reflexivity|]. intros c Hc. discriminate Hc.
Defined.

(** C1, as stated, fails for [MathAgentTaskManager]: the failure of
    [invoke] leaves [on_send_task] as a [ValueError], not as a response. *)
Lemma math_on_send_task_reraises_invoke_failure :
  invoke (MathAgent.agent (failing_graph "quota exceeded")) "2+2" "s1"
    = Raise (AgentException "quota exceeded") /\
  fst (MathAgentTaskManager.on_send_task
         (MathAgent.agent (failing_graph "quota exceeded")) trusting
         (text_request "t1" "2+2") empty_world)
    = Raise (ValueError "Error invoking agent: quota exceeded") /\
  ~ exists response,
      fst (MathAgentTaskManager.on_send_task
             (MathAgent.agent (failing_graph "quota exceeded")) trusting
             (text_request "t1" "2+2") empty_world)
        = Ok response.
Proof.
  split; [reflexivity|]. split; [vm_compute; reflexivity|].
  intros [response H]. vm_compute in H. discriminate H.
Qed.

(** C7 (amended).  For every request that passes validation and push
    registration and whose message is empty or does not start with a
    text part, [on_send_task] fails with a content error --
    [IndexError] for an empty message, [ValueError] otherwise -- that
    leaves the handler as an exception: no response is built, and the
    task stays stored in state WORKING.  Both managers behave so. *)
Theorem content_error_escapes_on_send_task
    (agent : Agent) (auth : option PushNotificationSenderAuth)
    (math_auth : PushNotificationSenderAuth)
    (request : SendTaskRequest) (w : World) :
  leading_text (parts (message (params request))) = false ->
  (AgentTaskManager._validate_request agent request = None ->
   (forall c, pushNotification (params request) = Some c ->
              agent_verifies auth c = true) ->
   exists w',
     AgentTaskManager.on_send_task agent auth request w
       = (Raise (content_error (parts (message (params request)))), w') /\
     exists t,
       tasks w' !! params_id (params request) = Some t /\
       task_status t = working)
  /\
  (MathAgentTaskManager._validate_request request = None ->
   (forall c, pushNotification (params request) = Some c ->
              verify_push_notification_url math_auth (url c) = true) ->
   exists w',
     MathAgentTaskManager.on_send_task agent math_auth request w
       = (Raise (content_error (parts (message (params request)))), w') /\
     exists t,
       tasks w' !! params_id (params request) = Some t /\
       task_status t = working).
Proof.
  intros Hq. split; intros Hv Hp.
  - apply agent_content_error_escapes; assumption.
  - apply math_content_error_escapes; assumption.
Qed.

Lemma content_error_escapes_on_send_task_witness :
  exists w',
    AgentTaskManager.on_send_task
      (A2EMathCurrencyAgent.agent (Some (answering_graph "4")))
      None (file_request "t1") empty_world
      = (Raise (ValueError "Only text parts are supported"), w') /\
    exists t, tasks w' !! "t1" = Some t /\ task_status t = working.
Proof.
  apply (proj1 (content_error_escapes_on_send_task
                  (A2EMathCurrencyAgent.agent (Some (answering_graph "4")))
                  None trusting (file_request "t1") empty_world eq_refl)).
  - reflexivity.
  - intros c Hc. discriminate Hc.
Defined.

(** C7, as stated, fails: a message that starts with a file part, and
    an empty message, make [on_send_task] raise instead of returning an
    error response. *)
Lemma on_send_task_raises_content_error :
  fst (AgentTaskManager.on_send_task
         (A2EMathCurrencyAgent.agent (Some (answering_graph "4")))
         None (file_request "t1") empty_world)
    = Raise (ValueError "Only text parts are supported") /\
  fst (AgentTaskManager.on_send_task
         (A2EMathCurrencyAgent.agent (Some (answering_graph "4")))
         None (empty_request "t1") empty_world)
    = Raise (IndexError "list index out of range").
Proof. split; vm_compute; reflexivity. Qed.

(** C10.  The query is the text of the first part of the message:
    whatever follows a leading text part, [_get_user_query] returns
    that text without raising, and every handler of both managers
    behaves exactly as on the message cut down to its first part. *)
Theorem only_first_part_is_read
    (agent : Agent) (auth : option PushNotificationSenderAuth)
    (math_auth : PushNotificationSenderAuth)
    (request : SendTaskRequest) (text : string) (rest : list Part) :
  let full := with_parts request (TextPart text :: rest) in
  let cut := with_parts request [TextPart text] in
  AgentTaskManager._get_user_query (params full) = ret text /\
  MathAgentTaskManager._get_user_query (params full) = ret text /\
  AgentTaskManager.on_send_task agent auth full
    = AgentTaskManager.on_send_task agent auth cut /\
  MathAgentTaskManager.on_send_task agent math_auth full
    = MathAgentTaskManager.on_send_task agent math_auth cut /\
  AgentTaskManager._run_streaming_agent agent auth full
    = AgentTaskManager._run_streaming_agent agent auth cut /\
  MathAgentTaskManager._run_streaming_agent agent full
    = MathAgentTaskManager._run_streaming_agent agent cut.
Proof. repeat split. Qed.

(** C8.  When a request is accepted and the agent answers,
    [AgentTaskManager.on_send_task] returns the stored task cut to the
    requested history length.  If the answer does not require user
    input the view is COMPLETED, without status message, and exactly
    one artifact, holding the answer as its text part, has been
    appended to the artifacts the task had; if it does, the view is
    INPUT_REQUIRED with the answer as status message and no artifact
    has been added.  For a task id new to the store these are the only
    artifacts: one, respectively none. *)
Theorem answer_becomes_terminal_status
    (agent : Agent) (auth : option PushNotificationSenderAuth)
    (request : SendTaskRequest) (w : World)
    (q : string) (rest : list Part) (r : AgentDict) (answer : string) :
  AgentTaskManager._validate_request agent request = None ->
  (forall c, pushNotification (params request) = Some c ->
             agent_verifies auth c = true) ->
  parts (message (params request)) = TextPart q :: rest ->
  invoke agent q (sessionId (params request)) = Ok r ->
  content r = Some answer ->
  exists w' stored view,
    AgentTaskManager.on_send_task agent auth request w
      = (Ok {| response_id := request_id request;
               result := Some view; error := None |}, w') /\
    tasks w' !! params_id (params request) = Some stored /\
    view = InMemoryTaskManager.append_task_history stored
             (historyLength (params request)) /\
    (forall n, historyLength (params request) = Some n ->
               length (task_history view) <= n) /\
    (exists older, task_history stored = older ++ task_history view) /\
    (if get_default (require_user_input r) false
     then task_status view
            = {| state := INPUT_REQUIRED;
                 status_message := Some (agent_message answer) |} /\
          task_artifacts view = prior_artifacts w (params_id (params request)) /\
          (tasks w !! params_id (params request) = None ->
           task_artifacts view = [])
     else task_status view
            = {| state := COMPLETED; status_message := None |} /\
          task_artifacts view
            = prior_artifacts w (params_id (params request))
              ++ [text_artifact (Some "assistant") answer] /\
          (tasks w !! params_id (params request) = None ->
           task_artifacts view = [text_artifact (Some "assistant") answer])).
Proof.
  intros Hv Hp Hq Hi Hc.
  destruct (agent_answer_stored agent auth request w q rest r answer
              Hv Hp Hq Hi Hc) as (w' & stored & Hrun & Hstored & Hcase).
  exists w', stored,
    (InMemoryTaskManager.append_task_history stored
       (historyLength (params request))).
  split; [exact Hrun|]. split; [exact Hstored|]. split; [reflexivity|].
  split.
  { intros n Hn. rewrite Hn. apply append_task_history_bound. }
  split; [apply append_task_history_suffix|].
  unfold prior_artifacts in *.
  destruct (get_default (require_user_input r) false);
    destruct Hcase as [Hst Hart]; cbn [task_status task_artifacts
      InMemoryTaskManager.append_task_history];
    (split; [exact Hst|]); (split; [exact Hart|]);
    intros Hnew; rewrite Hart, Hnew; reflexivity.
Qed.

Lemma answer_becomes_terminal_status_witness :
  exists w' stored view,
    AgentTaskManager.on_send_task
      (A2EMathCurrencyAgent.agent (Some (answering_graph "4"))) None
      (text_request "t1" "2+2") empty_world
      = (Ok {| response_id := 1; result := Some view; error := None |}, w') /\
    tasks w' !! "t1" = Some stored /\
    view = InMemoryTaskManager.append_task_history stored None /\
    (forall n, @None nat = Some n -> length (task_history view) <= n) /\
    (exists older, task_history stored = older ++ task_history view) /\
    task_status view = {| state := COMPLETED; status_message := None |} /\
    task_artifacts view
      = prior_artifacts empty_world "t1"
        ++ [text_artifact (Some "assistant") "4"] /\
    (tasks empty_world !! "t1" = None ->
     task_artifacts view = [text_artifact (Some "assistant") "4"]).
Proof.
  refine (answer_becomes_terminal_status
            (A2EMathCurrencyAgent.agent (Some (answering_graph "4"))) None
            (text_request "t1" "2+2") empty_world "2+2" []
            (agent_dict true false "4") "4" eq_refl _ eq_refl eq_refl eq_refl).
  intros c Hc. discriminate Hc.
Defined.




(** C5.  Whenever [on_send_task] turns a request down -- the accepted
    output modes miss the agent's content types, a push target has an
    empty URL, or its verification fails -- it returns the matching
    error ([IncompatibleTypesError] or [InvalidParamsError]) and the
    world is exactly as before: neither [upsert_task] nor
    [update_store] was called, no task was created or changed, no push
    target was stored.  Conversely a response with one of these errors
    only comes from such a rejection. *)
Theorem rejection_leaves_world_untouched
    (agent : Agent) (auth : option PushNotificationSenderAuth)
    (request : SendTaskRequest) (w : World) :
  (forall e,
      rejection agent auth request = Some e ->
      AgentTaskManager.on_send_task agent auth request w
      = (Ok (error_response request e), w)) /\
  (forall resp w',
      AgentTaskManager.on_send_task agent auth request w = (Ok resp, w') ->
      is_rejection (error resp) ->
      w' = w /\ rejection agent auth request = error resp).
Proof.
  split.
  - intros e. apply rejection_rejects.
  - intros resp w'. apply only_rejections_reject.
Qed.

Lemma rejection_leaves_world_untouched_witness :
  let request :=
    with_push (text_request "t1" "2+2") "https://unreachable.example/hook" in
  let agent := A2EMathCurrencyAgent.agent (Some (answering_graph "4")) in
  AgentTaskManager.on_send_task agent (Some distrusting) request notified_world
  = (Ok (error_response request
           (InvalidParamsError "Push notification URL is invalid")),
     notified_world).
Proof.
  exact (proj1 (rejection_leaves_world_untouched
                  (A2EMathCurrencyAgent.agent (Some (answering_graph "4")))
                  (Some distrusting)
                  (with_push (text_request "t1" "2+2")
                     "https://unreachable.example/hook")
                  notified_world) _ eq_refl).
Defined.

(** C6: the code at the failing input.  A push target that fails
    verification makes [on_send_task] answer [InvalidParamsError] with
    the store untouched, but makes [on_send_task_subscribe] of both
    managers answer it after [upsert_task] has created the task. *)
Lemma subscribe_creates_task_before_push_check :
  let request :=
    with_push (text_request "t1" "2+2") "https://unreachable.example/hook" in
  let agent := A2EMathCurrencyAgent.agent (Some (answering_graph "4")) in
  let refusal :=
    ErrorResponse
      {| rpc_id := 1;
         rpc_error :=
           Some (InvalidParamsError "Push notification URL is invalid") |} in
  AgentTaskManager.on_send_task agent (Some distrusting) request empty_world
  = (Ok (error_response request
           (InvalidParamsError "Push notification URL is invalid")),
     empty_world) /\
  AgentTaskManager.on_send_task_subscribe agent (Some distrusting) request
    empty_world
  = (Ok refusal,
     add_call (call_upsert_task "t1")
       (put_task "t1" (InMemoryTaskManager.new_task (params request))
          empty_world)) /\
  MathAgentTaskManager.on_send_task_subscribe distrusting request empty_world
  = (Ok refusal,
     add_call (call_upsert_task "t1")
       (put_task "t1" (InMemoryTaskManager.new_task (params request))
          empty_world)).
Proof. repeat split. Qed.

(** C9.  In every world the operations of the two task managers reach
    from the empty one, each status passed to [update_store] has state
    WORKING, INPUT_REQUIRED or COMPLETED, and each stored task is in
    state SUBMITTED, WORKING, INPUT_REQUIRED or COMPLETED: FAILED and
    CANCELED are never written. *)
Theorem only_live_states_reach_store (w : World) :
  reachable w ->
  (forall id status artifacts,
      In (call_update_store id status artifacts) (calls w) ->
      state status = WORKING \/ state status = INPUT_REQUIRED \/
      state status = COMPLETED) /\
  (forall id t,
      tasks w !! id = Some t ->
      state (task_status t) = SUBMITTED \/ state (task_status t) = WORKING \/
      state (task_status t) = INPUT_REQUIRED \/
      state (task_status t) = COMPLETED).
Proof.
  intros Hreach. destruct (reachable_world_ok w Hreach) as [Hstore Hcalls].
  split.
  - intros id status artifacts Hin.
    rewrite Forall_forall in Hcalls.
    specialize (Hcalls _ (proj2 (list_elem_of_In _ _) Hin)). cbn in Hcalls.
    destruct (state status); try discriminate Hcalls; auto.
  - intros id t Ht. specialize (Hstore id t Ht).
    destruct (state (task_status t)); try discriminate Hstore; auto.
Qed.

Lemma only_live_states_reach_store_witness :
  let agent := A2EMathCurrencyAgent.agent (Some (failing_graph "quota exceeded")) in
  let w :=
    run (agent_run_streaming_agent agent None (text_request "t1" "2+2"))
      (run (agent_on_send_task_subscribe agent None (text_request "t1" "2+2"))
         empty_world) in
  (forall id status artifacts,
      In (call_update_store id status artifacts) (calls w) ->
      state status = WORKING \/ state status = INPUT_REQUIRED \/
      state status = COMPLETED) /\
  (forall id t,
      tasks w !! id = Some t ->
      state (task_status t) = SUBMITTED \/ state (task_status t) = WORKING \/
      state (task_status t) = INPUT_REQUIRED \/
      state (task_status t) = COMPLETED).
Proof.
  exact (only_live_states_reach_store _
           (reachable_step _ _ (reachable_step _ _ reachable_start))).
Defined.

(** * Further properties *)

(** ** The synchronous path of [MathAgentTaskManager] *)

Section math_sync.
Import InMemoryTaskManager.
Variable graph : CompiledGraph.
Variable agent : Agent.
Variable auth : PushNotificationSenderAuth.

Lemma math_rejection_rejects request w e :
  rejection (MathAgent.agent graph) (Some auth) request = Some e ->
  MathAgentTaskManager.on_send_task agent auth request w
  = (Ok (error_response request e), w).
Proof.
  unfold rejection, MathAgentTaskManager.on_send_task,
    MathAgentTaskManager._validate_request.
  cbn [SUPPORTED_CONTENT_TYPES MathAgent.agent].
  destruct (are_modalities_compatible _ _); cbn [negb].
  - destruct (pushNotification (params request)) as [c|]; [|discriminate].
    destruct (String.eqb (url c) ""); [intros [= <-]; reflexivity|].
    unfold MathAgentTaskManager.set_push_notification_info, agent_verifies.
    destruct (verify_push_notification_url auth (url c)); [discriminate|].
    intros [= <-]. reflexivity.
  - intros [= <-]. reflexivity.
Qed.

Lemma math_no_rejection_accepts request :
  rejection (MathAgent.agent graph) (Some auth) request = None ->
  MathAgentTaskManager._validate_request request = None /\
  forall c, pushNotification (params request) = Some c ->
            verify_push_notification_url auth (url c) = true.
Proof.
  unfold rejection, MathAgentTaskManager._validate_request.
  cbn [SUPPORTED_CONTENT_TYPES MathAgent.agent].
  destruct (are_modalities_compatible _ _); cbn [negb]; [|discriminate].
  destruct (pushNotification (params request)) as [c|].
  - destruct (String.eqb (url c) ""); [discriminate|].
    unfold agent_verifies.
    destruct (verify_push_notification_url auth (url c)) eqn:E; [|discriminate].
    intros _. split; [reflexivity|]. intros c' [= <-]. exact E.
  - intros _. split; [reflexivity|]. intros c' [=].
Qed.

Lemma math_process_agent_response_no_error request r w :
  wp (MathAgentTaskManager._process_agent_response request r) w
    (fun res _ => forall resp, res = Ok resp -> error resp = None).
Proof.
  unfold MathAgentTaskManager._process_agent_response.
  apply wp_bind, wp_getitem.
  destruct (content r) as [text|]; [|intros resp [=]].
  apply wp_bind, wp_getitem.
  destruct (require_user_input r) as [flag|]; [|intros resp [=]].
  destruct flag;
    apply wp_bind, wp_update_store;
    (destruct (tasks w !! params_id (params request)); [|intros resp [=]]);
    apply wp_bind, wp_math_send_task_notification; intros w2 _ _ _ _;
    apply wp_ret; intros resp [= <-]; reflexivity.
Qed.

Lemma math_serve_no_rejection request w :
  wp (math_serve agent request) w
    (fun res _ => forall resp, res = Ok resp -> ~ is_rejection (error resp)).
Proof.
  unfold math_serve, MathAgentTaskManager._get_user_query.
  apply wp_bind.
  destruct (parts (message (params request))) as [|[text|file|data] rest];
    try (apply wp_raise; intros resp [=]).
  apply wp_ret, wp_bind, wp_try_except.
  unfold MathAgentTaskManager.agent_invoke. apply wp_bind, wp_log, wp_lift.
  destruct (invoke agent text (sessionId (params request))) as [r|e].
  - eapply wp_mono; [apply math_process_agent_response_no_error|].
    intros res w' H resp Hres. rewrite (H resp Hres). exact (fun x => x).
  - apply wp_raise. intros resp [=].
Qed.

Lemma math_only_rejections_reject request w resp w' :
  MathAgentTaskManager.on_send_task agent auth request w = (Ok resp, w') ->
  is_rejection (error resp) ->
  w' = w /\ rejection (MathAgent.agent graph) (Some auth) request = error resp.
Proof.
  intros Hrun Hrej.
  destruct (rejection (MathAgent.agent graph) (Some auth) request)
    as [e|] eqn:E.
  - rewrite (math_rejection_rejects request w e E) in Hrun.
    injection Hrun as <- <-. auto.
  - exfalso. destruct (math_no_rejection_accepts request E) as [Hv Hp].
    assert (H : wp (MathAgentTaskManager.on_send_task agent auth request) w
                  (fun res _ => forall resp, res = Ok resp ->
                                             ~ is_rejection (error resp))).
    { apply wp_math_on_send_task_accepted; [assumption..|].
      intros t w1 _ _ _. apply math_serve_no_rejection. }
    unfold wp in H. rewrite Hrun in H. exact (H resp eq_refl Hrej).
Qed.

Lemma math_answer_stored request w q rest r answer flag :
  MathAgentTaskManager._validate_request request = None ->
  (forall c, pushNotification (params request) = Some c ->
             verify_push_notification_url auth (url c) = true) ->
  parts (message (params request)) = TextPart q :: rest ->
  invoke agent q (sessionId (params request)) = Ok r ->
  content r = Some answer ->
  require_user_input r = Some flag ->
  exists w' t,
    MathAgentTaskManager.on_send_task agent auth request w
    = (Ok {| response_id := request_id request;
             result := Some (append_task_history t
                               (historyLength (params request)));
             error := None |}, w') /\
    tasks w' !! params_id (params request) = Some t /\
    if flag
    then task_status t = {| state := INPUT_REQUIRED;
                            status_message := Some (agent_message answer) |}
         /\ task_artifacts t = prior_artifacts w (params_id (params request))
    else task_status t = {| state := COMPLETED; status_message := None |}
         /\ task_artifacts t
            = prior_artifacts w (params_id (params request))
              ++ [text_artifact None answer].
Proof.
  intros Hv Hp Hq Hi Hc Hr.
  cut (wp (MathAgentTaskManager.on_send_task agent auth request) w
         (fun r' w' =>
            exists t,
              r' = Ok {| response_id := request_id request;
                         result := Some (append_task_history t
                                           (historyLength (params request)));
                         error := None |} /\
              tasks w' !! params_id (params request) = Some t /\
              if flag
              then task_status t = {| state := INPUT_REQUIRED;
                                      status_message := Some (agent_message answer) |}
                   /\ task_artifacts t
                      = prior_artifacts w (params_id (params request))
              else task_status t = {| state := COMPLETED; status_message := None |}
                   /\ task_artifacts t
                      = prior_artifacts w (params_id (params request))
                        ++ [text_artifact None answer])).
  { unfold wp.
    destruct (MathAgentTaskManager.on_send_task agent auth request w)
      as [r' w'].
    cbn. intros (t & -> & H). exists w', t. auto. }
  apply wp_math_on_send_task_accepted; [assumption..|].
  intros t w1 Ht Hst Hart.
  unfold math_serve, MathAgentTaskManager._get_user_query. rewrite Hq.
  apply wp_bind, wp_ret, wp_bind, wp_try_except.
  unfold MathAgentTaskManager.agent_invoke.
  apply wp_bind, wp_log, wp_lift. rewrite Hi.
  unfold MathAgentTaskManager._process_agent_response.
  apply wp_bind, wp_getitem. rewrite Hc.
  apply wp_bind, wp_getitem. rewrite Hr.
  destruct flag.
  - apply wp_bind, wp_update_store. world_simpl. rewrite Ht.
    apply wp_bind, wp_math_send_task_notification.
    intros w2 Htasks _ _ _. apply wp_ret.
    eexists. split; [reflexivity|]. rewrite Htasks. world_simpl.
    split; [apply lookup_insert_eq|]. split; [reflexivity|].
    cbn. rewrite app_nil_r. exact Hart.
  - apply wp_bind, wp_update_store. world_simpl. rewrite Ht.
    apply wp_bind, wp_math_send_task_notification.
    intros w2 Htasks _ _ _. apply wp_ret.
    eexists. split; [reflexivity|]. rewrite Htasks. world_simpl.
    split; [apply lookup_insert_eq|]. split; [reflexivity|].
    cbn. rewrite Hart. reflexivity.
Qed.

End math_sync.

(** ** Agent answers with missing keys *)

Section missing_keys.
Import InMemoryTaskManager.
Variable agent : Agent.
Variable auth : option PushNotificationSenderAuth.
Variable math_auth : PushNotificationSenderAuth.

Lemma agent_answer_without_content request w q rest r :
  AgentTaskManager._validate_request agent request = None ->
  (forall c, pushNotification (params request) = Some c ->
             agent_verifies auth c = true) ->
  parts (message (params request)) = TextPart q :: rest ->
  invoke agent q (sessionId (params request)) = Ok r ->
  content r = None ->
  exists w',
    AgentTaskManager.on_send_task agent auth request w
      = (Ok (invoke_failure_response request (KeyError "content")), w') /\
    exists t pre,
      tasks w' !! params_id (params request) = Some t /\
      task_status t = working /\
      calls w' = pre ++ [call_agent_invoke q (sessionId (params request))].
Proof.
  intros Hv Hp Hq Hi Hc.
  apply wp_result.
  apply wp_agent_on_send_task_accepted; [assumption..|].
  intros t w1 Ht Hst _.
  unfold agent_serve, AgentTaskManager._get_user_query. rewrite Hq.
  apply wp_bind, wp_ret, wp_try_except, wp_bind.
  unfold AgentTaskManager.agent_invoke.
  apply wp_bind, wp_log, wp_lift. rewrite Hi.
  unfold AgentTaskManager._process_agent_response.
  apply wp_bind, wp_getitem. rewrite Hc.
  apply wp_ret. split; [reflexivity|]. exists t, (calls w1). auto.
Qed.

Lemma math_answer_without_key request w q rest r :
  MathAgentTaskManager._validate_request request = None ->
  (forall c, pushNotification (params request) = Some c ->
             verify_push_notification_url math_auth (url c) = true) ->
  parts (message (params request)) = TextPart q :: rest ->
  invoke agent q (sessionId (params request)) = Ok r ->
  content r = None \/ require_user_input r = None ->
  exists w',
    MathAgentTaskManager.on_send_task agent math_auth request w
      = (Raise (KeyError (match content r with
                          | None => "content"
                          | Some _ => "require_user_input"
                          end)), w') /\
    exists t pre,
      tasks w' !! params_id (params request) = Some t /\
      task_status t = working /\
      calls w' = pre ++ [call_agent_invoke q (sessionId (params request))].
Proof.
  intros Hv Hp Hq Hi Hc.
  apply wp_result.
  apply wp_math_on_send_task_accepted; [assumption..|].
  intros t w1 Ht Hst _.
  unfold math_serve, MathAgentTaskManager._get_user_query. rewrite Hq.
  apply wp_bind, wp_ret, wp_bind, wp_try_except.
  unfold MathAgentTaskManager.agent_invoke.
  apply wp_bind, wp_log, wp_lift. rewrite Hi.
  unfold MathAgentTaskManager._process_agent_response.
  apply wp_bind, wp_getitem.
  destruct (content r) as [text|].
  - destruct Hc as [Hc|Hc]; [discriminate Hc|].
    apply wp_bind, wp_getitem. rewrite Hc.
    split; [reflexivity|]. exists t, (calls w1). auto.
  - split; [reflexivity|]. exists t, (calls w1). auto.
Qed.

End missing_keys.

(** ** Where the loop stops *)

Section loop_stops.

Lemma async_for_stops body items bad rest failure w w1 e w2 :
  async_for body items None w = (Ok tt, w1) ->
  body bad w1 = (Raise e, w2) ->
  async_for body (items ++ bad :: rest) failure w = (Raise e, w2).
Proof.
  revert w. induction items as [|item items IH]; intros w Hitems Hbad.
  - cbn in Hitems. injection Hitems as <-.
    cbn. unfold bind. rewrite Hbad. reflexivity.
  - cbn in *. unfold bind in *.
    destruct (body item w) as [[[]|e'] w'].
    + apply IH; assumption.
    + discriminate Hitems.
Qed.


Lemma async_for_app body items more failure w w1 :
  async_for body items None w = (Ok tt, w1) ->
  async_for body (items ++ more) failure w = async_for body more failure w1.
Proof.
  revert w. induction items as [|item items IH]; intros w Hitems.
  - cbn in *. injection Hitems as <-. reflexivity.
  - cbn in *. unfold bind in *.
    destruct (body item w) as [[[]|e'] w'].
    + apply IH; assumption.
    + discriminate Hitems.
Qed.

Lemma agent_increment_without_key auth id item w :
  is_task_complete item = None \/ content item = None ->
  AgentTaskManager.process_increment auth id item w
  = (Raise (KeyError (match is_task_complete item with
                      | None => "is_task_complete"
                      | Some _ => "content"
                      end)), w).
Proof.
  intros H. unfold AgentTaskManager.process_increment,
    AgentTaskManager.derive_update, bind, getitem, raise, ret.
  destruct (is_task_complete item) as [c|]; [|reflexivity].
  destruct H as [H|H]; [discriminate H|]. rewrite H. reflexivity.
Qed.

Lemma math_increment_without_key id item w :
  is_task_complete item = None \/ require_user_input item = None \/
  content item = None ->
  MathAgentTaskManager.process_increment id item w
  = (Raise (KeyError (match is_task_complete item, require_user_input item with
                      | None, _ => "is_task_complete"
                      | Some _, None => "require_user_input"
                      | Some _, Some _ => "content"
                      end)), w).
Proof.
  intros H. unfold MathAgentTaskManager.process_increment,
    MathAgentTaskManager.derive_update, bind, getitem, raise, ret.
  destruct (is_task_complete item) as [c|]; [|reflexivity].
  destruct (require_user_input item) as [r|]; [|reflexivity].
  destruct H as [H|[H|H]]; try discriminate H. rewrite H. reflexivity.
Qed.

End loop_stops.

(** ** Handlers that write no status *)

Section untouched.
Import InMemoryTaskManager.

Lemma store_untouched_refl w : store_untouched w w.
Proof.
  split; [auto|]. exists []. split; [symmetry; apply app_nil_r|reflexivity].
Qed.

Lemma store_untouched_trans w1 w2 w3 :
  store_untouched w1 w2 -> store_untouched w2 w3 -> store_untouched w1 w3.
Proof.
  intros [Ht1 (l1 & Hc1 & Hl1)] [Ht2 (l2 & Hc2 & Hl2)]. split; [auto|].
  exists (l1 ++ l2). split.
  - rewrite Hc2, Hc1, app_assoc. reflexivity.
  - rewrite forallb_app, Hl1, Hl2. reflexivity.
Qed.

Lemma never_updates_ret {A} (a : A) : never_updates (ret a).
Proof. intros w. apply store_untouched_refl. Qed.

Lemma never_updates_raise {A} e : never_updates (@raise A e).
Proof. intros w. apply store_untouched_refl. Qed.

Lemma never_updates_bind {A B} (m : M A) (k : A -> M B) :
  never_updates m -> (forall a, never_updates (k a)) -> never_updates (bind m k).
Proof.
  intros Hm Hk w. unfold bind. specialize (Hm w).
  destruct (m w) as [[a|e] w1]; cbn in *; [|exact Hm].
  eapply store_untouched_trans; [exact Hm|apply Hk].
Qed.

Lemma never_updates_try_except {A} (m : M A) (h : exn -> M A) :
  never_updates m -> (forall e, never_updates (h e)) ->
  never_updates (try_except m h).
Proof.
  intros Hm Hh w. unfold try_except. specialize (Hm w).
  destruct (m w) as [[a|e] w1]; cbn in *; [exact Hm|].
  eapply store_untouched_trans; [exact Hm|apply Hh].
Qed.

Lemma never_updates_log c : is_update_store c = false -> never_updates (log c).
Proof.
  intros Hc w. split; [auto|]. exists [c]. split; [reflexivity|].
  cbn. rewrite Hc. reflexivity.
Qed.

Lemma never_updates_upsert_task p : never_updates (upsert_task p).
Proof.
  apply never_updates_bind; [apply never_updates_log; reflexivity|].
  intros _ w. destruct (tasks w !! params_id p) eqn:E; cbn.
  - apply store_untouched_refl.
  - split.
    + intros id t Ht. cbn. rewrite lookup_insert_ne; [exact Ht|].
      intros <-. rewrite E in Ht. discriminate Ht.
    + exists []. split; [symmetry; apply app_nil_r|reflexivity].
Qed.

Lemma never_updates_base_set_push_notification_info id c :
  never_updates (InMemoryTaskManager.set_push_notification_info id c).
Proof.
  apply never_updates_bind; [apply never_updates_log; reflexivity|].
  intros _ w. split; [auto|].
  exists []. split; [symmetry; apply app_nil_r|reflexivity].
Qed.

Lemma never_updates_setup_sse_consumer id resubscribe :
  never_updates (setup_sse_consumer id resubscribe).
Proof.
  apply never_updates_bind; [apply never_updates_log; reflexivity|].
  intros _ w.
  destruct (task_sse_subscribers w !! id), resubscribe; cbn;
    (split; [auto|]); exists []; (split; [symmetry; apply app_nil_r|reflexivity]).
Qed.

Lemma never_updates_create_task request : never_updates (create_task request).
Proof. apply never_updates_log. reflexivity. Qed.

Lemma never_updates_agent_set_push_notification_info auth id c :
  never_updates (AgentTaskManager.set_push_notification_info auth id c).
Proof.
  unfold AgentTaskManager.set_push_notification_info.
  destruct auth as [a|];
    [destruct (negb (verify_push_notification_url a (url c)))|];
    try apply never_updates_ret;
    (apply never_updates_bind;
     [apply never_updates_base_set_push_notification_info
     |intros _; apply never_updates_ret]).
Qed.

Lemma never_updates_math_set_push_notification_info auth id c :
  never_updates (MathAgentTaskManager.set_push_notification_info auth id c).
Proof.
  unfold MathAgentTaskManager.set_push_notification_info.
  destruct (negb (verify_push_notification_url auth (url c)));
    [apply never_updates_ret|].
  apply never_updates_bind;
    [apply never_updates_base_set_push_notification_info
    |intros _; apply never_updates_ret].
Qed.

Lemma never_updates_agent_on_send_task_subscribe agent auth request :
  never_updates (AgentTaskManager.on_send_task_subscribe agent auth request).
Proof.
  unfold AgentTaskManager.on_send_task_subscribe.
  apply never_updates_try_except; [|intros e; apply never_updates_ret].
  destruct (AgentTaskManager._validate_request agent request);
    [apply never_updates_ret|].
  apply never_updates_bind; [apply never_updates_upsert_task|]. intros _.
  assert (Hgo : never_updates
                  (setup_sse_consumer (params_id (params request)) false;;
                   create_task request;;
                   ret (SSEStream (request_id request)
                          (params_id (params request))))).
  { apply never_updates_bind; [apply never_updates_setup_sse_consumer|].
    intros _. apply never_updates_bind; [apply never_updates_create_task|].
    intros _. apply never_updates_ret. }
  destruct (pushNotification (params request)) as [c|]; [|exact Hgo].
  apply never_updates_bind;
    [apply never_updates_agent_set_push_notification_info|].
  intros []; cbn [negb]; [exact Hgo|apply never_updates_ret].
Qed.

Lemma never_updates_math_on_send_task_subscribe auth request :
  never_updates (MathAgentTaskManager.on_send_task_subscribe auth request).
Proof.
  unfold MathAgentTaskManager.on_send_task_subscribe.
  apply never_updates_try_except; [|intros e; apply never_updates_ret].
  destruct (MathAgentTaskManager._validate_request request);
    [apply never_updates_ret|].
  apply never_updates_bind; [apply never_updates_upsert_task|]. intros _.
  assert (Hgo : never_updates
                  (setup_sse_consumer (params_id (params request)) false;;
                   create_task request;;
                   ret (SSEStream (request_id request)
                          (params_id (params request))))).
  { apply never_updates_bind; [apply never_updates_setup_sse_consumer|].
    intros _. apply never_updates_bind; [apply never_updates_create_task|].
    intros _. apply never_updates_ret. }
  destruct (pushNotification (params request)) as [c|]; [|exact Hgo].
  apply never_updates_bind;
    [apply never_updates_math_set_push_notification_info|].
  intros []; cbn [negb]; [exact Hgo|apply never_updates_ret].
Qed.

Lemma never_updates_on_resubscribe_to_task request :
  never_updates (MathAgentTaskManager.on_resubscribe_to_task request).
Proof.
  unfold MathAgentTaskManager.on_resubscribe_to_task.
  apply never_updates_try_except; [|intros e; apply never_updates_ret].
  apply never_updates_bind; [apply never_updates_setup_sse_consumer|].
  intros _. apply never_updates_ret.
Qed.

Lemma try_except_returns {A} (m : M A) (h : exn -> A) w :
  exists a w', try_except m (fun e => ret (h e)) w = (Ok a, w').
Proof.
  unfold try_except, ret. destruct (m w) as [[a|e] w']; eauto.
Qed.

End untouched.

(** ** Subscriptions *)

Section subscriptions.
Import InMemoryTaskManager.

Lemma wp_setup_sse_consumer id resubscribe w Q :
  match task_sse_subscribers w !! id, resubscribe with
  | Some _, false =>
      Q (Raise (AlreadySubscribedError id))
        (add_call (call_setup_sse_consumer id resubscribe) w)
  | Some _, true =>
      Q (Ok tt) (add_call (call_setup_sse_consumer id resubscribe) w)
  | None, true =>
      Q (Raise (NotFoundError id))
        (add_call (call_setup_sse_consumer id resubscribe) w)
  | None, false =>
      Q (Ok tt)
        (put_queue id {| backlog := []; closed := false |}
           (add_call (call_setup_sse_consumer id resubscribe) w))
  end ->
  wp (setup_sse_consumer id resubscribe) w Q.
Proof.
  unfold wp, setup_sse_consumer, bind, log. world_simpl.
  destruct (task_sse_subscribers w !! id), resubscribe;
    intros H; exact H.
Qed.

(** What the part of [on_send_task_subscribe] after the push check does. *)
Lemma wp_subscribe_tail request w Q :
  match task_sse_subscribers w !! params_id (params request) with
  | Some _ =>
      Q (Raise (AlreadySubscribedError (params_id (params request))))
        (add_call (call_setup_sse_consumer (params_id (params request)) false) w)
  | None =>
      Q (Ok (SSEStream (request_id request) (params_id (params request))))
        (add_call (call_create_task request)
           (put_queue (params_id (params request))
              {| backlog := []; closed := false |}
              (add_call
                 (call_setup_sse_consumer (params_id (params request)) false)
                 w)))
  end ->
  wp (setup_sse_consumer (params_id (params request)) false;;
      create_task request;;
      ret (SSEStream (request_id request) (params_id (params request)))) w Q.
Proof.
  intros H. apply wp_bind, wp_setup_sse_consumer.
  destruct (task_sse_subscribers w !! params_id (params request));
    [exact H|].
  apply wp_bind. unfold create_task. apply wp_log, wp_ret. exact H.
Qed.

Lemma agent_subscribe_spec agent auth request w :
  AgentTaskManager._validate_request agent request = None ->
  (forall c, pushNotification (params request) = Some c ->
             agent_verifies auth c = true) ->
  exists w',
    AgentTaskManager.on_send_task_subscribe agent auth request w
    = (Ok (match task_sse_subscribers w !! params_id (params request) with
           | None => SSEStream (request_id request) (params_id (params request))
           | Some _ =>
               ErrorResponse
                 {| rpc_id := request_id request;
                    rpc_error :=
                      Some (InternalError
                              ("An error occurred while streaming the response: "
                               +:+ str (AlreadySubscribedError
                                          (params_id (params request))))) |}
           end), w') /\
    tasks w' !! params_id (params request)
    = Some (match tasks w !! params_id (params request) with
            | Some t => t
            | None => new_task (params request)
            end) /\
    (forall c, pushNotification (params request) = Some c ->
               push_notification_infos w' !! params_id (params request)
               = Some c) /\
    match task_sse_subscribers w !! params_id (params request) with
    | None =>
        task_sse_subscribers w' !! params_id (params request)
        = Some {| backlog := []; closed := false |} /\
        exists pre,
          calls w'
          = pre ++ [call_setup_sse_consumer (params_id (params request)) false;
                    call_create_task request]
    | Some q =>
        task_sse_subscribers w' !! params_id (params request) = Some q /\
        forall c, In c (calls w') -> In c (calls w) \/ c <> call_create_task request
    end.
Proof.
  intros Hv Hp. apply wp_result.
  unfold AgentTaskManager.on_send_task_subscribe. rewrite Hv.
  apply wp_try_except.
  match goal with |- wp _ _ ?Q' => set (Q2 := Q') end.
  apply wp_bind, wp_upsert_task.
  intros t w1 Ht Hprior _ Hpush Hsubs Hcalls.
  assert (Htask : Some t = Some (match tasks w !! params_id (params request) with
                                 | Some t0 => t0
                                 | None => new_task (params request)
                                 end)).
  { destruct Hprior as [-> | [-> ->]]; reflexivity. }
  assert (Hgo : forall w2,
             tasks w2 = tasks w1 ->
             task_sse_subscribers w2 = task_sse_subscribers w ->
             (forall c, pushNotification (params request) = Some c ->
                        push_notification_infos w2 !! params_id (params request)
                        = Some c) ->
             (forall c, In c (calls w2) ->
                        In c (calls w) \/ c <> call_create_task request) ->
             wp (setup_sse_consumer (params_id (params request)) false;;
                 create_task request;;
                 ret (SSEStream (request_id request)
                        (params_id (params request)))) w2 Q2).
  2: { destruct (pushNotification (params request)) as [c|] eqn:Ec.
       - apply wp_bind, wp_agent_set_push_notification_info.
         rewrite (Hp c eq_refl). cbn [negb]. apply Hgo; world_simpl.
         + reflexivity.
         + exact Hsubs.
         + intros c' [= <-]. apply lookup_insert_eq.
         + intros c'. rewrite Hcalls, !in_app_iff. cbn.
           intros [[H|[<-|[]]]|[<-|[]]]; auto; right; discriminate.
       - apply Hgo; auto.
         + intros c [=].
         + intros c'. rewrite Hcalls, in_app_iff. cbn.
           intros [H|[<-|[]]]; auto; right; discriminate. }
  intros w2 Ht2 Hs2 Hp2 Hc2.
  apply wp_subscribe_tail. rewrite Hs2. subst Q2.
  destruct (task_sse_subscribers w !! params_id (params request)) as [q|] eqn:Eq.
  - apply wp_ret. split; [reflexivity|]. world_simpl.
    rewrite Ht2, Ht, Hs2, Eq. repeat split; auto.
    intros c. rewrite in_app_iff. cbn.
    intros [H|[<-|[]]]; [auto|right; discriminate].
  - split; [reflexivity|]. world_simpl.
    rewrite Ht2, Ht. repeat split; auto.
    + apply lookup_insert_eq.
    + eexists. rewrite <- app_assoc. reflexivity.
Qed.

End subscriptions.

(** ** The id of a response *)

Section response_ids.
Import InMemoryTaskManager.

Lemma returns_only_ret {A} (a : A) (P : A -> Prop) : P a -> returns_only (ret a) P.
Proof. intros H w a' w' [= <- _]. exact H. Qed.

Lemma returns_only_raise {A} e (P : A -> Prop) : returns_only (raise e) P.
Proof. intros w a' w' [=]. Qed.

Lemma returns_only_bind {A B} (m : M A) (k : A -> M B) (P : B -> Prop) :
  (forall a, returns_only (k a) P) -> returns_only (bind m k) P.
Proof.
  intros Hk w b w'. unfold bind.
  destruct (m w) as [[a|e] w1]; [apply Hk|intros [=]].
Qed.

Lemma returns_only_try_except {A} (m : M A) (h : exn -> M A) (P : A -> Prop) :
  returns_only m P -> (forall e, returns_only (h e) P) ->
  returns_only (try_except m h) P.
Proof.
  intros Hm Hh w a w'. unfold try_except.
  destruct (m w) as [[a'|e] w1] eqn:E.
  - intros [= <- <-]. exact (Hm w a' w1 E).
  - apply Hh.
Qed.

Ltac returns_only_step :=
  match goal with
  | |- returns_only (bind _ _) _ => apply returns_only_bind; intros ?
  | |- returns_only (try_except _ _) _ =>
      apply returns_only_try_except; [|intros ?]
  | |- returns_only (ret _) _ => apply returns_only_ret; reflexivity
  | |- returns_only (raise _) _ => apply returns_only_raise
  | |- returns_only (match (match (match ?y with _ => _ end)
                                   with _ => _ end) with _ => _ end) _ =>
      destruct y
  | |- returns_only (match (match ?y with _ => _ end) with _ => _ end) _ =>
      destruct y
  | |- returns_only (match ?x with _ => _ end) _ => destruct x
  end.

Lemma agent_on_send_task_echoes_id agent auth request :
  returns_only (AgentTaskManager.on_send_task agent auth request)
    (fun resp => response_id resp = request_id request).
Proof.
  unfold AgentTaskManager.on_send_task,
    AgentTaskManager._process_agent_response.
  repeat returns_only_step.
Qed.

Lemma math_on_send_task_echoes_id agent auth request :
  returns_only (MathAgentTaskManager.on_send_task agent auth request)
    (fun resp => response_id resp = request_id request).
Proof.
  unfold MathAgentTaskManager.on_send_task,
    MathAgentTaskManager._process_agent_response.
  repeat returns_only_step.
Qed.

Lemma agent_on_send_task_subscribe_echoes_id agent auth request :
  returns_only (AgentTaskManager.on_send_task_subscribe agent auth request)
    (fun r => subscribe_result_id r = request_id request).
Proof.
  unfold AgentTaskManager.on_send_task_subscribe,
    AgentTaskManager._validate_request.
  cbv zeta. repeat returns_only_step.
Qed.

Lemma math_on_send_task_subscribe_echoes_id auth request :
  returns_only (MathAgentTaskManager.on_send_task_subscribe auth request)
    (fun r => subscribe_result_id r = request_id request).
Proof.
  unfold MathAgentTaskManager.on_send_task_subscribe,
    MathAgentTaskManager._validate_request.
  cbv zeta. repeat returns_only_step.
Qed.

End response_ids.

(** ** Push targets *)

Section push_targets.
Import InMemoryTaskManager.

Lemma agent_registered_then_notified auth id c t w :
  task_id t = id ->
  agent_verifies auth c = true ->
  exists w1 w2,
    AgentTaskManager.set_push_notification_info auth id c w = (Ok true, w1) /\
    AgentTaskManager.send_task_notification auth t w1 = (Ok tt, w2) /\
    push_notification_infos w2 !! id = Some c /\
    tasks w2 = tasks w /\
    calls w2
    = calls w
      ++ [call_set_push_notification_info id c; call_send_task_notification t]
      ++ match auth with
         | Some _ => [call_send_push_notification (url c) t]
         | None => []
         end.
Proof.
  intros Hid Hver.
  assert (H1 : AgentTaskManager.set_push_notification_info auth id c w
               = (Ok true,
                  put_push_info id c
                    (add_call (call_set_push_notification_info id c) w))).
  { unfold AgentTaskManager.set_push_notification_info, agent_verifies in *.
    destruct auth as [a|]; [rewrite Hver|]; reflexivity. }
  exists (put_push_info id c
            (add_call (call_set_push_notification_info id c) w)).
  assert (H2 : wp (AgentTaskManager.send_task_notification auth t)
                 (put_push_info id c
                    (add_call (call_set_push_notification_info id c) w))
                 (fun r w2 =>
                    r = Ok tt /\
                    push_notification_infos w2 !! id = Some c /\
                    tasks w2 = tasks w /\
                    calls w2
                    = calls w
                      ++ [call_set_push_notification_info id c;
                          call_send_task_notification t]
                      ++ match auth with
                         | Some _ => [call_send_push_notification (url c) t]
                         | None => []
                         end)).
  { apply wp_agent_send_task_notification.
    intros w2 Ht Hp _ Hc. split; [reflexivity|].
    rewrite Hp, Ht, Hc. world_simpl. unfold agent_pushes. world_simpl.
    rewrite Hid, !lookup_insert_eq. repeat split.
    destruct auth; rewrite <- app_assoc; reflexivity. }
  unfold wp in H2.
  destruct (AgentTaskManager.send_task_notification auth t _) as [r w2].
  cbn in H2. destruct H2 as (-> & Hp & Ht & Hc).
  exists w2. repeat split; assumption.
Qed.

Lemma agent_unverified_not_registered a id c w :
  verify_push_notification_url a (url c) = false ->
  AgentTaskManager.set_push_notification_info (Some a) id c w = (Ok false, w).
Proof.
  intros H. unfold AgentTaskManager.set_push_notification_info.
  rewrite H. reflexivity.
Qed.

Lemma math_unverified_not_registered a id c w :
  verify_push_notification_url a (url c) = false ->
  MathAgentTaskManager.set_push_notification_info a id c w = (Ok false, w).
Proof.
  intros H. unfold MathAgentTaskManager.set_push_notification_info.
  rewrite H. reflexivity.
Qed.

Lemma math_registered_then_notified auth id c t w :
  task_id t = id ->
  verify_push_notification_url auth (url c) = true ->
  exists w1 w2,
    MathAgentTaskManager.set_push_notification_info auth id c w = (Ok true, w1) /\
    MathAgentTaskManager.send_task_notification t w1 = (Ok tt, w2) /\
    push_notification_infos w2 !! id = Some c /\
    tasks w2 = tasks w /\
    calls w2
    = calls w
      ++ [call_set_push_notification_info id c; call_send_task_notification t;
          call_send_push_notification (url c) t].
Proof.
  intros Hid Hver.
  assert (H1 : MathAgentTaskManager.set_push_notification_info auth id c w
               = (Ok true,
                  put_push_info id c
                    (add_call (call_set_push_notification_info id c) w))).
  { unfold MathAgentTaskManager.set_push_notification_info.
    rewrite Hver. reflexivity. }
  exists (put_push_info id c
            (add_call (call_set_push_notification_info id c) w)).
  assert (H2 : wp (MathAgentTaskManager.send_task_notification t)
                 (put_push_info id c
                    (add_call (call_set_push_notification_info id c) w))
                 (fun r w2 =>
                    r = Ok tt /\
                    push_notification_infos w2 !! id = Some c /\
                    tasks w2 = tasks w /\
                    calls w2
                    = calls w
                      ++ [call_set_push_notification_info id c;
                          call_send_task_notification t;
                          call_send_push_notification (url c) t])).
  { apply wp_math_send_task_notification.
    intros w2 Ht Hp _ Hc. split; [reflexivity|].
    rewrite Hp, Ht, Hc. world_simpl. unfold math_pushes. world_simpl.
    rewrite Hid, !lookup_insert_eq. repeat split.
    rewrite <- app_assoc; reflexivity. }
  unfold wp in H2.
  destruct (MathAgentTaskManager.send_task_notification t _) as [r w2].
  cbn in H2. destruct H2 as (-> & Hp & Ht & Hc).
  exists w2. repeat split; assumption.
Qed.

Lemma agent_unregistered_not_notified auth t w :
  push_notification_infos w !! task_id t = None ->
  AgentTaskManager.send_task_notification auth t w
  = (Ok tt, add_call (call_send_task_notification t) w).
Proof.
  intros H. unfold AgentTaskManager.send_task_notification, bind, log,
    has_push_notification_info, ret.
  world_simpl. rewrite H.
  rewrite bool_decide_eq_false_2 by (intros [? ?]; discriminate).
  reflexivity.
Qed.

End push_targets.

(** ** The shape of the agents' streams *)

Section stream_shapes.

Lemma progress_increments_all a b states :
  Forall is_progress (fst (progress_increments a b states)).
Proof.
  apply Forall_forall. intros item Hin.
  apply (progress_increments_shape a b states item).
  apply list_elem_of_In. exact Hin.
Qed.

Lemma currency_stream_shape g q sid :
  match stream_failure (A2EMathCurrencyAgent.stream (Some g) q sid) with
  | None =>
      exists progress m,
        increments (A2EMathCurrencyAgent.stream (Some g) q sid)
        = progress ++ [agent_dict true false (message_content m)] /\
        Forall is_progress progress /\
        last (get_state_messages g q sid) = Some m
  | Some _ =>
      Forall is_progress
        (increments (A2EMathCurrencyAgent.stream (Some g) q sid))
  end.
Proof.
  unfold A2EMathCurrencyAgent.stream.
  destruct (graph_stream g q sid) as [states gf].
  pose proof (progress_increments_all "Processing your request..."
                "Computing results..." states) as Hp.
  destruct (progress_increments "Processing your request..."
              "Computing results..." states) as [items failure].
  cbn in Hp.
  destruct failure as [e|]; [exact Hp|].
  destruct gf as [e|]; [exact Hp|].
  destruct (last (get_state_messages g q sid)) as [m|]; cbn; [|exact Hp].
  exists items, m. auto.
Qed.

Lemma math_stream_shape g q sid :
  match stream_failure (MathAgent.stream g q sid) with
  | None =>
      exists progress,
        increments (MathAgent.stream g q sid)
        = progress ++ [MathAgent.get_agent_response g q sid] /\
        Forall is_progress progress
  | Some _ => Forall is_progress (increments (MathAgent.stream g q sid))
  end.
Proof.
  unfold MathAgent.stream.
  destruct (graph_stream g q sid) as [states gf].
  pose proof (progress_increments_all "Calculating..."
                "Processing the result..." states) as Hp.
  destruct (progress_increments "Calculating..."
              "Processing the result..." states) as [items failure].
  cbn in Hp.
  destruct failure as [e|]; [exact Hp|].
  destruct gf as [e|]; [exact Hp|].
  cbn. exists items. auto.
Qed.

Lemma currency_invoke_outcome graph q sid r :
  A2EMathCurrencyAgent.invoke graph q sid = Ok r ->
  (graph = None /\ r = initialization_failed) \/
  (exists g messages m,
      graph = Some g /\ graph_invoke g q sid = Ok messages /\
      last messages = Some m /\
      r = agent_dict true false (message_content m)).
Proof.
  unfold A2EMathCurrencyAgent.invoke.
  destruct graph as [g|]; [|intros [= <-]; left; auto].
  destruct (graph_invoke g q sid) as [messages|e] eqn:E; [|discriminate].
  destruct (last messages) as [m|] eqn:El; [|discriminate].
  intros [= <-]. right. exists g, messages, m. auto.
Qed.

End stream_shapes.

(** ** A whole streaming run *)

Section whole_run.
Import InMemoryTaskManager.

Lemma agent_progress_loop auth id items :
  Forall is_progress items ->
  forall w t,
    tasks w !! id = Some t ->
    queue_open w id ->
    exists w1 t1,
      async_for (AgentTaskManager.process_increment auth id) items None w
      = (Ok tt, w1) /\
      tasks w1 !! id = Some t1 /\
      task_artifacts t1 = task_artifacts t /\
      length (task_history t1) = length (task_history t) + length items /\
      (items <> [] -> state (task_status t1) = WORKING) /\
      (items = [] -> w1 = w) /\
      push_notification_infos w1 = push_notification_infos w /\
      queue_open w1 id.
Proof.
  induction 1 as [|item items [text ->] _ IH]; intros w t Ht Hopen.
  - exists w, t. cbn. repeat split; auto; try lia. intros H; congruence.
  - pose proof (agent_derive_update (agent_dict false false text) false text w
                  eq_refl eq_refl) as Hd.
    cbn [get_default require_user_input agent_dict negb andb] in Hd.
    destruct (agent_process_increment_ok auth id _ w t _ _ _ Hd Ht Hopen)
      as (w' & Hrun & Htasks & Hpush & _ & Hq).
    apply (f_equal (fun m => m !! id)) in Htasks.
    rewrite lookup_insert_eq in Htasks.
    destruct (IH w' _ Htasks (Hq eq_refl))
      as (w1 & t1 & Hloop & Ht1 & Ha1 & Hh1 & Hs1 & _ & Hp1 & Hq1).
    exists w1, t1. cbn [async_for]. unfold bind. rewrite Hrun.
    split; [exact Hloop|]. split; [exact Ht1|].
    split; [rewrite Ha1; cbn; apply app_nil_r|].
    split; [rewrite Hh1; cbn; rewrite length_app; cbn; lia|].
    split.
    { intros _. destruct items as [|i items'].
      - cbn in Hloop. injection Hloop as <-.
        rewrite Htasks in Ht1. injection Ht1 as <-. reflexivity.
      - apply Hs1. discriminate. }
    split; [discriminate|]. split; [congruence|exact Hq1].
Qed.

Lemma math_progress_loop id items :
  Forall is_progress items ->
  forall w t,
    tasks w !! id = Some t ->
    queue_open w id ->
    exists w1 t1,
      async_for (MathAgentTaskManager.process_increment id) items None w
      = (Ok tt, w1) /\
      tasks w1 !! id = Some t1 /\
      task_artifacts t1 = task_artifacts t /\
      length (task_history t1) = length (task_history t) + length items /\
      (items <> [] -> state (task_status t1) = WORKING) /\
      (items = [] -> w1 = w) /\
      push_notification_infos w1 = push_notification_infos w /\
      queue_open w1 id.
Proof.
  induction 1 as [|item items [text ->] _ IH]; intros w t Ht Hopen.
  - exists w, t. cbn. repeat split; auto; try lia. intros H; congruence.
  - pose proof (math_derive_update (agent_dict false false text) false false
                  text w eq_refl eq_refl eq_refl) as Hd.
    cbn [negb andb] in Hd.
    destruct (math_process_increment_ok id _ w t _ _ _ Hd Ht Hopen)
      as (w' & Hrun & Htasks & Hpush & _ & Hq).
    apply (f_equal (fun m => m !! id)) in Htasks.
    rewrite lookup_insert_eq in Htasks.
    destruct (IH w' _ Htasks (Hq eq_refl))
      as (w1 & t1 & Hloop & Ht1 & Ha1 & Hh1 & Hs1 & _ & Hp1 & Hq1).
    exists w1, t1. cbn [async_for]. unfold bind. rewrite Hrun.
    split; [exact Hloop|]. split; [exact Ht1|].
    split; [rewrite Ha1; cbn; apply app_nil_r|].
    split; [rewrite Hh1; cbn; rewrite length_app; cbn; lia|].
    split.
    { intros _. destruct items as [|i items'].
      - cbn in Hloop. injection Hloop as <-.
        rewrite Htasks in Ht1. injection Ht1 as <-. reflexivity.
      - apply Hs1. discriminate. }
    split; [discriminate|]. split; [congruence|exact Hq1].
Qed.

End whole_run.

Section whole_run_results.
Import InMemoryTaskManager.
Variable agent : Agent.
Variable auth : option PushNotificationSenderAuth.

Lemma agent_run_with_final request w t q rest progress c r text :
  parts (message (params request)) = TextPart q :: rest ->
  increments (stream agent q (sessionId (params request)))
  = progress ++ [agent_dict c r text] ->
  stream_failure (stream agent q (sessionId (params request))) = None ->
  Forall is_progress progress ->
  c && r = false ->
  tasks w !! params_id (params request) = Some t ->
  queue_open w (params_id (params request)) ->
  exists w' t1,
    AgentTaskManager._run_streaming_agent agent auth request w = (Ok tt, w') /\
    task_artifacts t1 = task_artifacts t /\
    length (task_history t1) = length (task_history t) + length progress /\
    follows_increment (agent_dict c r text) text
      (text_artifact (Some "assistant") text) w'
      (params_id (params request)) t1.
Proof.
  intros Hq Hinc Hfail Hprog Hcr Ht Hopen.
  rewrite (agent_run_streaming_agent_unfold agent auth request q rest Hq).
  unfold try_except, agent_streaming_loop, AgentTaskManager.agent_stream,
    bind, log, ret.
  rewrite Hinc, Hfail.
  set (w0 := add_call (call_agent_stream q (sessionId (params request))) w).
  destruct (agent_progress_loop auth (params_id (params request)) progress
              Hprog w0 t Ht Hopen)
    as (w1 & t1 & Hloop & Ht1 & Ha1 & Hh1 & _ & _ & _ & Hq1).
  rewrite (async_for_app _ progress _ None w0 w1 Hloop).
  destruct (agent_increment_marks auth (params_id (params request)) t1 w1
              c r text Hcr Ht1 Hq1) as (w' & Hrun & Hmark).
  exists w', t1. cbn [async_for]. unfold bind, ret. rewrite Hrun.
  auto.
Qed.


End whole_run_results.

Section math_whole_run_results.
Import InMemoryTaskManager.
Variable agent : Agent.

Lemma math_run_with_final request w t q rest progress c r text :
  parts (message (params request)) = TextPart q :: rest ->
  increments (stream agent q (sessionId (params request)))
  = progress ++ [agent_dict c r text] ->
  stream_failure (stream agent q (sessionId (params request))) = None ->
  Forall is_progress progress ->
  c && r = false ->
  tasks w !! params_id (params request) = Some t ->
  queue_open w (params_id (params request)) ->
  exists w' t1,
    MathAgentTaskManager._run_streaming_agent agent request w = (Ok tt, w') /\
    task_artifacts t1 = task_artifacts t /\
    length (task_history t1) = length (task_history t) + length progress /\
    follows_increment (agent_dict c r text) text
      (math_stream_artifact text) w'
      (params_id (params request)) t1.
Proof.
  intros Hq Hinc Hfail Hprog Hcr Ht Hopen.
  rewrite (math_run_streaming_agent_unfold agent request q rest Hq).
  unfold try_except, math_streaming_loop, MathAgentTaskManager.agent_stream,
    bind, log, ret.
  rewrite Hinc, Hfail.
  set (w0 := add_call (call_agent_stream q (sessionId (params request))) w).
  destruct (math_progress_loop (params_id (params request)) progress
              Hprog w0 t Ht Hopen)
    as (w1 & t1 & Hloop & Ht1 & Ha1 & Hh1 & _ & _ & _ & Hq1).
  rewrite (async_for_app _ progress _ None w0 w1 Hloop).
  destruct (math_increment_marks (params_id (params request)) t1 w1
              c r text Hcr Ht1 Hq1) as (w' & Hrun & Hmark).
  exists w', t1. cbn [async_for]. unfold bind, ret. rewrite Hrun.
  auto.
Qed.


End math_whole_run_results.

(** ** Reading the reply of the A2A server *)

Section replies.
Import A2AClient.
Variable agent_name : string.
Variable describe : PyError -> string.
Variable session_id task_id : string.
Variable post : SendTaskRequest -> HttpExchange.

Lemma call_reads_body prompt body :
  post (payload session_id task_id prompt) = Body body ->
  _call_a2a_agent agent_name describe session_id task_id post prompt
  = match extract_content body with
    | Value v => v
    | Fails e => JString ("Unexpected error: " +:+ describe e)
    end.
Proof. intros H. unfold _call_a2a_agent. rewrite H. reflexivity. Qed.

Lemma extract_first_text key holder ad pd more more' v :
  dict_lookup key holder = Some (JList (JDict ad :: more)) ->
  dict_lookup "parts" ad = Some (JList (JDict pd :: more')) ->
  dict_lookup "text" pd = Some v ->
  and_then (item key (JDict holder)) (fun xs =>
  and_then (first xs) (fun x =>
  and_then (item "parts" x) (fun ps =>
  and_then (first ps) (fun part => item "text" part))))
  = Value v.
Proof.
  intros H1 H2 H3. cbn [item and_then first]. rewrite H1.
  cbn [item and_then first]. rewrite H2. cbn [item and_then first].
  rewrite H3. reflexivity.
Qed.

End replies.

(** * Further properties, stated *)

(** X1.  [MathAgentTaskManager.on_send_task] turns a request down for
    the same three reasons as [AgentTaskManager.on_send_task] --
    output modes that miss [MathAgent.SUPPORTED_CONTENT_TYPES], an
    empty push URL, a push URL that fails verification -- with the
    matching error and the world exactly as before; a response with
    [IncompatibleTypesError] or [InvalidParamsError] only comes from
    such a rejection. *)
Theorem math_rejection_leaves_world_untouched
    (graph : CompiledGraph) (agent : Agent)
    (auth : PushNotificationSenderAuth)
    (request : SendTaskRequest) (w : World) :
  (forall e,
      rejection (MathAgent.agent graph) (Some auth) request = Some e ->
      MathAgentTaskManager.on_send_task agent auth request w
      = (Ok (error_response request e), w)) /\
  (forall resp w',
      MathAgentTaskManager.on_send_task agent auth request w = (Ok resp, w') ->
      is_rejection (error resp) ->
      w' = w /\
      rejection (MathAgent.agent graph) (Some auth) request = error resp).
Proof.
  split.
  - intros e. apply math_rejection_rejects.
  - intros resp w'. apply math_only_rejections_reject.
Qed.

Lemma math_rejection_leaves_world_untouched_witness :
  MathAgentTaskManager.on_send_task (MathAgent.agent (answering_graph "4"))
    trusting (png_request "t1") notified_world
  = (Ok (error_response (png_request "t1") IncompatibleTypesError),
     notified_world).
Proof.
  exact (proj1 (math_rejection_leaves_world_untouched
                  (answering_graph "4") (MathAgent.agent (answering_graph "4"))
                  trusting (png_request "t1") notified_world) _ eq_refl).
Defined.

(** X2.  When [MathAgentTaskManager.on_send_task] accepts a request and
    the agent's answer carries its content and its [require_user_input]
    flag, the response holds the stored task cut to the requested
    history length: COMPLETED with one artifact (without role) holding
    the answer appended when the flag is false, INPUT_REQUIRED with the
    answer as status message and no artifact added when it is true. *)
Theorem math_answer_becomes_terminal_status
    (agent : Agent) (auth : PushNotificationSenderAuth)
    (request : SendTaskRequest) (w : World)
    (q : string) (rest : list Part) (r : AgentDict) (answer : string)
    (flag : bool) :
  MathAgentTaskManager._validate_request request = None ->
  (forall c, pushNotification (params request) = Some c ->
             verify_push_notification_url auth (url c) = true) ->
  parts (message (params request)) = TextPart q :: rest ->
  invoke agent q (sessionId (params request)) = Ok r ->
  content r = Some answer ->
  require_user_input r = Some flag ->
  exists w' stored,
    MathAgentTaskManager.on_send_task agent auth request w
    = (Ok {| response_id := request_id request;
             result := Some (InMemoryTaskManager.append_task_history stored
                               (historyLength (params request)));
             error := None |}, w') /\
    tasks w' !! params_id (params request) = Some stored /\
    if flag
    then task_status stored
         = {| state := INPUT_REQUIRED;
              status_message := Some (agent_message answer) |} /\
         task_artifacts stored
         = prior_artifacts w (params_id (params request))
    else task_status stored = {| state := COMPLETED; status_message := None |} /\
         task_artifacts stored
         = prior_artifacts w (params_id (params request))
           ++ [text_artifact None answer].
Proof. apply math_answer_stored. Qed.

Lemma math_answer_becomes_terminal_status_witness :
  exists w' stored,
    MathAgentTaskManager.on_send_task
      (MathAgent.agent (asking_graph "Which numbers?")) trusting
      (text_request "t1" "add") empty_world
    = (Ok {| response_id := 1;
             result := Some (InMemoryTaskManager.append_task_history stored None);
             error := None |}, w') /\
    tasks w' !! "t1" = Some stored /\
    task_status stored
    = {| state := INPUT_REQUIRED;
         status_message := Some (agent_message "Which numbers?") |} /\
    task_artifacts stored = prior_artifacts empty_world "t1".
Proof.
  refine (math_answer_becomes_terminal_status
            (MathAgent.agent (asking_graph "Which numbers?")) trusting
            (text_request "t1" "add") empty_world "add" []
            (agent_dict false true "Which numbers?") "Which numbers?" true
            eq_refl _ eq_refl eq_refl eq_refl eq_refl).
  intros c Hc. discriminate Hc.
Defined.

(** X3.  An agent answer without its "content" key: in
    [AgentTaskManager.on_send_task] the [KeyError] is caught with the
    errors of the invocation and returned as [InternalError]; in
    [MathAgentTaskManager.on_send_task] a missing "content" or
    "require_user_input" key raises the [KeyError] to the caller.  In
    both the task stays WORKING and nothing is called after [invoke]. *)
Theorem malformed_answer_on_sync_path
    (agent : Agent) (auth : option PushNotificationSenderAuth)
    (math_auth : PushNotificationSenderAuth)
    (request : SendTaskRequest) (w : World)
    (q : string) (rest : list Part) (r : AgentDict) :
  parts (message (params request)) = TextPart q :: rest ->
  invoke agent q (sessionId (params request)) = Ok r ->
  (content r = None ->
   AgentTaskManager._validate_request agent request = None ->
   (forall c, pushNotification (params request) = Some c ->
              agent_verifies auth c = true) ->
   exists w',
     AgentTaskManager.on_send_task agent auth request w
     = (Ok {| response_id := request_id request; result := None;
              error := Some (InternalError "Error invoking agent: 'content'") |},
        w') /\
     exists t pre,
       tasks w' !! params_id (params request) = Some t /\
       task_status t = working /\
       calls w' = pre ++ [call_agent_invoke q (sessionId (params request))])
  /\
  (content r = None \/ require_user_input r = None ->
   MathAgentTaskManager._validate_request request = None ->
   (forall c, pushNotification (params request) = Some c ->
              verify_push_notification_url math_auth (url c) = true) ->
   exists w',
     MathAgentTaskManager.on_send_task agent math_auth request w
     = (Raise (KeyError (match content r with
                         | None => "content"
                         | Some _ => "require_user_input"
                         end)), w') /\
     exists t pre,
       tasks w' !! params_id (params request) = Some t /\
       task_status t = working /\
       calls w' = pre ++ [call_agent_invoke q (sessionId (params request))]).
Proof.
  intros Hq Hi. split.
  - intros Hc Hv Hp.
    exact (agent_answer_without_content agent auth request w q rest r
             Hv Hp Hq Hi Hc).
  - intros Hc Hv Hp.
    exact (math_answer_without_key agent math_auth request w q rest r
             Hv Hp Hq Hi Hc).
Qed.

Lemma malformed_answer_on_sync_path_witness :
  exists w',
    AgentTaskManager.on_send_task keyless_agent None (text_request "t1" "2+2")
      empty_world
    = (Ok {| response_id := 1; result := None;
             error := Some (InternalError "Error invoking agent: 'content'") |},
       w') /\
    exists t pre,
      tasks w' !! "t1" = Some t /\
      task_status t = working /\
      calls w' = pre ++ [call_agent_invoke "2+2" "s1"].
Proof.
  refine (proj1 (malformed_answer_on_sync_path keyless_agent None trusting
                   (text_request "t1" "2+2") empty_world "2+2" [] keyless
                   eq_refl eq_refl) eq_refl eq_refl _).
  intros c Hc. discriminate Hc.
Defined.

(** X4.  The streaming loop stops at the first increment it cannot
    read.  When the increments before it were processed and the next
    one lacks "is_task_complete" or "content", the run enqueues the
    [KeyError] as its error event and leaves the world as those earlier
    increments left it: the malformed increment writes nothing and the
    increments after it are never processed. *)
Theorem malformed_increment_stops_the_run
    (agent : Agent) (auth : option PushNotificationSenderAuth)
    (request : SendTaskRequest) (w w1 : World)
    (q : string) (rest : list Part)
    (items later : list AgentDict) (bad : AgentDict) :
  parts (message (params request)) = TextPart q :: rest ->
  increments (stream agent q (sessionId (params request)))
  = items ++ bad :: later ->
  is_task_complete bad = None \/ content bad = None ->
  async_for (AgentTaskManager.process_increment auth (params_id (params request)))
    items None
    (add_call (call_agent_stream q (sessionId (params request))) w)
  = (Ok tt, w1) ->
  exists r w2,
    AgentTaskManager._run_streaming_agent agent auth request w = (r, w2) /\
    tasks w2 = tasks w1 /\
    calls w2
    = calls w1
      ++ [call_enqueue_events_for_sse (params_id (params request))
            (stream_error_event
               (KeyError (match is_task_complete bad with
                          | None => "is_task_complete"
                          | Some _ => "content"
                          end)))] /\
    (queue_open w1 (params_id (params request)) -> r = Ok tt).
Proof.
  intros Hq Hinc Hbad Hitems.
  rewrite (agent_run_streaming_agent_unfold agent auth request q rest Hq).
  assert (Hbody : agent_streaming_loop agent auth request q w
                  = (Raise (KeyError (match is_task_complete bad with
                                      | None => "is_task_complete"
                                      | Some _ => "content"
                                      end)), w1)).
  { unfold agent_streaming_loop, AgentTaskManager.agent_stream, bind, log, ret.
    rewrite Hinc.
    apply (async_for_stops _ items bad later _ _ w1); [exact Hitems|].
    apply agent_increment_without_key. exact Hbad. }
  destruct (try_except_enqueues _ (params_id (params request)) w _ w1 Hbody)
    as (r & w2 & Hrun & Ht & _ & Hc & Hr).
  exists r, w2. auto.
Qed.

Lemma malformed_increment_stops_the_run_witness :
  let w1 :=
    snd (AgentTaskManager.process_increment None "t1"
           (agent_dict false false "Working")
           (add_call (call_agent_stream "2+2" "s1") working_world)) in
  exists r w2,
    AgentTaskManager._run_streaming_agent keyless_agent None
      (text_request "t1" "2+2") working_world = (r, w2) /\
    tasks w2 = tasks w1 /\
    calls w2
    = calls w1
      ++ [call_enqueue_events_for_sse "t1"
            (stream_error_event (KeyError "content"))] /\
    (queue_open w1 "t1" -> r = Ok tt).
Proof.
  refine (malformed_increment_stops_the_run keyless_agent None
            (text_request "t1" "2+2") working_world _ "2+2" []
            [agent_dict false false "Working"] [agent_dict true false "4"]
            keyless eq_refl eq_refl (or_intror eq_refl) _).
  vm_compute. reflexivity.
Defined.

(** X5.  [on_send_task_subscribe] of both managers and
    [on_resubscribe_to_task] never raise -- every exception of their
    body becomes an error response -- and never write a status: the
    tasks already stored are left as they were and no [update_store] is
    called, so a task created by a subscription stays SUBMITTED until
    the run processes its first increment. *)
Theorem subscriptions_neither_raise_nor_update
    (agent : Agent) (auth : option PushNotificationSenderAuth)
    (math_auth : PushNotificationSenderAuth)
    (request : SendTaskRequest) (again : TaskResubscriptionRequest)
    (w : World) :
  (exists r w',
      AgentTaskManager.on_send_task_subscribe agent auth request w = (Ok r, w') /\
      store_untouched w w') /\
  (exists r w',
      MathAgentTaskManager.on_send_task_subscribe math_auth request w
      = (Ok r, w') /\
      store_untouched w w') /\
  (exists r w',
      MathAgentTaskManager.on_resubscribe_to_task again w = (Ok r, w') /\
      store_untouched w w').
Proof.
  split; [|split].
  - pose proof (never_updates_agent_on_send_task_subscribe agent auth request w)
      as Hu.
    unfold AgentTaskManager.on_send_task_subscribe in *.
    match goal with
    | |- context [try_except ?m (fun e => ret (@?h e))] =>
        destruct (try_except_returns m h w) as (r & w' & E)
    end.
    rewrite E in *. eauto.
  - pose proof (never_updates_math_on_send_task_subscribe math_auth request w)
      as Hu.
    unfold MathAgentTaskManager.on_send_task_subscribe in *.
    match goal with
    | |- context [try_except ?m (fun e => ret (@?h e))] =>
        destruct (try_except_returns m h w) as (r & w' & E)
    end.
    rewrite E in *. eauto.
  - pose proof (never_updates_on_resubscribe_to_task again w) as Hu.
    unfold MathAgentTaskManager.on_resubscribe_to_task in *.
    match goal with
    | |- context [try_except ?m (fun e => ret (@?h e))] =>
        destruct (try_except_returns m h w) as (r & w' & E)
    end.
    rewrite E in *. eauto.
Qed.

(** X6.  An accepted subscription stores its task -- the one the store
    had, or a new SUBMITTED one -- and the push target of the request.
    For a task without consumer it then sets up the queue, empty and
    open, spawns the run as its last call and returns the event stream;
    for a task that has a consumer it returns an [InternalError],
    leaves the queue alone and spawns no run. *)
Theorem subscription_sets_up_one_run
    (agent : Agent) (auth : option PushNotificationSenderAuth)
    (request : SendTaskRequest) (w : World) :
  AgentTaskManager._validate_request agent request = None ->
  (forall c, pushNotification (params request) = Some c ->
             agent_verifies auth c = true) ->
  exists w',
    AgentTaskManager.on_send_task_subscribe agent auth request w
    = (Ok (match task_sse_subscribers w !! params_id (params request) with
           | None => SSEStream (request_id request) (params_id (params request))
           | Some _ =>
               ErrorResponse
                 {| rpc_id := request_id request;
                    rpc_error :=
                      Some (InternalError
                              ("An error occurred while streaming the response: "
                               +:+ str (AlreadySubscribedError
                                          (params_id (params request))))) |}
           end), w') /\
    tasks w' !! params_id (params request)
    = Some (match tasks w !! params_id (params request) with
            | Some t => t
            | None => InMemoryTaskManager.new_task (params request)
            end) /\
    (forall c, pushNotification (params request) = Some c ->
               push_notification_infos w' !! params_id (params request)
               = Some c) /\
    match task_sse_subscribers w !! params_id (params request) with
    | None =>
        task_sse_subscribers w' !! params_id (params request)
        = Some {| backlog := []; closed := false |} /\
        exists pre,
          calls w'
          = pre ++ [call_setup_sse_consumer (params_id (params request)) false;
                    call_create_task request]
    | Some q =>
        task_sse_subscribers w' !! params_id (params request) = Some q /\
        forall c, In c (calls w') ->
                  In c (calls w) \/ c <> call_create_task request
    end.
Proof. apply agent_subscribe_spec. Qed.

Lemma subscription_sets_up_one_run_witness :
  let request :=
    with_push (text_request "t1" "2+2") "https://client.example/hook" in
  exists w',
    AgentTaskManager.on_send_task_subscribe
      (A2EMathCurrencyAgent.agent (Some (answering_graph "4")))
      (Some trusting) request empty_world
    = (Ok (SSEStream 1 "t1"), w') /\
    tasks w' !! "t1" = Some (InMemoryTaskManager.new_task (params request)) /\
    (forall c, pushNotification (params request) = Some c ->
               push_notification_infos w' !! "t1" = Some c) /\
    task_sse_subscribers w' !! "t1" = Some {| backlog := []; closed := false |} /\
    exists pre,
      calls w' = pre ++ [call_setup_sse_consumer "t1" false;
                         call_create_task request].
Proof.
  refine (subscription_sets_up_one_run
            (A2EMathCurrencyAgent.agent (Some (answering_graph "4")))
            (Some trusting)
            (with_push (text_request "t1" "2+2") "https://client.example/hook")
            empty_world eq_refl _).
  intros c Hc. injection Hc as <-. reflexivity.
Defined.

(** X7.  Push targets of [AgentTaskManager]: a target that passes
    [set_push_notification_info] is stored under the task id, and the
    next [send_task_notification] for that task posts the task to its
    URL exactly once when a sender is configured; without a sender the
    target is stored unverified and nothing is ever posted.  A target
    that fails verification is answered [False] and not stored.  The
    store is never touched. *)
Theorem agent_push_target_round_trip
    (auth : option PushNotificationSenderAuth)
    (id : string) (c : PushNotificationConfig) (t : Task) (w : World) :
  task_id t = id ->
  (agent_verifies auth c = true ->
   exists w1 w2,
     AgentTaskManager.set_push_notification_info auth id c w = (Ok true, w1) /\
     AgentTaskManager.send_task_notification auth t w1 = (Ok tt, w2) /\
     push_notification_infos w2 !! id = Some c /\
     tasks w2 = tasks w /\
     calls w2
     = calls w
       ++ [call_set_push_notification_info id c; call_send_task_notification t]
       ++ match auth with
          | Some _ => [call_send_push_notification (url c) t]
          | None => []
          end)
  /\
  (agent_verifies auth c = false ->
   AgentTaskManager.set_push_notification_info auth id c w = (Ok false, w)).
Proof.
  intros Hid. split.
  - apply agent_registered_then_notified. exact Hid.
  - destruct auth as [a|]; [|discriminate].
    apply agent_unverified_not_registered.
Qed.

Lemma agent_push_target_round_trip_witness :
  let c := {| url := "https://client.example/hook" |} in
  let t := InMemoryTaskManager.new_task (params (text_request "t1" "2+2")) in
  exists w1 w2,
    AgentTaskManager.set_push_notification_info (Some trusting) "t1" c
      empty_world = (Ok true, w1) /\
    AgentTaskManager.send_task_notification (Some trusting) t w1 = (Ok tt, w2) /\
    push_notification_infos w2 !! "t1" = Some c /\
    tasks w2 = tasks empty_world /\
    calls w2
    = calls empty_world
      ++ [call_set_push_notification_info "t1" c; call_send_task_notification t]
      ++ [call_send_push_notification "https://client.example/hook" t].
Proof.
  exact (proj1 (agent_push_target_round_trip (Some trusting) "t1"
                  {| url := "https://client.example/hook" |}
                  (InMemoryTaskManager.new_task
                     (params (text_request "t1" "2+2")))
                  empty_world eq_refl) eq_refl).
Defined.

(** X8.  Push targets of [MathAgentTaskManager]: every target is
    verified; one that passes is stored and the next
    [send_task_notification] for its task posts the task to its URL
    exactly once, one that fails is answered [False] and not stored. *)
Theorem math_push_target_round_trip
    (auth : PushNotificationSenderAuth)
    (id : string) (c : PushNotificationConfig) (t : Task) (w : World) :
  task_id t = id ->
  (verify_push_notification_url auth (url c) = true ->
   exists w1 w2,
     MathAgentTaskManager.set_push_notification_info auth id c w
     = (Ok true, w1) /\
     MathAgentTaskManager.send_task_notification t w1 = (Ok tt, w2) /\
     push_notification_infos w2 !! id = Some c /\
     tasks w2 = tasks w /\
     calls w2
     = calls w
       ++ [call_set_push_notification_info id c; call_send_task_notification t;
           call_send_push_notification (url c) t])
  /\
  (verify_push_notification_url auth (url c) = false ->
   MathAgentTaskManager.set_push_notification_info auth id c w = (Ok false, w)).
Proof.
  intros Hid. split.
  - apply math_registered_then_notified. exact Hid.
  - apply math_unverified_not_registered.
Qed.

Lemma math_push_target_round_trip_witness :
  MathAgentTaskManager.set_push_notification_info distrusting "t1"
    {| url := "https://unreachable.example/hook" |} working_world
  = (Ok false, working_world).
Proof.
  exact (proj2 (math_push_target_round_trip distrusting "t1"
                  {| url := "https://unreachable.example/hook" |}
                  (InMemoryTaskManager.new_task
                     (params (text_request "t1" "2+2")))
                  working_world eq_refl) eq_refl).
Defined.

(** X9.  Whatever [on_send_task] and [on_send_task_subscribe] of either
    manager return -- a result, an error, a stream -- carries the id of
    the request. *)
Theorem responses_echo_request_id
    (agent : Agent) (auth : option PushNotificationSenderAuth)
    (math_auth : PushNotificationSenderAuth)
    (request : SendTaskRequest) (w : World) :
  (forall resp w',
      AgentTaskManager.on_send_task agent auth request w = (Ok resp, w') ->
      response_id resp = request_id request) /\
  (forall resp w',
      MathAgentTaskManager.on_send_task agent math_auth request w
      = (Ok resp, w') ->
      response_id resp = request_id request) /\
  (forall r w',
      AgentTaskManager.on_send_task_subscribe agent auth request w
      = (Ok r, w') ->
      subscribe_result_id r = request_id request) /\
  (forall r w',
      MathAgentTaskManager.on_send_task_subscribe math_auth request w
      = (Ok r, w') ->
      subscribe_result_id r = request_id request).
Proof.
  repeat split; intros r w' H.
  - exact (agent_on_send_task_echoes_id agent auth request w r w' H).
  - exact (math_on_send_task_echoes_id agent math_auth request w r w' H).
  - exact (agent_on_send_task_subscribe_echoes_id agent auth request w r w' H).
  - exact (math_on_send_task_subscribe_echoes_id math_auth request w r w' H).
Qed.

Lemma responses_echo_request_id_witness :
  response_id (error_response (png_request "t1") IncompatibleTypesError)
  = request_id (png_request "t1").
Proof.
  exact (proj1 (responses_echo_request_id
                  (A2EMathCurrencyAgent.agent (Some (answering_graph "4")))
                  None trusting (png_request "t1") empty_world)
           (error_response (png_request "t1") IncompatibleTypesError)
           empty_world eq_refl).
Defined.

(** X10.  [AgentTaskManager.on_send_task] over [A2EMathCurrencyAgent]:
    an agent whose graph was never built answers every accepted request
    with INPUT_REQUIRED and the message "Agent initialization failed.
    Please try again later.", adding no artifact; an agent with a graph
    completes the task with one artifact of role "assistant" holding
    the content of the last message of the graph's result. *)
Theorem currency_agent_sync_answer
    (graph : option CompiledGraph) (auth : option PushNotificationSenderAuth)
    (request : SendTaskRequest) (w : World) (q : string) (rest : list Part) :
  AgentTaskManager._validate_request (A2EMathCurrencyAgent.agent graph) request
  = None ->
  (forall c, pushNotification (params request) = Some c ->
             agent_verifies auth c = true) ->
  parts (message (params request)) = TextPart q :: rest ->
  (graph = None ->
   exists w' stored,
     AgentTaskManager.on_send_task (A2EMathCurrencyAgent.agent graph) auth
       request w
     = (Ok {| response_id := request_id request;
              result := Some (InMemoryTaskManager.append_task_history stored
                                (historyLength (params request)));
              error := None |}, w') /\
     tasks w' !! params_id (params request) = Some stored /\
     task_status stored
     = {| state := INPUT_REQUIRED;
          status_message :=
            Some (agent_message
                    "Agent initialization failed. Please try again later.") |} /\
     task_artifacts stored = prior_artifacts w (params_id (params request)))
  /\
  (forall g messages m,
      graph = Some g ->
      graph_invoke g q (sessionId (params request)) = Ok messages ->
      last messages = Some m ->
      exists w' stored,
        AgentTaskManager.on_send_task (A2EMathCurrencyAgent.agent graph) auth
          request w
        = (Ok {| response_id := request_id request;
                 result := Some (InMemoryTaskManager.append_task_history stored
                                   (historyLength (params request)));
                 error := None |}, w') /\
        tasks w' !! params_id (params request) = Some stored /\
        task_status stored = {| state := COMPLETED; status_message := None |} /\
        task_artifacts stored
        = prior_artifacts w (params_id (params request))
          ++ [text_artifact (Some "assistant") (message_content m)]).
Proof.
  intros Hv Hp Hq. split.
  - intros ->.
    destruct (agent_answer_stored (A2EMathCurrencyAgent.agent None) auth
                request w q rest initialization_failed
                "Agent initialization failed. Please try again later."
                Hv Hp Hq eq_refl eq_refl)
      as (w' & t & Hrun & Ht & Hst & Hart).
    exists w', t. auto.
  - intros g messages m -> Hi Hl.
    assert (Hinv : invoke (A2EMathCurrencyAgent.agent (Some g)) q
                     (sessionId (params request))
                   = Ok (agent_dict true false (message_content m))).
    { cbn. unfold A2EMathCurrencyAgent.invoke. rewrite Hi, Hl. reflexivity. }
    destruct (agent_answer_stored (A2EMathCurrencyAgent.agent (Some g)) auth
                request w q rest _ (message_content m) Hv Hp Hq Hinv eq_refl)
      as (w' & t & Hrun & Ht & Hst & Hart).
    exists w', t. auto.
Qed.

Lemma currency_agent_sync_answer_witness :
  exists w' stored,
    AgentTaskManager.on_send_task (A2EMathCurrencyAgent.agent None) None
      (text_request "t1" "2+2") empty_world
    = (Ok {| response_id := 1;
             result := Some (InMemoryTaskManager.append_task_history stored None);
             error := None |}, w') /\
    tasks w' !! "t1" = Some stored /\
    task_status stored
    = {| state := INPUT_REQUIRED;
         status_message :=
           Some (agent_message
                   "Agent initialization failed. Please try again later.") |} /\
    task_artifacts stored = prior_artifacts empty_world "t1".
Proof.
  refine (proj1 (currency_agent_sync_answer None None
                   (text_request "t1" "2+2") empty_world "2+2" []
                   eq_refl _ eq_refl) eq_refl).
  intros c Hc. discriminate Hc.
Defined.

(** X11.  A streaming run of [AgentTaskManager] over
    [A2EMathCurrencyAgent] whose graph streams to its end: the run
    returns, the stored task is COMPLETED with exactly one artifact
    added, of role "assistant" and holding the content of the last
    message of the graph's final state, and the last event enqueued is
    the final status event. *)
Theorem currency_run_completes_task
    (g : CompiledGraph) (auth : option PushNotificationSenderAuth)
    (request : SendTaskRequest) (w : World) (t : Task)
    (q : string) (rest : list Part) :
  parts (message (params request)) = TextPart q :: rest ->
  stream_failure
    (A2EMathCurrencyAgent.stream (Some g) q (sessionId (params request)))
  = None ->
  tasks w !! params_id (params request) = Some t ->
  queue_open w (params_id (params request)) ->
  exists w' m,
    AgentTaskManager._run_streaming_agent
      (A2EMathCurrencyAgent.agent (Some g)) auth request w = (Ok tt, w') /\
    last (get_state_messages g q (sessionId (params request))) = Some m /\
    updated_as w' (params_id (params request)) t
      {| state := COMPLETED; status_message := None |}
      [text_artifact (Some "assistant") (message_content m)] true.
Proof.
  intros Hq Hfail Ht Hopen.
  pose proof (currency_stream_shape g q (sessionId (params request))) as Hs.
  rewrite Hfail in Hs. destruct Hs as (progress & m & Hinc & Hprog & Hlast).
  destruct (agent_run_with_final (A2EMathCurrencyAgent.agent (Some g)) auth
              request w t q rest progress true false (message_content m)
              Hq Hinc Hfail Hprog eq_refl Ht Hopen)
    as (w' & t1 & Hrun & Ha1 & _ & _ & _ & Hc).
  exists w', m. split; [exact Hrun|]. split; [exact Hlast|].
  specialize (Hc eq_refl). unfold updated_as in *. rewrite <- Ha1. exact Hc.
Qed.

Lemma currency_run_completes_task_witness :
  exists w' m,
    AgentTaskManager._run_streaming_agent
      (A2EMathCurrencyAgent.agent (Some (answering_graph "4"))) None
      (text_request "t1" "2+2") working_world = (Ok tt, w') /\
    last (get_state_messages (answering_graph "4") "2+2" "s1") = Some m /\
    updated_as w' "t1"
      {| task_id := "t1"; task_sessionId := "s1"; task_status := working;
         task_artifacts := []; task_history := [] |}
      {| state := COMPLETED; status_message := None |}
      [text_artifact (Some "assistant") (message_content m)] true.
Proof.
  refine (currency_run_completes_task (answering_graph "4") None
            (text_request "t1" "2+2") working_world _ "2+2" []
            eq_refl eq_refl _ _).
  - vm_compute. reflexivity.
  - vm_compute. exact I.
Defined.



(** X13.  A streaming run of [MathAgentTaskManager] over [MathAgent]
    whose graph streams to its end finishes the task by the structured
    response of the graph's final state: status "completed" gives
    COMPLETED with one artifact (index 0, not appended) holding the
    response message; "input_required" and "error" give INPUT_REQUIRED
    with the response message; no structured response gives
    INPUT_REQUIRED with the agent's fixed apology.  The last event is
    the final status event. *)
Theorem math_run_finishes_by_structured_response
    (g : CompiledGraph) (request : SendTaskRequest) (w : World) (t : Task)
    (q : string) (rest : list Part) :
  parts (message (params request)) = TextPart q :: rest ->
  stream_failure (MathAgent.stream g q (sessionId (params request))) = None ->
  tasks w !! params_id (params request) = Some t ->
  queue_open w (params_id (params request)) ->
  exists w',
    MathAgentTaskManager._run_streaming_agent (MathAgent.agent g) request w
    = (Ok tt, w') /\
    match get_state_structured_response g q (sessionId (params request)) with
    | Some sr =>
        match response_status sr with
        | completed =>
            updated_as w' (params_id (params request)) t
              {| state := COMPLETED; status_message := None |}
              [math_stream_artifact (response_message sr)] true
        | _ =>
            updated_as w' (params_id (params request)) t
              {| state := INPUT_REQUIRED;
                 status_message :=
                   Some (agent_message (response_message sr)) |}
              [] true
        end
    | None =>
        updated_as w' (params_id (params request)) t
          {| state := INPUT_REQUIRED;
             status_message :=
               Some (agent_message
                       "We are unable to process your request at the moment. Please try again.") |}
          [] true
    end.
Proof.
  intros Hq Hfail Ht Hopen.
  pose proof (math_stream_shape g q (sessionId (params request))) as Hs.
  rewrite Hfail in Hs. destruct Hs as (progress & Hinc & Hprog).
  assert (Hrun : forall c r text,
             MathAgent.get_agent_response g q (sessionId (params request))
             = agent_dict c r text ->
             c && r = false ->
             exists w',
               MathAgentTaskManager._run_streaming_agent (MathAgent.agent g)
                 request w = (Ok tt, w') /\
               follows_increment (agent_dict c r text) text
                 (math_stream_artifact text) w' (params_id (params request)) t).
  { intros c r text Hresp Hcr. rewrite Hresp in Hinc.
    destruct (math_run_with_final (MathAgent.agent g) request w t q rest
                progress c r text Hq Hinc Hfail Hprog Hcr Ht Hopen)
      as (w' & t1 & Hrun & Ha1 & _ & Hf).
    exists w'. split; [exact Hrun|].
    unfold follows_increment, updated_as in *. rewrite <- Ha1. exact Hf. }
  unfold MathAgent.get_agent_response in Hrun.
  destruct (get_state_structured_response g q (sessionId (params request)))
    as [sr|].
  - destruct (response_status sr);
      destruct (Hrun _ _ _ eq_refl eq_refl) as (w' & Hr & _ & Hin & Hdone);
      exists w'; (split; [exact Hr|]);
      first [exact (Hin eq_refl) | exact (Hdone eq_refl)].
  - destruct (Hrun _ _ _ eq_refl eq_refl) as (w' & Hr & _ & Hin & _).
    exists w'. split; [exact Hr|]. exact (Hin eq_refl).
Qed.

Lemma math_run_finishes_by_structured_response_witness :
  exists w',
    MathAgentTaskManager._run_streaming_agent
      (MathAgent.agent (asking_graph "Which numbers?"))
      (text_request "t1" "add") working_world
    = (Ok tt, w') /\
    updated_as w' "t1"
      {| task_id := "t1"; task_sessionId := "s1"; task_status := working;
         task_artifacts := []; task_history := [] |}
      {| state := INPUT_REQUIRED;
         status_message := Some (agent_message "Which numbers?") |}
      [] true.
Proof.
  refine (math_run_finishes_by_structured_response
            (asking_graph "Which numbers?") (text_request "t1" "add")
            working_world _ "add" [] eq_refl eq_refl _ _).
  - vm_compute. reflexivity.
  - vm_compute. exact I.
Defined.



(** X15.  The MCP tools answer "Unexpected response format" to every
    reply that is a JSON object without usable content: one without
    "result" -- so the message of a JSON-RPC error reply is dropped --
    and one whose result has no non-empty artifacts and no status
    message. *)
Theorem tool_reply_without_content
    (agent_name : string) (describe : PyError -> string)
    (session_id task_id : string) (post : SendTaskRequest -> HttpExchange)
    (prompt : string) (d : list (string * JSON)) :
  post (A2AClient.payload session_id task_id prompt) = Body (JDict d) ->
  (A2AClient.dict_lookup "result" d = None \/
   exists rd,
     A2AClient.dict_lookup "result" d = Some (JDict rd) /\
     match A2AClient.dict_lookup "artifacts" rd with
     | Some a => A2AClient.truthy a = false
     | None => True
     end /\
     match A2AClient.dict_lookup "status" rd with
     | None => True
     | Some (JDict sd) =>
         match A2AClient.dict_lookup "message" sd with
         | Some m => A2AClient.truthy m = false
         | None => True
         end
     | Some _ => False
     end) ->
  A2AClient._call_a2a_agent agent_name describe session_id task_id post prompt
  = JString "Unexpected response format".
Proof.
  intros Hpost H.
  rewrite (call_reads_body agent_name describe session_id task_id post
             prompt _ Hpost).
  unfold A2AClient.extract_content.
  cbn [A2AClient.contains A2AClient.item and_then].
  destruct H as [H | (rd & Hr & Ha & Hs)].
  - rewrite H. reflexivity.
  - rewrite Hr. cbn [A2AClient.contains A2AClient.item and_then].
    destruct (A2AClient.dict_lookup "artifacts" rd) as [a|].
    + cbn [and_then]. rewrite Ha.
      destruct (A2AClient.dict_lookup "status" rd) as [st|]; [|reflexivity].
      destruct st as [| | | | |sd]; try contradiction.
      cbn [and_then A2AClient.get].
      destruct (A2AClient.dict_lookup "message" sd) as [m|];
        [cbn [and_then]; rewrite Hs|]; reflexivity.
    + cbn [and_then].
      destruct (A2AClient.dict_lookup "status" rd) as [st|]; [|reflexivity].
      destruct st as [| | | | |sd]; try contradiction.
      cbn [and_then A2AClient.get].
      destruct (A2AClient.dict_lookup "message" sd) as [m|];
        [cbn [and_then]; rewrite Hs|]; reflexivity.
Qed.

Lemma tool_reply_without_content_witness :
  A2AClient._call_a2a_agent "Math" (fun _ => "error") "s1" "t1"
    (fun _ =>
       Body (JDict [("jsonrpc", JString "2.0"); ("id", JNumber 1);
                    ("error",
                     JDict [("code", JNumber (-32005));
                            ("message",
                             JString "Incompatible content types")])]))
    "Add 2.0 and 2.0"
  = JString "Unexpected response format".
Proof.
  exact (tool_reply_without_content "Math" (fun _ => "error") "s1" "t1"
           (fun _ =>
              Body (JDict [("jsonrpc", JString "2.0"); ("id", JNumber 1);
                           ("error",
                            JDict [("code", JNumber (-32005));
                                   ("message",
                                    JString "Incompatible content types")])]))
           "Add 2.0 and 2.0" _ eq_refl (or_introl eq_refl)).
Defined.

(** X16.  When the result of the reply carries a non-empty list of
    artifacts, the MCP tools return the text of the first part of the
    first artifact, whatever the status of the task says. *)
Theorem tool_returns_first_artifact_text
    (agent_name : string) (describe : PyError -> string)
    (session_id task_id : string) (post : SendTaskRequest -> HttpExchange)
    (prompt : string) (d rd ad pd : list (string * JSON))
    (more more' : list JSON) (v : JSON) :
  post (A2AClient.payload session_id task_id prompt) = Body (JDict d) ->
  A2AClient.dict_lookup "result" d = Some (JDict rd) ->
  A2AClient.dict_lookup "artifacts" rd = Some (JList (JDict ad :: more)) ->
  A2AClient.dict_lookup "parts" ad = Some (JList (JDict pd :: more')) ->
  A2AClient.dict_lookup "text" pd = Some v ->
  A2AClient._call_a2a_agent agent_name describe session_id task_id post prompt
  = v.
Proof.
  intros Hpost Hr Ha Hp Ht.
  rewrite (call_reads_body agent_name describe session_id task_id post
             prompt _ Hpost).
  unfold A2AClient.extract_content.
  cbn [A2AClient.contains A2AClient.item and_then]. rewrite Hr.
  cbn [A2AClient.contains A2AClient.item and_then]. rewrite Ha.
  cbn [A2AClient.truthy A2AClient.first A2AClient.item and_then]. rewrite Hp.
  cbn [A2AClient.first A2AClient.item and_then]. rewrite Ht. reflexivity.
Qed.

Lemma tool_returns_first_artifact_text_witness :
  A2AClient._call_a2a_agent "Math" (fun _ => "error") "s1" "t1"
    (fun _ =>
       Body (JDict
               [("jsonrpc", JString "2.0"); ("id", JNumber 1);
                ("result",
                 JDict [("id", JString "t1");
                        ("status", JDict [("state", JString "completed")]);
                        ("artifacts",
                         JList [JDict [("parts",
                                        JList [JDict [("type", JString "text");
                                                      ("text", JString "4")]]);
                                       ("index", JNumber 0)]])])]))
    "Add 2.0 and 2.0"
  = JString "4".
Proof.
  exact (tool_returns_first_artifact_text "Math" (fun _ => "error") "s1" "t1"
           (fun _ =>
              Body (JDict
                      [("jsonrpc", JString "2.0"); ("id", JNumber 1);
                       ("result",
                        JDict [("id", JString "t1");
                               ("status",
                                JDict [("state", JString "completed")]);
                               ("artifacts",
                                JList [JDict [("parts",
                                               JList [JDict [("type", JString "text");
                                                             ("text", JString "4")]]);
                                              ("index", JNumber 0)]])])]))
           "Add 2.0 and 2.0" _ _ _ _ _ _ _ eq_refl eq_refl eq_refl eq_refl
           eq_refl).
Defined.

(** X17.  When the result carries no artifacts, or an empty list, the
    MCP tools fall back to the status message of the task and return
    the text of its first part: the question of an INPUT_REQUIRED task
    reaches the caller of the tool as if it were the answer. *)
Theorem tool_falls_back_to_status_message
    (agent_name : string) (describe : PyError -> string)
    (session_id task_id : string) (post : SendTaskRequest -> HttpExchange)
    (prompt : string) (d rd sd md pd : list (string * JSON))
    (more : list JSON) (v : JSON) :
  post (A2AClient.payload session_id task_id prompt) = Body (JDict d) ->
  A2AClient.dict_lookup "result" d = Some (JDict rd) ->
  match A2AClient.dict_lookup "artifacts" rd with
  | Some a => A2AClient.truthy a = false
  | None => True
  end ->
  A2AClient.dict_lookup "status" rd = Some (JDict sd) ->
  A2AClient.dict_lookup "message" sd = Some (JDict md) ->
  A2AClient.dict_lookup "parts" md = Some (JList (JDict pd :: more)) ->
  A2AClient.dict_lookup "text" pd = Some v ->
  A2AClient._call_a2a_agent agent_name describe session_id task_id post prompt
  = v.
Proof.
  intros Hpost Hr Ha Hs Hm Hp Ht.
  assert (Hmd : A2AClient.truthy (JDict md) = true).
  { destruct md; [discriminate Hp|reflexivity]. }
  rewrite (call_reads_body agent_name describe session_id task_id post
             prompt _ Hpost).
  unfold A2AClient.extract_content.
  cbn [A2AClient.contains A2AClient.item and_then]. rewrite Hr.
  cbn [A2AClient.contains A2AClient.item and_then].
  assert (Hrest :
    and_then (A2AClient.contains "status" (JDict rd)) (fun has_status =>
    and_then (if (has_status : bool)
              then and_then (A2AClient.item "status" (JDict rd)) (fun st =>
                   and_then (A2AClient.get "message" st) (fun m =>
                   Value (A2AClient.truthy m)))
              else Value false) (fun with_message =>
    if (with_message : bool) then
      and_then (A2AClient.item "status" (JDict rd)) (fun st =>
      and_then (A2AClient.item "message" st) (fun m =>
      and_then (A2AClient.item "parts" m) (fun ps =>
      and_then (A2AClient.first ps) (fun part =>
      A2AClient.item "text" part))))
    else Value A2AClient.unexpected_format))
    = Value v).
  { cbn [A2AClient.contains A2AClient.item and_then]. rewrite Hs.
    cbn [A2AClient.get A2AClient.item and_then]. rewrite Hm.
    cbn [and_then]. rewrite Hmd.
    cbn [A2AClient.item and_then]. rewrite ?Hm.
    cbn [A2AClient.item and_then]. rewrite Hp.
    cbn [A2AClient.first A2AClient.item and_then]. rewrite Ht. reflexivity. }
  cbn [A2AClient.contains A2AClient.item and_then] in Hrest.
  destruct (A2AClient.dict_lookup "artifacts" rd) as [a|].
  - cbn [and_then]. rewrite Ha. rewrite Hrest. reflexivity.
  - cbn [and_then]. rewrite Hrest. reflexivity.
Qed.

Lemma tool_falls_back_to_status_message_witness :
  A2AClient._call_a2a_agent "Math" (fun _ => "error") "s1" "t1"
    (fun _ =>
       Body (JDict
               [("jsonrpc", JString "2.0"); ("id", JNumber 1);
                ("result",
                 JDict [("id", JString "t1");
                        ("status",
                         JDict [("state", JString "input-required");
                                ("message",
                                 JDict [("role", JString "agent");
                                        ("parts",
                                         JList [JDict [("type", JString "text");
                                                       ("text",
                                                        JString "Which numbers?")]])])])])]))
    "Add"
  = JString "Which numbers?".
Proof.
  exact (tool_falls_back_to_status_message "Math" (fun _ => "error") "s1" "t1"
           (fun _ =>
              Body (JDict
                      [("jsonrpc", JString "2.0"); ("id", JNumber 1);
                       ("result",
                        JDict [("id", JString "t1");
                               ("status",
                                JDict [("state", JString "input-required");
                                       ("message",
                                        JDict [("role", JString "agent");
                                               ("parts",
                                                JList [JDict [("type", JString "text");
                                                              ("text",
                                                               JString "Which numbers?")]])])])])]))
           "Add" _ _ _ _ _ _ _ eq_refl eq_refl I eq_refl eq_refl eq_refl
           eq_refl).
Defined.

(** X18.  Non-empty artifacts are final for the MCP tools: when the
    first artifact has no "parts" the [KeyError] is reported as
    "Unexpected error: ..." and the status message is not consulted. *)
Theorem tool_reports_artifact_without_parts
    (agent_name : string) (describe : PyError -> string)
    (session_id task_id : string) (post : SendTaskRequest -> HttpExchange)
    (prompt : string) (d rd ad : list (string * JSON)) (more : list JSON) :
  post (A2AClient.payload session_id task_id prompt) = Body (JDict d) ->
  A2AClient.dict_lookup "result" d = Some (JDict rd) ->
  A2AClient.dict_lookup "artifacts" rd = Some (JList (JDict ad :: more)) ->
  A2AClient.dict_lookup "parts" ad = None ->
  A2AClient._call_a2a_agent agent_name describe session_id task_id post prompt
  = JString ("Unexpected error: " +:+ describe (PyKeyError (JString "parts"))).
Proof.
  intros Hpost Hr Ha Hp.
  rewrite (call_reads_body agent_name describe session_id task_id post
             prompt _ Hpost).
  unfold A2AClient.extract_content.
  cbn [A2AClient.contains A2AClient.item and_then]. rewrite Hr.
  cbn [A2AClient.contains A2AClient.item and_then]. rewrite Ha.
  cbn [A2AClient.truthy A2AClient.first A2AClient.item and_then]. rewrite Hp.
  reflexivity.
Qed.

Lemma tool_reports_artifact_without_parts_witness :
  A2AClient._call_a2a_agent "Currency" (fun _ => "'parts'") "s1" "t1"
    (fun _ =>
       Body (JDict
               [("result",
                 JDict [("artifacts", JList [JDict [("name", JString "rate")]]);
                        ("status",
                         JDict [("message",
                                 JDict [("parts",
                                         JList [JDict [("text",
                                                        JString "0.9")]])])])])]))
    "What is the exchange rate from USD to EUR?"
  = JString ("Unexpected error: " +:+ "'parts'").
Proof.
  exact (tool_reports_artifact_without_parts "Currency" (fun _ => "'parts'")
           "s1" "t1"
           (fun _ =>
              Body (JDict
                      [("result",
                        JDict [("artifacts",
                                JList [JDict [("name", JString "rate")]]);
                               ("status",
                                JDict [("message",
                                        JDict [("parts",
                                                JList [JDict [("text",
                                                               JString "0.9")]])])])])]))
           "What is the exchange rate from USD to EUR?" _ _ _ _
           eq_refl eq_refl eq_refl eq_refl).
Defined.

(** X19.  The request the MCP tools build is always served by the math
    server: [MathAgentTaskManager.on_send_task] over [MathAgent] never
    rejects it and -- when the graph, invoked with the prompt under the
    session id of the request, returns -- answers with the stored task:
    COMPLETED with the response message as new artifact for a
    structured response "completed", INPUT_REQUIRED with the response
    message, or with the agent's fixed apology, otherwise. *)
Theorem tool_request_is_served
    (g : CompiledGraph) (auth : PushNotificationSenderAuth)
    (session_id task_id prompt : string) (w : World)
    (messages : list BaseMessage) :
  graph_invoke g prompt session_id = Ok messages ->
  exists w' stored,
    MathAgentTaskManager.on_send_task (MathAgent.agent g) auth
      (A2AClient.payload session_id task_id prompt) w
    = (Ok {| response_id := 1;
             result := Some (InMemoryTaskManager.append_task_history stored
                               None);
             error := None |}, w') /\
    tasks w' !! task_id = Some stored /\
    match get_state_structured_response g prompt session_id with
    | Some sr =>
        match response_status sr with
        | completed =>
            task_status stored
            = {| state := COMPLETED; status_message := None |} /\
            task_artifacts stored
            = prior_artifacts w task_id
              ++ [text_artifact None (response_message sr)]
        | _ =>
            task_status stored
            = {| state := INPUT_REQUIRED;
                 status_message :=
                   Some (agent_message (response_message sr)) |} /\
            task_artifacts stored = prior_artifacts w task_id
        end
    | None =>
        task_status stored
        = {| state := INPUT_REQUIRED;
             status_message :=
               Some (agent_message
                       "We are unable to process your request at the moment. Please try again.") |} /\
        task_artifacts stored = prior_artifacts w task_id
    end.
Proof.
  intros Hi.
  assert (Hinv : invoke (MathAgent.agent g) prompt session_id
                 = Ok (MathAgent.get_agent_response g prompt session_id)).
  { cbn. unfold MathAgent.invoke. rewrite Hi. reflexivity. }
  assert (Hnone : forall c : PushNotificationConfig,
             @None PushNotificationConfig = Some c ->
             verify_push_notification_url auth (url c) = true).
  { intros c Hc. discriminate Hc. }
  pose proof (fun answer flag =>
                math_answer_stored (MathAgent.agent g) auth
                  (A2AClient.payload session_id task_id prompt) w prompt []
                  (MathAgent.get_agent_response g prompt session_id)
                  answer flag eq_refl Hnone eq_refl Hinv) as H.
  unfold MathAgent.get_agent_response in H.
  destruct (get_state_structured_response g prompt session_id) as [sr|].
  - destruct (response_status sr);
      destruct (H _ _ eq_refl eq_refl) as (w' & t & Hrun & Ht & Hst);
      exists w', t; auto.
  - destruct (H _ _ eq_refl eq_refl) as (w' & t & Hrun & Ht & Hst).
    exists w', t. auto.
Qed.

Lemma tool_request_is_served_witness :
  exists w' stored,
    MathAgentTaskManager.on_send_task (MathAgent.agent (answering_graph "4"))
      trusting (A2AClient.payload "s1" "t1" "Add 2.0 and 2.0") empty_world
    = (Ok {| response_id := 1;
             result := Some (InMemoryTaskManager.append_task_history stored
                               None);
             error := None |}, w') /\
    tasks w' !! "t1" = Some stored /\
    task_status stored = {| state := COMPLETED; status_message := None |} /\
    task_artifacts stored
    = prior_artifacts empty_world "t1" ++ [text_artifact None "4"].
Proof.
  exact (tool_request_is_served (answering_graph "4") trusting "s1" "t1"
           "Add 2.0 and 2.0" empty_world _ eq_refl).
Defined.

(** * Increments inside the streaming run *)

(** ** Handlers only add to the call log *)

Section appending.
Import InMemoryTaskManager.














End appending.

(** ** One increment of a run *)

Section run_increments.
Import InMemoryTaskManager.
Variable agent : Agent.



End run_increments.





